(** * EmailVerify Node SDK: request pipeline, error taxonomy and webhook
      signature check

    A shallow embedding of [src/client.ts] and [src/errors.ts], and of the
    [__require] shim that the ES module build [dist/index.mjs] puts in
    front of them.

    Conventions of the embedding.
    - A JavaScript [number] is an integer or [NaN] ([number] below); the
      client only counts attempts, seconds and milliseconds, so fractional
      and infinite values are left out, and an integer prints in decimal
      whatever its size.
    - Text that goes on the wire or into messages is a [string] of bytes.
      The webhook check, which depends on how [Buffer.from] encodes a
      JavaScript string, uses UTF-16 code units ([jsstring]).
    - The body of an error response is no JSON, the JSON value [null], or
      any other JSON value, which is read as [handleErrorResponse] reads it:
      the members [code], [message] and [details] of its member [error], as
      strings when they are there.  The body of a success response is read
      at the result type [T] of [request].
    - Asynchronous code is sequential here: a computation takes the state of
      the outside world (clock, log of HTTP calls, log of sleeps) and gives
      back how it settled together with the new state.  The clock moves
      while a call or a timer is pending, and a timer fires when its delay,
      as Node sets it, is over.
    - Whether [require] is there to load [crypto] depends on the build and
      is a parameter of the webhook check, as is the HMAC-SHA256 that
      [crypto] brings. *)

From Stdlib Require Import ZArith List String Ascii Bool Lia DecimalString.
Import ListNotations.

#[local] Open Scope string_scope.
#[local] Open Scope list_scope.
#[local] Open Scope Z_scope.

(** ** JavaScript numbers and the conversions the client uses *)

Inductive number : Type :=
| Int (z : Z)
| NaN.

(** Truthiness of a number: [0] and [NaN] are falsy. *)
Definition truthy_number (n : number) : bool :=
  match n with
  | Int z => negb (z =? 0)
  | NaN => false
  end.

(** [a < b] on numbers: any comparison with [NaN] is false. *)
Definition js_lt (a b : number) : bool :=
  match a, b with
  | Int x, Int y => x <? y
  | _, _ => false
  end.

(** [a || b] on numbers. *)
Definition or_number (a b : number) : number :=
  if truthy_number a then a else b.

(** [a * b] on numbers. *)
Definition mul_number (a b : number) : number :=
  match a, b with
  | Int x, Int y => Int (x * y)
  | _, _ => NaN
  end.

(** [n.toString()] and the conversion done by a template literal. *)
Definition number_toString (n : number) : string :=
  match n with
  | Int z => NilZero.string_of_int (Z.to_int z)
  | NaN => "NaN"
  end.

(** Truthiness of a string: only the empty string is falsy. *)
Definition truthy_string (s : string) : bool :=
  negb (String.eqb s "").

(** [a || b] where [a] may be [undefined]. *)
Definition or_string (a : option string) (b : string) : string :=
  match a with
  | Some s => if truthy_string s then s else b
  | None => b
  end.

(** White space skipped by [parseInt] among the characters a header value
    can hold (code points below 256). *)
Definition is_space (c : ascii) : bool :=
  let n := Z.of_nat (nat_of_ascii c) in
  ((9 <=? n) && (n <=? 13)) || (n =? 32) || (n =? 160).

Definition digit_value (c : ascii) : option Z :=
  let n := Z.of_nat (nat_of_ascii c) in
  if (48 <=? n) && (n <=? 57) then Some (n - 48) else None.

Fixpoint skip_spaces (s : string) : string :=
  match s with
  | String c rest => if is_space c then skip_spaces rest else s
  | EmptyString => s
  end.

(** The longest run of decimal digits at the head of [s], read as a number
    on top of [acc]; [None] when no digit was seen yet and none is there. *)
Fixpoint read_digits (s : string) (acc : option Z) : option Z :=
  match s with
  | String c rest =>
      match digit_value c with
      | Some d =>
          read_digits rest (Some (match acc with Some a => a * 10 + d | None => d end))
      | None => acc
      end
  | EmptyString => acc
  end.

(** [parseInt(s, 10)]: leading white space, an optional sign, then the
    longest prefix of decimal digits; [NaN] when there is no digit. *)
Definition parseInt (s : string) : number :=
  let s1 := skip_spaces s in
  let '(sign, s2) :=
    match s1 with
    | String "-"%char rest => (-1, rest)
    | String "+"%char rest => (1, rest)
    | _ => (1, s1)
    end in
  match read_digits s2 None with
  | Some v => Int (sign * v)
  | None => NaN
  end.

(** ** Error taxonomy ([src/errors.ts]) *)

Inductive ErrorClass : Type :=
| CEmailVerifyError
| CAuthenticationError
| CRateLimitError
| CValidationError
| CInsufficientCreditsError
| CNotFoundError
| CTimeoutError.

(** Every class extends [EmailVerifyError]; [retryAfter] exists on
    [RateLimitError] only. *)
Record Error : Type := mkError {
  cls : ErrorClass;
  message : string;
  code : string;
  statusCode : Z;
  details : option string;
  retryAfter : option number
}.

Definition default {A : Type} (d : A) (o : option A) : A :=
  match o with
  | Some a => a
  | None => d
  end.

Definition EmailVerifyError (message code : string) (statusCode : Z)
    (details : option string) : Error :=
  mkError CEmailVerifyError message code statusCode details None.

Definition AuthenticationError (message : option string) : Error :=
  mkError CAuthenticationError (default "Invalid or missing API key" message)
    "INVALID_API_KEY" 401 None None.

Definition RateLimitError (message : option string) (retryAfter : option number) : Error :=
  mkError CRateLimitError (default "Rate limit exceeded" message)
    "RATE_LIMIT_EXCEEDED" 429 None (Some (default (Int 0) retryAfter)).

Definition ValidationError (message : string) (details : option string) : Error :=
  mkError CValidationError message "INVALID_REQUEST" 400 details None.

Definition InsufficientCreditsError (message : option string) : Error :=
  mkError CInsufficientCreditsError (default "Insufficient credits" message)
    "INSUFFICIENT_CREDITS" 403 None None.

Definition NotFoundError (message : option string) : Error :=
  mkError CNotFoundError (default "Resource not found" message)
    "NOT_FOUND" 404 None None.

Definition TimeoutError (message : option string) : Error :=
  mkError CTimeoutError (default "Request timed out" message)
    "TIMEOUT" 504 None None.

(** What a [throw] can carry: an error of the taxonomy, another instance of
    [Error] (with its [name] and [message]), or a value that is no [Error]. *)
Inductive Exn : Type :=
| OfTaxonomy (e : Error)
| OtherError (name msg : string)
| NotAnError.

(** ** Wire types ([src/types.ts]) *)

Module ApiError.
Record t : Type := make {
  code : string;
  message : string;
  details : option string
}.
End ApiError.

(** The shape [{ error?: ApiError }] at which an error body is read. *)
Record ErrorData : Type := { error : option ApiError.t }.

Inductive JobStatus : Type := pending | processing | completed | failed.

Module BulkJobResponse.
Record t : Type := make {
  job_id : string;
  status : JobStatus;
  total : number;
  processed : number;
  valid : number;
  invalid : number;
  unknown : number;
  credits_used : number;
  created_at : string;
  completed_at : option string;
  progress_percent : option number
}.
End BulkJobResponse.

Record EmailVerifyConfig : Type := {
  cfg_apiKey : option string;
  cfg_baseUrl : option string;
  cfg_timeout : option number;
  cfg_retries : option number
}.

Record VerifyOptions : Type := {
  vo_smtpCheck : option bool;
  vo_timeout : option number
}.

Record BulkVerifyOptions : Type := {
  bo_smtpCheck : option bool;
  bo_webhookUrl : option string
}.

Record BulkResultsOptions : Type := {
  ro_limit : option number;
  ro_offset : option number;
  ro_status : option string
}.

(** A value handed to [JSON.stringify] as a request body.  A property whose
    value is [undefined] is dropped by [JSON.stringify]; [prop_opt] builds
    the property list accordingly. *)
#[local] Unset Elimination Schemes.
Inductive Json : Type :=
| JNull
| JBool (b : bool)
| JNumber (n : number)
| JString (s : string)
| JArray (items : list Json)
| JObject (props : list (string * Json)).
#[local] Set Elimination Schemes.

Definition prop_opt (k : string) (v : option Json) : list (string * Json) :=
  match v with
  | Some j => [(k, j)]
  | None => []
  end.

Definition truthy_json (j : Json) : bool :=
  match j with
  | JNull => false
  | JBool b => b
  | JNumber n => truthy_number n
  | JString s => truthy_string s
  | JArray _ | JObject _ => true
  end.

(** ** The outside world: HTTP server, clock and timers *)

(** The arguments of one [fetch] call. *)
Record Call : Type := {
  url : string;
  method : string;
  headers : list (string * string);
  body : option Json
}.

Inductive Outcome (A : Type) : Type :=
| Returned (a : A)
| Raised (e : Exn).
Arguments Returned {A} a.
Arguments Raised {A} e.

(** What [response.json()] gives where [handleErrorResponse] calls it: it
    throws when the body is no JSON, and otherwise gives the JSON value
    [null] or another value, of which the client reads the member [error]
    (absent also when the value is a number, a string or an array). *)
Inductive ErrorJson : Type :=
| NoJson
| JsonNull
| JsonValue (errorData : ErrorData).

(** What the client reads of a [Response].  [json_error] is the result of
    [response.json()] in [handleErrorResponse]; [json_data used] is the
    result of [response.json()] in [request], where [used] tells whether
    the body was read before. *)
Record Response (T : Type) : Type := {
  status : Z;
  statusText : string;
  retry_after : option string;
  json_error : ErrorJson;
  json_data : bool -> Outcome T
}.
Arguments status {T} r.
Arguments statusText {T} r.
Arguments retry_after {T} r.
Arguments json_error {T} r.
Arguments json_data {T} r used.

(** [response.ok]: the status is in the range 200-299. *)
Definition ok {T : Type} (r : Response T) : bool :=
  (200 <=? status r) && (status r <=? 299).

(** How the server (or the network, or the abort timer) settles one call,
    and how long that takes in milliseconds. *)
Record Reply (T : Type) : Type := {
  outcome : Outcome (Response T);
  elapsed : Z
}.
Arguments outcome {T} r.
Arguments elapsed {T} r.

(** The reply to the [k]-th call ever made, given its arguments. *)
Definition Server (T : Type) : Type := nat -> Call -> Reply T.

Record World : Type := {
  now : Z;
  calls : list Call;
  sleeps : list number
}.

(** The longest delay of a timer in Node, [2 ^ 31 - 1] milliseconds. *)
Definition TIMEOUT_MAX : Z := 2147483647.

(** How far a timer of [ms] milliseconds moves the clock: Node sets a delay
    that is below 1, above [TIMEOUT_MAX] or [NaN] to 1 millisecond. *)
Definition pause_of (ms : number) : Z :=
  match ms with
  | Int z => if (1 <=? z) && (z <=? TIMEOUT_MAX) then z else 1
  | NaN => 1
  end.

Definition fresh (t0 : Z) : World :=
  {| now := t0; calls := []; sleeps := [] |}.

(** Computations: [None] only when a fuel-bounded loop ran out of fuel. *)
Definition M (A : Type) : Type := World -> option (Outcome A * World).

Definition ret {A : Type} (a : A) : M A :=
  fun w => Some (Returned a, w).

Definition throw {A : Type} (e : Exn) : M A :=
  fun w => Some (Raised e, w).

Definition bind {A B : Type} (m : M A) (k : A -> M B) : M B :=
  fun w =>
    match m w with
    | Some (Returned a, w') => k a w'
    | Some (Raised e, w') => Some (Raised e, w')
    | None => None
    end.

(** [try { m } catch (error) { h error }] *)
Definition try_catch {A : Type} (m : M A) (h : Exn -> M A) : M A :=
  fun w =>
    match m w with
    | Some (Raised e, w') => h e w'
    | r => r
    end.

Declare Scope js_scope.
Delimit Scope js_scope with js.
Notation "x <- m ;; k" := (bind m (fun x => k))
  (at level 100, m at next level, right associativity) : js_scope.
Notation "m ;;; k" := (bind m (fun _ => k))
  (at level 100, right associativity) : js_scope.
#[local] Open Scope js_scope.

Definition Date_now : M Z :=
  fun w => Some (Returned (now w), w).

(** ** The client ([src/client.ts]) *)

Definition DEFAULT_BASE_URL : string := "https://api.emailverify.ai/v1".
Definition DEFAULT_TIMEOUT : number := Int 30000.
Definition DEFAULT_RETRIES : number := Int 3.

Record EmailVerify : Type := {
  apiKey : string;
  baseUrl : string;
  timeout : number;
  retries : number
}.

(** [s.replace(/\/$/, '')]: [s] without the slash it ends with, if any. *)
Fixpoint strip_trailing_slash (s : string) : string :=
  match s with
  | EmptyString => EmptyString
  | String c rest =>
      match rest with
      | EmptyString => if Ascii.eqb c "/" then EmptyString else s
      | String _ _ => String c (strip_trailing_slash rest)
      end
  end.

Definition constructor (config : EmailVerifyConfig) : Outcome EmailVerify :=
  if negb (truthy_string (default "" (cfg_apiKey config))) then
    Raised (OfTaxonomy (AuthenticationError (Some "API key is required")))
  else
    Returned {|
      apiKey := default "" (cfg_apiKey config);
      baseUrl := or_string (option_map strip_trailing_slash (cfg_baseUrl config))
                   DEFAULT_BASE_URL;
      timeout := match cfg_timeout config with
                 | Some t => or_number t DEFAULT_TIMEOUT
                 | None => DEFAULT_TIMEOUT
                 end;
      retries := default DEFAULT_RETRIES (cfg_retries config)
    |}.

(** ** [URLSearchParams] *)

Definition URLSearchParams : Type := list (string * string).

(** [params.set(name, value)]: the first pair named [name] takes the value
    and the other pairs of that name go; without such a pair, one is added
    at the end. *)
Fixpoint params_set (name value : string) (params : URLSearchParams) : URLSearchParams :=
  match params with
  | [] => [(name, value)]
  | (n, v) :: rest =>
      if String.eqb n name then
        (name, value) :: filter (fun p => negb (String.eqb (fst p) name)) rest
      else (n, v) :: params_set name value rest
  end.

Definition hex_upper (d : Z) : ascii :=
  ascii_of_nat (Z.to_nat (if d <? 10 then 48 + d else 55 + d)).

(** The [application/x-www-form-urlencoded] byte serializer: letters, digits
    and [*-._] stay, a space becomes [+], any other byte is percent-encoded. *)
Definition urlencode_byte (c : ascii) : string :=
  let n := Z.of_nat (nat_of_ascii c) in
  if ((48 <=? n) && (n <=? 57)) || ((65 <=? n) && (n <=? 90))
     || ((97 <=? n) && (n <=? 122))
     || (n =? 42) || (n =? 45) || (n =? 46) || (n =? 95) then
    String c EmptyString
  else if n =? 32 then "+"
  else String "%" (String (hex_upper (Z.shiftr n 4))
                     (String (hex_upper (Z.land n 15)) EmptyString)).

Fixpoint urlencode (s : string) : string :=
  match s with
  | EmptyString => EmptyString
  | String c rest => (urlencode_byte c ++ urlencode rest)%string
  end.

(** [params.toString()] *)
Fixpoint params_toString (params : URLSearchParams) : string :=
  match params with
  | [] => ""
  | (n, v) :: rest =>
      let pair := (urlencode n ++ "=" ++ urlencode v)%string in
      match rest with
      | [] => pair
      | _ :: _ => (pair ++ "&" ++ params_toString rest)%string
      end
  end.

Section Pipeline.
Context {T : Type}.
Variable server : Server T.
Variable this : EmailVerify.

(** The world once the call [c] has settled: the call is logged and the
    clock has moved by the time the reply took. *)
Definition after_call (c : Call) (w : World) : World :=
  {| now := now w + elapsed (server (List.length (calls w)) c);
     calls := calls w ++ [c];
     sleeps := sleeps w |}.

(** The world once a timer of [ms] milliseconds has fired. *)
Definition after_sleep (ms : number) (w : World) : World :=
  {| now := now w + pause_of ms;
     calls := calls w;
     sleeps := sleeps w ++ [ms] |}.

(** [fetch].  The abort timer armed by [request] belongs to the outside
    world: a call it cancels settles as [OtherError "AbortError" _]. *)
Definition fetch (c : Call) : M (Response T) :=
  fun w => Some (outcome (server (List.length (calls w)) c), after_call c w).

(** [sleep(ms)] *)
Definition sleep (ms : number) : M unit :=
  fun w => Some (Returned tt, after_sleep ms w).

(** The types of the methods [request] and [handleErrorResponse]. *)
Definition Requester : Type := string -> string -> option Json -> Z -> M (option T).
Definition Handler : Type :=
  Response T -> Z -> string -> string -> option Json -> M (option T).

(** The arguments [request] hands to [fetch]. *)
Definition call_of (method path : string) (body : option Json) : Call :=
  {| url := (baseUrl this ++ path)%string;
     method := method;
     headers := [("EMAILVERIFY-API-KEY", apiKey this);
                 ("Content-Type", "application/json");
                 ("User-Agent", "@emailverify/node/1.0.0")];
     body := match body with
             | Some b => if truthy_json b then Some b else None
             | None => None
             end |}.

(** The locals [error], [message], [code] and [retryAfter] of
    [handleErrorResponse]; a body that is not JSON reads as [{}].  (On the
    body [null] the read of [errorData.error] throws, so there is no
    [error]: see [handleErrorResponseWith].) *)
Definition error_of (response : Response T) : option ApiError.t :=
  match json_error response with
  | JsonValue errorData => error errorData
  | NoJson | JsonNull => None
  end.

Definition message_of (response : Response T) : string :=
  or_string (option_map ApiError.message (error_of response)) (statusText response).

Definition code_of (response : Response T) : string :=
  or_string (option_map ApiError.code (error_of response)) "UNKNOWN_ERROR".

Definition retryAfter_of (response : Response T) : number :=
  parseInt (or_string (retry_after response) "0").

(** The [switch] of [handleErrorResponse] on the status, with the method
    [this.request] it calls back given as [this_request].  [attempt] is at
    least 1 in every run, so [Math.pow(2, attempt)] is the integer
    [2 ^ attempt]. *)
Definition switch_on_status (this_request : Requester)
    (response : Response T) (attempt : Z) (method path : string)
    (body : option Json) : M (option T) :=
  let error := error_of response in
  let message := message_of response in
  let code := code_of response in
  if status response =? 401 then
    throw (OfTaxonomy (AuthenticationError (Some message)))
  else if status response =? 403 then
    if String.eqb code "INSUFFICIENT_CREDITS" then
      throw (OfTaxonomy (InsufficientCreditsError (Some message)))
    else
      throw (OfTaxonomy (EmailVerifyError message code 403 None))
  else if status response =? 404 then
    throw (OfTaxonomy (NotFoundError (Some message)))
  else if status response =? 429 then
    let retryAfter := retryAfter_of response in
    if js_lt (Int attempt) (retries this) then
      sleep (mul_number (or_number retryAfter (Int (2 ^ attempt))) (Int 1000)) ;;;
      this_request method path body (attempt + 1)
    else
      throw (OfTaxonomy (RateLimitError (Some message) (Some retryAfter)))
  else if status response =? 400 then
    throw (OfTaxonomy (ValidationError message
                         (match error with
                          | Some e => ApiError.details e
                          | None => None
                          end)))
  else if (status response =? 500) || (status response =? 502)
          || (status response =? 503) then
    if js_lt (Int attempt) (retries this) then
      sleep (mul_number (Int (2 ^ attempt)) (Int 1000)) ;;;
      this_request method path body (attempt + 1)
    else
      throw (OfTaxonomy (EmailVerifyError message code (status response) None))
  else
    throw (OfTaxonomy (EmailVerifyError message code (status response) None)).

(** [handleErrorResponse].  It reads [errorData.error] before the [switch]:
    on the body [null] that read throws a [TypeError] (the message is
    V8's), whatever the status. *)
Definition handleErrorResponseWith (this_request : Requester)
    (response : Response T) (attempt : Z) (method path : string)
    (body : option Json) : M (option T) :=
  match json_error response with
  | JsonNull =>
      throw (OtherError "TypeError" "Cannot read properties of null (reading 'error')")
  | NoJson | JsonValue _ =>
      switch_on_status this_request response attempt method path body
  end.

(** The [catch] block of [request]. *)
Definition request_catch (error : Exn) : M (option T) :=
  match error with
  | OfTaxonomy _ => throw error
  | OtherError name msg =>
      if String.eqb name "AbortError" then
        throw (OfTaxonomy (TimeoutError
          (Some ("Request timed out after " ++ number_toString (timeout this) ++ "ms")%string)))
      else
        throw (OfTaxonomy (EmailVerifyError ("Network error: " ++ msg)%string "NETWORK_ERROR" 0 None))
  | NotAnError =>
      throw (OfTaxonomy (EmailVerifyError "Network error: Unknown error" "NETWORK_ERROR" 0 None))
  end.

(** The body of [request], with the method [this.handleErrorResponse] it
    calls given as [this_handle].  The value [undefined] that [request]
    returns on status 204 is [None].  When [handleErrorResponse] returns
    instead of throwing, [request] goes on with the response it has. *)
Definition requestWith (this_handle : Handler)
    (method path : string) (body : option Json) (attempt : Z) : M (option T) :=
  try_catch
    (response <- fetch (call_of method path body) ;;
     (if negb (ok response) then this_handle response attempt method path body
      else ret None) ;;;
     if status response =? 204 then ret None
     else
       fun w =>
         Some (match json_data response (negb (ok response)) with
               | Returned data => Returned (Some data)
               | Raised e => Raised e
               end, w))
    request_catch.

(** [request] and [handleErrorResponse] call each other; [fuel] bounds the
    depth of that recursion. *)
Fixpoint request_fuel (fuel : nat) (method path : string) (body : option Json)
    (attempt : Z) : M (option T) :=
  match fuel with
  | O => fun _ => None
  | S fuel' =>
      requestWith (handleErrorResponseWith (request_fuel fuel')) method path body attempt
  end.

(** Each retry raises [attempt] by one and needs [attempt < retries], so
    this much fuel is never used up (see [request_total] and [request_unfold]). *)
Definition attempts_left (attempt : Z) : nat :=
  match retries this with
  | Int r => Z.to_nat (r - attempt)
  | NaN => O
  end.

Definition request (method path : string) (body : option Json) (attempt : Z)
    : M (option T) :=
  request_fuel (S (attempts_left attempt)) method path body attempt.

Definition handleErrorResponse (response : Response T) (attempt : Z)
    (method path : string) (body : option Json) : M (option T) :=
  handleErrorResponseWith request response attempt method path body.

(** The public methods pass no [attempt], which then is 1. *)

Definition verify (email : string) (options : option VerifyOptions) : M (option T) :=
  request "POST" "/verify"
    (Some (JObject
       ([("email", JString email);
         ("smtp_check",
          JBool (default true (match options with
                               | Some o => vo_smtpCheck o
                               | None => None
                               end)))]
        ++ prop_opt "timeout"
             (option_map JNumber (match options with
                                  | Some o => vo_timeout o
                                  | None => None
                                  end))))) 1.

Definition verifyBulk (emails : list string) (options : option BulkVerifyOptions)
    : M (option T) :=
  if (Z.of_nat (List.length emails) >? 10000) then
    throw (OfTaxonomy (ValidationError "Maximum 10,000 emails per bulk job" None))
  else
    request "POST" "/verify/bulk"
      (Some (JObject
         ([("emails", JArray (map JString emails));
           ("smtp_check",
            JBool (default true (match options with
                                 | Some o => bo_smtpCheck o
                                 | None => None
                                 end)))]
          ++ prop_opt "webhook_url"
               (option_map JString (match options with
                                    | Some o => bo_webhookUrl o
                                    | None => None
                                    end))))) 1.

Definition getBulkJobStatus (jobId : string) : M (option T) :=
  request "GET" ("/verify/bulk/" ++ jobId)%string None 1.

(** The first lines of [getBulkJobResults]: the query parameters. *)
Definition bulkResultsParams (options : option BulkResultsOptions) : URLSearchParams :=
  let params : URLSearchParams := [] in
  let params :=
    match (match options with Some o => ro_limit o | None => None end) with
    | Some limit =>
        if truthy_number limit then params_set "limit" (number_toString limit) params
        else params
    | None => params
    end in
  let params :=
    match (match options with Some o => ro_offset o | None => None end) with
    | Some offset => params_set "offset" (number_toString offset) params
    | None => params
    end in
  let params :=
    match (match options with Some o => ro_status o | None => None end) with
    | Some status =>
        if truthy_string status then params_set "status" status params else params
    | None => params
    end in
  params.

Definition bulkResultsPath (jobId : string) (options : option BulkResultsOptions) : string :=
  let query := params_toString (bulkResultsParams options) in
  ("/verify/bulk/" ++ jobId ++ "/results"
     ++ (if truthy_string query then "?" ++ query else ""))%string.

Definition getBulkJobResults (jobId : string) (options : option BulkResultsOptions)
    : M (option T) :=
  request "GET" (bulkResultsPath jobId options) None 1.

End Pipeline.

Section Polling.
Variable server : Server BulkJobResponse.t.
Variable this : EmailVerify.

Definition JobStatus_eqb (a b : JobStatus) : bool :=
  match a, b with
  | pending, pending | processing, processing
  | completed, completed | failed, failed => true
  | _, _ => false
  end.

(** The loop of [waitForBulkJobCompletion], bounded by [fuel].  When
    [getBulkJobStatus] gave [undefined], reading [status.status] throws a
    [TypeError]. *)
Fixpoint waitLoop (fuel : nat) (jobId : string) (pollInterval maxWait : number)
    (startTime : Z) : M BulkJobResponse.t :=
  match fuel with
  | O => fun _ => None
  | S fuel' =>
      t <- Date_now ;;
      if js_lt (Int (t - startTime)) maxWait then
        status <- getBulkJobStatus server this jobId ;;
        match status with
        | None =>
            throw (OtherError "TypeError"
                     "Cannot read properties of undefined (reading 'status')")
        | Some status =>
            if JobStatus_eqb (BulkJobResponse.status status) completed
               || JobStatus_eqb (BulkJobResponse.status status) failed then
              ret status
            else
              sleep pollInterval ;;;
              waitLoop fuel' jobId pollInterval maxWait startTime
        end
      else
        throw (OfTaxonomy (TimeoutError
          (Some ("Bulk job " ++ jobId ++ " did not complete within "
                   ++ number_toString maxWait ++ "ms")%string)))
  end.

Definition waitForBulkJobCompletion (fuel : nat) (jobId : string)
    (pollInterval maxWait : option number) : M BulkJobResponse.t :=
  let pollInterval := default (Int 5000) pollInterval in
  let maxWait := default (Int 600000) maxWait in
  startTime <- Date_now ;;
  waitLoop fuel jobId pollInterval maxWait startTime.

(** The call [getBulkJobStatus] makes. *)
Definition status_call (jobId : string) : Call :=
  call_of this "GET" ("/verify/bulk/" ++ jobId)%string None.

(** The server answers the [k]-th call, when it is a status call for
    [jobId], with the snapshot [job] after [d] milliseconds. *)
Definition answers (jobId : string) (k : nat) (job : BulkJobResponse.t) (d : Z) : Prop :=
  exists response,
    server k (status_call jobId) = {| outcome := Returned response; elapsed := d |}
    /\ ok response = true
    /\ status response <> 204
    /\ json_data response false = Returned job.

End Polling.

(** The time from the start of the polling to the start of poll [j], when
    poll [i] takes [lat i] and each sleep takes [pause]. *)
Fixpoint poll_time (lat : nat -> Z) (pause : Z) (j : nat) : Z :=
  match j with
  | O => 0
  | S j' => poll_time lat pause j' + lat j' + pause
  end.

(** The world after [k] polls that each were followed by a sleep. *)
Definition after_polls (c : Call) (interval : number) (lat : nat -> Z) (k : nat)
    (w : World) : World :=
  {| now := now w + poll_time lat (pause_of interval) k;
     calls := calls w ++ repeat c k;
     sleeps := sleeps w ++ repeat interval k |}.

(** ** Webhook signature check *)

(** A JavaScript string: its UTF-16 code units. *)
Definition jsstring : Type := list Z.

(** A [Buffer]: its bytes. *)
Definition bytes : Type := list Z.

(** A string literal of the source (ASCII) as a JavaScript string. *)
Definition str (s : string) : jsstring :=
  map (fun c => Z.of_nat (nat_of_ascii c)) (list_ascii_of_string s).

Definition replacement : bytes := [0xEF; 0xBF; 0xBD].

(** [Buffer.from(s)]: the UTF-8 encoding of [s]; a surrogate pair makes one
    4-byte sequence, a surrogate on its own is encoded as U+FFFD. *)
Fixpoint Buffer_from (s : jsstring) : bytes :=
  match s with
  | [] => []
  | u :: rest =>
      if u <? 0x80 then u :: Buffer_from rest
      else if u <? 0x800 then
        Z.lor 0xC0 (Z.shiftr u 6) :: Z.lor 0x80 (Z.land u 0x3F) :: Buffer_from rest
      else if (0xD800 <=? u) && (u <=? 0xDBFF) then
        match rest with
        | l :: rest' =>
            if (0xDC00 <=? l) && (l <=? 0xDFFF) then
              let cp := 0x10000 + Z.shiftl (u - 0xD800) 10 + (l - 0xDC00) in
              Z.lor 0xF0 (Z.shiftr cp 18)
                :: Z.lor 0x80 (Z.land (Z.shiftr cp 12) 0x3F)
                :: Z.lor 0x80 (Z.land (Z.shiftr cp 6) 0x3F)
                :: Z.lor 0x80 (Z.land cp 0x3F)
                :: Buffer_from rest'
            else replacement ++ Buffer_from rest
        | [] => replacement
        end
      else if (0xDC00 <=? u) && (u <=? 0xDFFF) then replacement ++ Buffer_from rest
      else
        Z.lor 0xE0 (Z.shiftr u 12)
          :: Z.lor 0x80 (Z.land (Z.shiftr u 6) 0x3F)
          :: Z.lor 0x80 (Z.land u 0x3F)
          :: Buffer_from rest
  end.

(** Code units and bytes in the ASCII range. *)
Definition is_ascii (u : Z) : Prop := 0 <= u < 128.

(** One lowercase hexadecimal digit, as a code unit. *)
Definition hex_lower (d : Z) : Z :=
  if d <? 10 then 48 + d else 87 + d.

(** [digest('hex')]: two lowercase hexadecimal digits per byte. *)
Definition hex (digest : bytes) : jsstring :=
  flat_map (fun b => [hex_lower (Z.land (Z.shiftr b 4) 15); hex_lower (Z.land b 15)])
           digest.

(** [crypto.timingSafeEqual(a, b)]: throws when the lengths differ;
    otherwise every pair of bytes is combined, whatever the earlier ones
    gave, and the buffers are equal when no bit is left. *)
Definition timingSafeEqual (a b : bytes) : Outcome bool :=
  if negb (Nat.eqb (List.length a) (List.length b)) then
    Raised (OtherError "RangeError" "Input buffers must have the same byte length")
  else
    Returned (fold_left (fun acc xy => Z.lor acc (Z.lxor (fst xy) (snd xy)))
                        (combine a b) 0 =? 0).

(** The calls into [crypto] that one check makes, in order. *)
Inductive CryptoCall : Type :=
| HmacDigest (key data : bytes)
| TimingSafeEqual (a b : bytes).

(** What [crypto] gives the client: HMAC-SHA256, from key and data to the
    32-byte digest. *)
Definition Crypto : Type := bytes -> bytes -> bytes.

(** The error of the [__require] shim of the ES module build
    ([dist/index.mjs]), where [require] is not defined. *)
Definition dynamic_require_error : Exn :=
  OtherError "Error"
    ("Dynamic require of " ++ String (ascii_of_nat 34) "crypto"
       ++ String (ascii_of_nat 34) " is not supported")%string.

Section Webhook.
Variable hmac_sha256 : Crypto.

Definition expectedSignature (payload secret : jsstring) : jsstring :=
  str "sha256=" ++ hex (hmac_sha256 (Buffer_from secret) (Buffer_from payload)).

(** The lines of [verifyWebhookSignature] that follow [require('crypto')],
    with the log of their calls into [crypto]. *)
Definition checkSignature (payload signature secret : jsstring)
    : Outcome bool * list CryptoCall :=
  let expected := expectedSignature payload secret in
  let hmac := HmacDigest (Buffer_from secret) (Buffer_from payload) in
  let sigBuffer := Buffer_from signature in
  let expectedBuffer := Buffer_from expected in
  if negb (Nat.eqb (List.length sigBuffer) (List.length expectedBuffer)) then
    (Returned false, [hmac])
  else
    (timingSafeEqual sigBuffer expectedBuffer,
     [hmac; TimingSafeEqual sigBuffer expectedBuffer]).

End Webhook.

(** [verifyWebhookSignature].  [require_crypto] is what [require('crypto')]
    gives: the module, or nothing where [require] is not defined, as when
    the ES module build is loaded by Node, and then the shim throws. *)
Definition verifyWebhookSignature (require_crypto : option Crypto)
    (payload signature secret : jsstring) : Outcome bool * list CryptoCall :=
  match require_crypto with
  | None => (Raised dynamic_require_error, [])
  | Some crypto => checkSignature crypto payload signature secret
  end.

(** ** Sample data *)

Definition sample_client (n : number) : EmailVerify :=
  {| apiKey := "test-key";
     baseUrl := DEFAULT_BASE_URL;
     timeout := DEFAULT_TIMEOUT;
     retries := n |}.

(** An error response as the real [fetch] gives it: its body can be read
    once. *)
Definition error_response (s : Z) (text : string) (retry : option string)
    (err : option ApiError.t) : Response unit :=
  {| status := s;
     statusText := text;
     retry_after := retry;
     json_error := JsonValue {| error := err |};
     json_data := fun used =>
       if used then Raised (OtherError "TypeError" "Body is unusable: Body has already been read")
       else Returned tt |}.

(** A server that gives the same reply to every call, after 20 ms. *)
Definition always {T : Type} (r : Response T) : Server T :=
  fun _ _ => {| outcome := Returned r; elapsed := 20 |}.

Definition rate_limited : Response unit :=
  error_response 429 "Too Many Requests" (Some "1")
    (Some (ApiError.make "RATE_LIMIT_EXCEEDED" "Rate limit exceeded" None)).

Definition rate_limited_until_date : Response unit :=
  error_response 429 "Too Many Requests" (Some "Wed, 21 Oct 2015 07:28:00 GMT")
    (Some (ApiError.make "RATE_LIMIT_EXCEEDED" "Rate limit exceeded" None)).

Definition unauthorized : Response unit :=
  error_response 401 "Unauthorized" None
    (Some (ApiError.make "INVALID_API_KEY" "Invalid API key" None)).

Definition unavailable : Response unit :=
  error_response 503 "Service Unavailable" None None.

(** A job whose first two snapshots are [processing] and which then is
    [completed]; the server takes 100 ms per reply. *)
Definition sample_job (j : nat) : BulkJobResponse.t :=
  BulkJobResponse.make "job_123" (if (j <? 2)%nat then processing else completed)
    (Int 100) (Int 50) (Int 40) (Int 10) (Int 0) (Int 50)
    "2025-01-15T10:30:00Z" None (Some (Int 50)).

Definition job_response (job : BulkJobResponse.t) : Response BulkJobResponse.t :=
  {| status := 200;
     statusText := "OK";
     retry_after := None;
     json_error := JsonValue {| error := None |};
     json_data := fun used =>
       if used then Raised (OtherError "TypeError" "Body is unusable: Body has already been read")
       else Returned job |}.

Definition polling_server : Server BulkJobResponse.t :=
  fun k _ => {| outcome := Returned (job_response (sample_job k)); elapsed := 100 |}.

(** A server whose replies take 2000 ms and show the job completed. *)
Definition slow_server : Server BulkJobResponse.t :=
  fun _ _ => {| outcome := Returned (job_response (sample_job 2)); elapsed := 2000 |}.

(** A server that answers the first call with status 429 and the later ones
    with status 200. *)
Definition rate_limited_once : Server unit :=
  fun k _ =>
    {| outcome :=
         Returned (if (k =? 0)%nat then rate_limited
                   else error_response 200 "OK" None None);
       elapsed := 20 |}.

(** A server that is unavailable at the first call and then rejects the
    API key. *)
Definition unavailable_then_unauthorized : Server unit :=
  fun k _ =>
    {| outcome := Returned (if (k =? 0)%nat then unavailable else unauthorized);
       elapsed := 20 |}.

(** An error response whose body is the JSON value [null]. *)
Definition null_body (s : Z) (text : string) (retry : option string) : Response unit :=
  {| status := s;
     statusText := text;
     retry_after := retry;
     json_error := JsonNull;
     json_data := fun used =>
       if used then Raised (OtherError "TypeError" "Body is unusable: Body has already been read")
       else Returned tt |}.

(** A fixed digest that stands for HMAC-SHA256 in the examples. *)
Definition sample_hmac : bytes -> bytes -> bytes :=
  fun _ _ => repeat 173 32.

(** ** The remaining methods of the client *)

Inductive WebhookEvent : Type :=
| verification_completed
| bulk_completed
| bulk_failed
| credits_low.

Definition WebhookEvent_string (e : WebhookEvent) : string :=
  match e with
  | verification_completed => "verification.completed"
  | bulk_completed => "bulk.completed"
  | bulk_failed => "bulk.failed"
  | credits_low => "credits.low"
  end.

Record WebhookConfig : Type := {
  wc_url : string;
  wc_events : list WebhookEvent;
  wc_secret : option string
}.

(** The configuration object as [JSON.stringify] sees it. *)
Definition WebhookConfig_json (config : WebhookConfig) : Json :=
  JObject ([("url", JString (wc_url config));
            ("events", JArray (map (fun e => JString (WebhookEvent_string e))
                                   (wc_events config)))]
           ++ prop_opt "secret" (option_map JString (wc_secret config))).

Section Account.
Context {T : Type}.
Variable server : Server T.
Variable this : EmailVerify.

(** The last lines of [request]: how it finishes once it holds a response
    whose body it reads; [used] tells whether [handleErrorResponse] read the
    body before. *)
Definition finish (response : Response T) (used : bool) : M (option T) :=
  fun w =>
    if status response =? 204 then Some (Returned None, w)
    else match json_data response used with
         | Returned data => Some (Returned (Some data), w)
         | Raised x => request_catch this x w
         end.

Definition getCredits : M (option T) :=
  request server this "GET" "/credits" None 1.

Definition createWebhook (config : WebhookConfig) : M (option T) :=
  request server this "POST" "/webhooks" (Some (WebhookConfig_json config)) 1.

Definition listWebhooks : M (option T) :=
  request server this "GET" "/webhooks" None 1.

(** [deleteWebhook] awaits the request and returns nothing. *)
Definition deleteWebhook (webhookId : string) : M unit :=
  request server this "DELETE" ("/webhooks/" ++ webhookId)%string None 1 ;;;
  ret tt.

End Account.

(** ** Vocabulary of the properties *)

(** The statuses [handleErrorResponse] retries. *)
Definition retryable (s : Z) : Prop :=
  s = 429 \/ s = 500 \/ s = 502 \/ s = 503.

(** Neither [fetch] nor [response.json()] throws an error of the client's
    own taxonomy. *)
Definition foreign {T : Type} (server : Server T) : Prop :=
  forall k c,
    (forall e, outcome (server k c) <> Raised (OfTaxonomy e))
    /\ (forall response, outcome (server k c) = Returned response ->
        forall used e, json_data response used <> Raised (OfTaxonomy e)).

(** The class of an error fixes its code and status, and [retryAfter] is a
    field of [RateLimitError] alone. *)
Definition canonical (e : Error) : Prop :=
  match cls e with
  | CEmailVerifyError => retryAfter e = None
  | CAuthenticationError =>
      code e = "INVALID_API_KEY" /\ statusCode e = 401 /\ retryAfter e = None
  | CRateLimitError =>
      code e = "RATE_LIMIT_EXCEEDED" /\ statusCode e = 429 /\ retryAfter e <> None
  | CValidationError =>
      code e = "INVALID_REQUEST" /\ statusCode e = 400 /\ retryAfter e = None
  | CInsufficientCreditsError =>
      code e = "INSUFFICIENT_CREDITS" /\ statusCode e = 403 /\ retryAfter e = None
  | CNotFoundError =>
      code e = "NOT_FOUND" /\ statusCode e = 404 /\ retryAfter e = None
  | CTimeoutError =>
      code e = "TIMEOUT" /\ statusCode e = 504 /\ retryAfter e = None
  end.

(** The time a list of sleeps takes. *)
Definition total_pause (ms : list number) : Z :=
  fold_right (fun m acc => pause_of m + acc) 0 ms.

(** The sleeps of [n] retries in a row that start at [attempt], when the
    server names no delay: [2 ^ attempt] seconds, then twice that, and so
    on. *)
Fixpoint backoff (attempt : Z) (n : nat) : list number :=
  match n with
  | O => []
  | S n' => Int (2 ^ attempt * 1000) :: backoff (attempt + 1) n'
  end.

(** The sleeps of [n] retries in a row that start at [attempt], when the
    sleep before the retry of attempt [a] is [delay a]. *)
Fixpoint schedule (delay : Z -> number) (attempt : Z) (n : nat) : list number :=
  match n with
  | O => []
  | S n' => delay attempt :: schedule delay (attempt + 1) n'
  end.

(** The characters that delimit the parts of a URL and of its query. *)
Definition delimiter (c : ascii) : bool :=
  existsb (Ascii.eqb c) ["&"; "="; "?"; "#"; "/"; " "]%char.

(** [s] holds no delimiter. *)
Fixpoint delimiter_free (s : string) : bool :=
  match s with
  | EmptyString => true
  | String c rest => negb (delimiter c) && delimiter_free rest
  end.

(** ** More sample data *)

Definition ok_response : Response unit :=
  error_response 200 "OK" None None.

Definition no_content : Response unit :=
  {| status := 204;
     statusText := "No Content";
     retry_after := None;
     json_error := NoJson;
     json_data := fun _ => Raised (OtherError "SyntaxError" "Unexpected end of JSON input") |}.

Definition teapot : Response unit :=
  {| status := 418;
     statusText := "I'm a teapot";
     retry_after := None;
     json_error := NoJson;
     json_data := fun _ => Raised (OtherError "SyntaxError" "Unexpected token < in JSON") |}.

Definition garbled : Response unit :=
  {| status := 200;
     statusText := "OK";
     retry_after := None;
     json_error := NoJson;
     json_data := fun _ => Raised (OtherError "SyntaxError" "Unexpected token < in JSON") |}.

(** A network on which every call is cut by the abort timer after the
    client's 30000 ms. *)
Definition hanging : Server unit :=
  fun _ _ => {| outcome := Raised (OtherError "AbortError" "This operation was aborted");
                elapsed := 30000 |}.

(** A job that never leaves [processing]. *)
Definition stuck_job : BulkJobResponse.t :=
  BulkJobResponse.make "job_123" processing
    (Int 100) (Int 50) (Int 40) (Int 10) (Int 0) (Int 50)
    "2025-01-15T10:30:00Z" None (Some (Int 50)).

Definition stuck_server : Server BulkJobResponse.t :=
  fun _ _ => {| outcome := Returned (job_response stuck_job); elapsed := 100 |}.

(** A server that shows the job running once and then has lost it. *)
Definition forgetful_server : Server BulkJobResponse.t :=
  fun k _ =>
    {| outcome :=
         Returned (if (k =? 0)%nat then job_response stuck_job
                   else {| status := 404;
                           statusText := "Not Found";
                           retry_after := None;
                           json_error := JsonValue {| error := None |};
                           json_data := fun _ => Returned stuck_job |});
       elapsed := 100 |}.

(** * Properties *)

Example parseInt_examples :
  parseInt "0" = Int 0 /\ parseInt "120" = Int 120 /\ parseInt " 7s" = Int 7 /\
  parseInt "-5" = Int (-5) /\ parseInt "abc" = NaN /\ parseInt "" = NaN /\
  parseInt "Wed, 21 Oct 2015 07:28:00 GMT" = NaN /\
  number_toString (Int 50) = "50" /\ number_toString (Int 0) = "0".
Proof. repeat split; reflexivity. Qed.

Example bulkResultsPath_example :
  bulkResultsPath "job_123"
    (Some {| ro_limit := Some (Int 50); ro_offset := Some (Int 0);
             ro_status := Some "valid" |})
  = "/verify/bulk/job_123/results?limit=50&offset=0&status=valid".
Proof. reflexivity. Qed.

Example Buffer_from_examples :
  Buffer_from (str "sha256=0a") = [115; 104; 97; 50; 53; 54; 61; 48; 97] /\
  Buffer_from [0xE9] = [0xC3; 0xA9] /\
  Buffer_from [0x20AC] = [0xE2; 0x82; 0xAC] /\
  Buffer_from [0xD83D; 0xDE00] = [0xF0; 0x9F; 0x98; 0x80] /\
  Buffer_from [0xD83D] = [0xEF; 0xBF; 0xBD] /\
  Buffer_from [0xFFFD] = [0xEF; 0xBF; 0xBD] /\
  hex [0; 171; 255] = str "00abff".
Proof. repeat split; reflexivity. Qed.

(** [verify] against a server that answers 401, as in the test suite. *)
Example verify_unauthorized :
  verify (always unauthorized) (sample_client (Int 3)) "test@example.com" None (fresh 0)
  = Some (Raised (OfTaxonomy
            {| cls := CAuthenticationError; message := "Invalid API key";
               code := "INVALID_API_KEY"; statusCode := 401;
               details := None; retryAfter := None |}),
          {| now := 20;
             calls := [{| url := "https://api.emailverify.ai/v1/verify";
                          method := "POST";
                          headers := [("EMAILVERIFY-API-KEY", "test-key");
                                      ("Content-Type", "application/json");
                                      ("User-Agent", "@emailverify/node/1.0.0")];
                          body := Some (JObject [("email", JString "test@example.com");
                                                 ("smtp_check", JBool true)]) |}];
             sleeps := [] |}).
Proof. vm_compute. reflexivity. Qed.

(** ** The request pipeline *)

Section PipelineFacts.
Context {T : Type}.
Variable server : Server T.
Variable this : EmailVerify.

Lemma handleErrorResponseWith_ext (rq1 rq2 : @Requester T) response attempt method path body :
  (js_lt (Int attempt) (retries this) = true ->
   forall w, rq1 method path body (attempt + 1) w = rq2 method path body (attempt + 1) w) ->
  forall w,
    handleErrorResponseWith this rq1 response attempt method path body w
    = handleErrorResponseWith this rq2 response attempt method path body w.
Proof.
  intros Hrq w. unfold handleErrorResponseWith, switch_on_status.
  destruct (json_error response); try reflexivity;
    repeat match goal with
           | |- context [if ?c then _ else _] => destruct c eqn:?
           end; try reflexivity;
    unfold bind; cbn; apply Hrq; reflexivity.
Qed.

Lemma requestWith_ext (h1 h2 : @Handler T) method path body attempt :
  (forall response w,
      h1 response attempt method path body w = h2 response attempt method path body w) ->
  forall w,
    requestWith server this h1 method path body attempt w
    = requestWith server this h2 method path body attempt w.
Proof.
  intros Hh w. unfold requestWith, try_catch, bind, fetch.
  destruct (outcome (server _ _)) as [response|e]; [|reflexivity].
  destruct (negb (ok response)); [|reflexivity].
  rewrite Hh. reflexivity.
Qed.

Lemma attempts_left_succ attempt :
  js_lt (Int attempt) (retries this) = true ->
  attempts_left this attempt = S (attempts_left this (attempt + 1)).
Proof.
  unfold attempts_left, js_lt. destruct (retries this) as [r|]; [|discriminate].
  intros H. apply Z.ltb_lt in H. lia.
Qed.

(** Any amount of fuel above [attempts_left] gives the same run. *)
Lemma request_fuel_stable (n1 : nat) :
  forall n2 method path body attempt w,
    (attempts_left this attempt < n1)%nat ->
    (attempts_left this attempt < n2)%nat ->
    request_fuel server this n1 method path body attempt w
    = request_fuel server this n2 method path body attempt w.
Proof.
  induction n1 as [|n1 IH]; intros n2 method path body attempt w H1 H2; [lia|].
  destruct n2 as [|n2]; [lia|]. cbn [request_fuel].
  apply requestWith_ext. intros response w'.
  apply handleErrorResponseWith_ext. intros Hlt w''.
  apply attempts_left_succ in Hlt. apply IH; lia.
Qed.

(** [request] satisfies the equation the source defines it by. *)
Lemma request_unfold method path body attempt w :
  request server this method path body attempt w
  = requestWith server this (handleErrorResponse server this) method path body attempt w.
Proof.
  unfold request. cbn [request_fuel].
  apply requestWith_ext. intros response w'.
  apply handleErrorResponseWith_ext. intros Hlt w''.
  unfold request. apply request_fuel_stable; [|lia].
  apply attempts_left_succ in Hlt. lia.
Qed.

Lemma request_catch_spec (e : Exn) (w : World) :
  exists e', @request_catch T this e w = Some (Raised (OfTaxonomy e'), w)
             /\ forall e0, e = OfTaxonomy e0 -> e' = e0.
Proof.
  destruct e as [e0|name msg|]; cbn.
  - exists e0. split; [reflexivity|]. intros ? [= ->]. reflexivity.
  - destruct (String.eqb name "AbortError"); eexists; (split; [reflexivity|discriminate]).
  - eexists; (split; [reflexivity|discriminate]).
Qed.

(** [handleErrorResponse] either throws on the spot or sleeps and calls
    [request] again with the next attempt. *)
Lemma handleErrorResponseWith_cases (rq : @Requester T) response attempt method path body w :
  (exists x, handleErrorResponseWith this rq response attempt method path body w
             = Some (Raised x, w))
  \/ (js_lt (Int attempt) (retries this) = true
      /\ exists ms, handleErrorResponseWith this rq response attempt method path body w
                    = rq method path body (attempt + 1) (after_sleep ms w)).
Proof.
  unfold handleErrorResponseWith, switch_on_status.
  destruct (json_error response);
    repeat match goal with
           | |- context [if ?c then _ else _] => destruct c eqn:?
           end;
    try (left; eexists; reflexivity);
    right; (split; [reflexivity|]); eexists; reflexivity.
Qed.

(** What [request] does once the reply is an error response: it rethrows
    what [handleErrorResponse] throws. *)
Lemma requestWith_rethrows (h : @Handler T) method path body attempt w response e w' :
  outcome (server (List.length (calls w)) (call_of this method path body)) = Returned response ->
  ok response = false ->
  h response attempt method path body (after_call server (call_of this method path body) w)
  = Some (Raised (OfTaxonomy e), w') ->
  requestWith server this h method path body attempt w = Some (Raised (OfTaxonomy e), w').
Proof.
  intros Hr Hok Hh. unfold requestWith, try_catch, bind, fetch.
  rewrite Hr, Hok. cbn [negb]. rewrite Hh. reflexivity.
Qed.

Lemma request_rethrows method path body attempt w response e w' :
  outcome (server (List.length (calls w)) (call_of this method path body)) = Returned response ->
  ok response = false ->
  handleErrorResponse server this response attempt method path body
    (after_call server (call_of this method path body) w)
  = Some (Raised (OfTaxonomy e), w') ->
  request server this method path body attempt w = Some (Raised (OfTaxonomy e), w').
Proof.
  intros. rewrite request_unfold. eapply requestWith_rethrows; eassumption.
Qed.

(** With any fuel it does not use up, [request] settles, it issues its call
    first, and what it throws is an error of the taxonomy. *)
Lemma request_fuel_settles (n : nat) :
  forall method path body attempt w,
    (attempts_left this attempt < n)%nat ->
    exists r w' more,
      request_fuel server this n method path body attempt w = Some (r, w')
      /\ calls w' = calls w ++ call_of this method path body :: more
      /\ forall x, r = Raised x -> exists e, x = OfTaxonomy e.
Proof.
  induction n as [|n IH]; intros method path body attempt w Hn; [lia|].
  cbn [request_fuel]. unfold requestWith, try_catch, bind, fetch.
  set (c := call_of this method path body).
  set (w1 := after_call server c w).
  assert (Hw1 : calls w1 = calls w ++ [c]) by reflexivity.
  assert (Hcatch : forall x w2 more,
             calls w2 = calls w ++ c :: more ->
             exists r w' more',
               @request_catch T this x w2 = Some (r, w')
               /\ calls w' = calls w ++ c :: more'
               /\ forall y, r = Raised y -> exists e, y = OfTaxonomy e).
  { intros x w2 more Hw2. destruct (request_catch_spec x w2) as (e' & -> & _).
    exists (Raised (OfTaxonomy e')), w2, more. split; [reflexivity|]. split; [exact Hw2|].
    intros y [= <-]. eexists; reflexivity. }
  assert (Hread : forall (used : bool) response w2 more,
             calls w2 = calls w ++ c :: more ->
             exists r w' more',
               match (if status response =? 204 then ret None
                      else fun w0 => Some (match json_data response used with
                                           | Returned data => Returned (Some data)
                                           | Raised e => Raised e
                                           end, w0)) w2 with
               | Some (Raised e, w0) => @request_catch T this e w0
               | r0 => r0
               end = Some (r, w')
               /\ calls w' = calls w ++ c :: more'
               /\ forall y, r = Raised y -> exists e, y = OfTaxonomy e).
  { intros used response w2 more Hw2.
    destruct (status response =? 204); cbn.
    - exists (Returned None), w2, more. repeat split; [exact Hw2|discriminate].
    - destruct (json_data response used) as [data|x].
      + exists (Returned (Some data)), w2, more. repeat split; [exact Hw2|discriminate].
      + eapply Hcatch; exact Hw2. }
  destruct (outcome (server _ c)) as [response|x].
  - destruct (negb (ok response)) eqn:Hok.
    + destruct (handleErrorResponseWith_cases (request_fuel server this n)
                  response attempt method path body w1) as [(x & ->)|(Hlt & ms & ->)].
      * eapply Hcatch; exact Hw1.
      * apply attempts_left_succ in Hlt.
        destruct (IH method path body (attempt + 1) (after_sleep ms w1)) as (r & w2 & more & -> & Hc & Hr);
          [lia|].
        assert (Hw2 : calls w2 = calls w ++ c :: c :: more).
        { rewrite Hc. cbn [after_sleep calls]. rewrite Hw1, <- app_assoc. reflexivity. }
        destruct r as [v|x].
        -- eapply (Hread true); exact Hw2.
        -- eapply Hcatch; exact Hw2.
    + cbn [ret]. eapply (Hread false). exact Hw1.
  - eapply Hcatch; exact Hw1.
Qed.

(** [request] is total. *)
Lemma request_total method path body attempt w :
  exists r w', request server this method path body attempt w = Some (r, w').
Proof.
  destruct (request_fuel_settles (S (attempts_left this attempt))
              method path body attempt w) as (r & w' & _ & H & _); [lia|].
  exists r, w'. exact H.
Qed.

Lemma request_first_call method path body attempt w r w' :
  request server this method path body attempt w = Some (r, w') ->
  exists more, calls w' = calls w ++ call_of this method path body :: more.
Proof.
  intros H.
  destruct (request_fuel_settles (S (attempts_left this attempt))
              method path body attempt w) as (r0 & w0 & more & H0 & Hc & _); [lia|].
  unfold request in H. rewrite H0 in H. injection H as <- <-. exists more. exact Hc.
Qed.

Lemma request_raises_taxonomy method path body attempt w x w' :
  request server this method path body attempt w = Some (Raised x, w') ->
  exists e, x = OfTaxonomy e.
Proof.
  intros H.
  destruct (request_fuel_settles (S (attempts_left this attempt))
              method path body attempt w) as (r0 & w0 & more & H0 & _ & Hr); [lia|].
  unfold request in H. rewrite H0 in H. injection H as -> <-. apply Hr. reflexivity.
Qed.

(** [handleErrorResponse] on status 429. *)
Lemma handleErrorResponse_429 response attempt method path body w :
  json_error response <> JsonNull ->
  status response = 429 ->
  handleErrorResponse server this response attempt method path body w
  = if js_lt (Int attempt) (retries this) then
      request server this method path body (attempt + 1)
        (after_sleep
           (mul_number (or_number (retryAfter_of response) (Int (2 ^ attempt))) (Int 1000)) w)
    else
      Some (Raised (OfTaxonomy
              (RateLimitError (Some (message_of response)) (Some (retryAfter_of response)))),
            w).
Proof.
  intros Hbody Hs. unfold handleErrorResponse, handleErrorResponseWith, switch_on_status.
  rewrite Hs. cbn [Z.eqb Pos.eqb].
  destruct (json_error response); [|contradiction|];
    destruct (js_lt (Int attempt) (retries this)); reflexivity.
Qed.

(** [handleErrorResponse] on status 500, 502 or 503. *)
Lemma handleErrorResponse_5xx response attempt method path body w :
  json_error response <> JsonNull ->
  status response = 500 \/ status response = 502 \/ status response = 503 ->
  handleErrorResponse server this response attempt method path body w
  = if js_lt (Int attempt) (retries this) then
      request server this method path body (attempt + 1)
        (after_sleep (Int (2 ^ attempt * 1000)) w)
    else
      Some (Raised (OfTaxonomy
              (EmailVerifyError (message_of response) (code_of response)
                 (status response) None)),
            w).
Proof.
  intros Hbody Hs. unfold handleErrorResponse, handleErrorResponseWith, switch_on_status.
  destruct (json_error response); [|contradiction|];
    destruct Hs as [Hs|[Hs|Hs]]; rewrite Hs; cbn [Z.eqb Pos.eqb orb];
    destruct (js_lt (Int attempt) (retries this)); reflexivity.
Qed.

(** [handleErrorResponse] on a body other than [null] is its [switch]. *)
Lemma handleErrorResponse_switch response attempt method path body w :
  json_error response <> JsonNull ->
  handleErrorResponse server this response attempt method path body w
  = switch_on_status this (request server this) response attempt method path body w.
Proof.
  intros Hbody. unfold handleErrorResponse, handleErrorResponseWith.
  destruct (json_error response); [reflexivity|contradiction|reflexivity].
Qed.

(** [handleErrorResponse] on the body [null]. *)
Lemma handleErrorResponse_null response attempt method path body w :
  json_error response = JsonNull ->
  handleErrorResponse server this response attempt method path body w
  = Some (Raised (OtherError "TypeError" "Cannot read properties of null (reading 'error')"),
          w).
Proof.
  intros Hbody. unfold handleErrorResponse, handleErrorResponseWith.
  rewrite Hbody. reflexivity.
Qed.

(** What [request] makes of an error response with the body [null]. *)
Lemma request_null_body method path body attempt w response :
  outcome (server (List.length (calls w)) (call_of this method path body)) = Returned response ->
  ok response = false ->
  json_error response = JsonNull ->
  request server this method path body attempt w
  = Some (Raised (OfTaxonomy
            (EmailVerifyError "Network error: Cannot read properties of null (reading 'error')"
               "NETWORK_ERROR" 0 None)),
          after_call server (call_of this method path body) w).
Proof.
  intros Hout Hok Hbody. rewrite request_unfold.
  unfold requestWith, try_catch, bind, fetch.
  rewrite Hout, Hok. cbn [negb]. rewrite handleErrorResponse_null by exact Hbody.
  reflexivity.
Qed.

(** A status that none of the attempts gets past: every attempt up to
    [retries] is made, with a sleep before each but the first, and the
    last response is turned into the error. *)
Lemma persistent_status_run (s N : Z) method path body :
  retries this = Int N ->
  s = 429 \/ s = 500 \/ s = 502 \/ s = 503 ->
  (forall k c, exists response,
      outcome (server k c) = Returned response
      /\ status response = s
      /\ json_error response <> JsonNull) ->
  forall (n : nat) (attempt : Z) (w : World),
    attempt <= N -> n = Z.to_nat (N - attempt) ->
    exists e w',
      request server this method path body attempt w = Some (Raised (OfTaxonomy e), w')
      /\ calls w' = calls w ++ repeat (call_of this method path body) (S n)
      /\ List.length (sleeps w') = (List.length (sleeps w) + n)%nat
      /\ statusCode e = s
      /\ cls e = (if s =? 429 then CRateLimitError else CEmailVerifyError).
Proof.
  intros HN Hs Hsrv. induction n as [|n IH]; intros attempt w Hle Hn.
  - destruct (Hsrv (List.length (calls w)) (call_of this method path body))
      as (response & Hout & Hst & Hbody).
    assert (Hok : ok response = false).
    { unfold ok. rewrite Hst. destruct Hs as [->|[->|[->| ->]]]; reflexivity. }
    assert (Hlt : js_lt (Int attempt) (retries this) = false).
    { rewrite HN. cbn. apply Z.ltb_ge. lia. }
    destruct (Z.eq_dec s 429) as [H429|H429].
    + eexists. eexists. split.
      * eapply request_rethrows; [exact Hout|exact Hok|].
        rewrite handleErrorResponse_429
          by (first [exact Hbody|congruence]). rewrite Hlt. reflexivity.
      * rewrite H429. cbn. rewrite Nat.add_0_r. repeat split; reflexivity.
    + eexists. eexists. split.
      * eapply request_rethrows; [exact Hout|exact Hok|].
        rewrite handleErrorResponse_5xx
          by (first [exact Hbody|rewrite Hst; tauto]). rewrite Hlt. reflexivity.
      * cbn. rewrite Nat.add_0_r. apply Z.eqb_neq in H429. rewrite H429.
        repeat split; try reflexivity. exact Hst.
  - destruct (Hsrv (List.length (calls w)) (call_of this method path body))
      as (response & Hout & Hst & Hbody).
    assert (Hok : ok response = false).
    { unfold ok. rewrite Hst. destruct Hs as [->|[->|[->| ->]]]; reflexivity. }
    assert (Hlt : js_lt (Int attempt) (retries this) = true).
    { rewrite HN. cbn. apply Z.ltb_lt. lia. }
    set (c := call_of this method path body) in *.
    assert (Hnext : forall ms,
               exists e w',
                 request server this method path body (attempt + 1)
                   (after_sleep ms (after_call server c w))
                 = Some (Raised (OfTaxonomy e), w')
                 /\ calls w' = calls w ++ repeat c (S (S n))
                 /\ List.length (sleeps w') = (List.length (sleeps w) + S n)%nat
                 /\ statusCode e = s
                 /\ cls e = (if s =? 429 then CRateLimitError else CEmailVerifyError)).
    { intros ms.
      destruct (IH (attempt + 1) (after_sleep ms (after_call server c w)))
        as (e & w' & Hreq & Hcalls & Hsleeps & He); [lia|lia|].
      exists e, w'. split; [exact Hreq|]. split; [|split; [|exact He]].
      - rewrite Hcalls. cbn [after_sleep after_call calls].
        rewrite <- app_assoc. reflexivity.
      - rewrite Hsleeps. cbn [after_sleep after_call sleeps].
        rewrite length_app. cbn. lia. }
    destruct (Z.eq_dec s 429) as [H429|H429].
    + destruct (Hnext (mul_number (or_number (retryAfter_of response) (Int (2 ^ attempt)))
                         (Int 1000))) as (e & w' & Hreq & Hrest).
      exists e, w'. split; [|exact Hrest].
      eapply request_rethrows; [exact Hout|exact Hok|].
      rewrite handleErrorResponse_429
        by (first [exact Hbody|congruence]). rewrite Hlt. exact Hreq.
    + destruct (Hnext (Int (2 ^ attempt * 1000))) as (e & w' & Hreq & Hrest).
      exists e, w'. split; [|exact Hrest].
      eapply request_rethrows; [exact Hout|exact Hok|].
      rewrite handleErrorResponse_5xx
        by (first [exact Hbody|rewrite Hst; tauto]). rewrite Hlt. exact Hreq.
Qed.

End PipelineFacts.

(** ** Retries *)

(** X19.  When every reply has the same retryable status (429, 500, 502 or
    503) and a body other than the JSON value [null], and [retries] is
    [N >= 1], a request makes exactly [N] HTTP calls, all the same, sleeps
    [N - 1] times and then raises the error for that status; with [N = 1]
    there is one call and no sleep. *)
Theorem retryable_status_is_tried_retries_times :
  forall (T : Type) (server : Server T) (this : EmailVerify)
         (method path : string) (body : option Json) (t0 s N : Z),
    retries this = Int N ->
    1 <= N ->
    s = 429 \/ s = 500 \/ s = 502 \/ s = 503 ->
    (forall k c, exists response,
        outcome (server k c) = Returned response
        /\ status response = s
        /\ json_error response <> JsonNull) ->
    exists e w',
      request server this method path body 1 (fresh t0) = Some (Raised (OfTaxonomy e), w')
      /\ calls w' = repeat (call_of this method path body) (Z.to_nat N)
      /\ Z.of_nat (List.length (calls w')) = N
      /\ Z.of_nat (List.length (sleeps w')) = N - 1
      /\ (N = 1 -> sleeps w' = [])
      /\ statusCode e = s
      /\ cls e = (if s =? 429 then CRateLimitError else CEmailVerifyError).
Proof.
  intros T server this method path body t0 s N HN H1 Hs Hsrv.
  destruct (persistent_status_run server this s N method path body HN Hs Hsrv
              (Z.to_nat (N - 1)) 1 (fresh t0)) as (e & w' & Hreq & Hcalls & Hsleeps & He);
    [lia|reflexivity|].
  cbn [fresh calls sleeps app List.length Nat.add] in Hcalls, Hsleeps.
  replace (S (Z.to_nat (N - 1))) with (Z.to_nat N) in Hcalls by lia.
  exists e, w'. split; [exact Hreq|]. split; [exact Hcalls|].
  split; [rewrite Hcalls, repeat_length; lia|].
  split; [lia|]. split; [|exact He].
  intros ->. destruct (sleeps w'); [reflexivity|discriminate].
Qed.

Lemma retryable_status_is_tried_retries_times_witness :
  retries (sample_client (Int 3)) = Int 3 /\
  exists e w',
    request (always rate_limited) (sample_client (Int 3)) "POST" "/verify" None 1 (fresh 0)
    = Some (Raised (OfTaxonomy e), w')
    /\ calls w' = repeat (call_of (sample_client (Int 3)) "POST" "/verify" None) (Z.to_nat 3)
    /\ Z.of_nat (List.length (calls w')) = 3
    /\ Z.of_nat (List.length (sleeps w')) = 3 - 1
    /\ (3 = 1 -> sleeps w' = [])
    /\ statusCode e = 429
    /\ cls e = (if 429 =? 429 then CRateLimitError else CEmailVerifyError).
Proof.
  split; [reflexivity|].
  apply (retryable_status_is_tried_retries_times unit (always rate_limited)
           (sample_client (Int 3)) "POST" "/verify" None 0 429 3).
  - reflexivity.
  - lia.
  - left; reflexivity.
  - intros k c. exists rate_limited. repeat split; try reflexivity. discriminate.
Defined.

(** C1.  The code departs from the claim on a retryable status that comes
    with the body [null]: with [retries = 3], against a server that always
    answers 503 (or 429) with that body, the request makes one call, not
    three, does not sleep, and raises the [NETWORK_ERROR] base error with
    status 0 in place of the error of the status. *)
Theorem null_body_stops_the_retries :
  request (always (null_body 503 "Service Unavailable" None)) (sample_client (Int 3))
    "GET" "/credits" None 1 (fresh 0)
  = Some (Raised (OfTaxonomy
            {| cls := CEmailVerifyError;
               message := "Network error: Cannot read properties of null (reading 'error')";
               code := "NETWORK_ERROR";
               statusCode := 0;
               details := None;
               retryAfter := None |}),
          {| now := 20;
             calls := [call_of (sample_client (Int 3)) "GET" "/credits" None];
             sleeps := [] |})
  /\ request (always (null_body 429 "Too Many Requests" (Some "1"))) (sample_client (Int 3))
       "GET" "/credits" None 1 (fresh 0)
     = Some (Raised (OfTaxonomy
               {| cls := CEmailVerifyError;
                  message := "Network error: Cannot read properties of null (reading 'error')";
                  code := "NETWORK_ERROR";
                  statusCode := 0;
                  details := None;
                  retryAfter := None |}),
             {| now := 20;
                calls := [call_of (sample_client (Int 3)) "GET" "/credits" None];
                sleeps := [] |}).
Proof. split; vm_compute; reflexivity. Qed.

(** ** Statuses that are not retried *)

(** X20.  A reply with status 401, 403, 404 or 400 whose body is not the
    JSON value [null] makes [request] raise after that one call, without a
    sleep: 401 gives [AuthenticationError] with code [INVALID_API_KEY], 403
    gives [InsufficientCreditsError] when the code is [INSUFFICIENT_CREDITS]
    and otherwise the base error with the code of the body, 404 gives
    [NotFoundError] with code [NOT_FOUND], 400 gives [ValidationError] with
    code [INVALID_REQUEST] and the details of the body.  The status code of
    the error is that of the reply; code and message are the server's when
    it sent them, the message is the status text otherwise. *)
Theorem client_error_status_raises_after_one_call :
  forall (T : Type) (server : Server T) (this : EmailVerify)
         (method path : string) (body : option Json) (attempt : Z) (w : World)
         (response : Response T),
    outcome (server (List.length (calls w)) (call_of this method path body))
    = Returned response ->
    json_error response <> JsonNull ->
    status response = 401 \/ status response = 403 \/ status response = 404
    \/ status response = 400 ->
    exists e w',
      request server this method path body attempt w = Some (Raised (OfTaxonomy e), w')
      /\ calls w' = calls w ++ [call_of this method path body]
      /\ sleeps w' = sleeps w
      /\ message e = message_of response
      /\ statusCode e = status response
      /\ retryAfter e = None
      /\ (status response = 401 ->
          cls e = CAuthenticationError /\ code e = "INVALID_API_KEY"%string
          /\ details e = None)
      /\ (status response = 403 -> code_of response = "INSUFFICIENT_CREDITS" ->
          cls e = CInsufficientCreditsError /\ code e = "INSUFFICIENT_CREDITS"%string
          /\ details e = None)
      /\ (status response = 403 -> code_of response <> "INSUFFICIENT_CREDITS" ->
          cls e = CEmailVerifyError /\ code e = code_of response
          /\ details e = None)
      /\ (status response = 404 ->
          cls e = CNotFoundError /\ code e = "NOT_FOUND"%string
          /\ details e = None)
      /\ (status response = 400 ->
          cls e = CValidationError /\ code e = "INVALID_REQUEST"%string
          /\ details e = match error_of response with
                         | Some a => ApiError.details a
                         | None => None
                         end)
      /\ (forall a, json_error response = JsonValue {| error := Some a |} ->
          (ApiError.message a <> "" -> message_of response = ApiError.message a)
          /\ (ApiError.code a <> "" -> code_of response = ApiError.code a))
      /\ (error_of response = None ->
          message_of response = statusText response
          /\ code_of response = "UNKNOWN_ERROR"%string).
Proof.
  intros T server this method path body attempt w response Hout Hbody Hs.
  assert (Hok : ok response = false).
  { unfold ok. destruct Hs as [->|[->|[->| ->]]]; reflexivity. }
  assert (Hserver : forall a, json_error response = JsonValue {| error := Some a |} ->
            (ApiError.message a <> "" -> message_of response = ApiError.message a)
            /\ (ApiError.code a <> "" -> code_of response = ApiError.code a)).
  { intros a Ha. unfold message_of, code_of, error_of. rewrite Ha. cbn.
    unfold truthy_string.
    split; intros Hne; apply String.eqb_neq in Hne; rewrite Hne; reflexivity. }
  assert (Hnone : error_of response = None ->
            message_of response = statusText response
            /\ code_of response = "UNKNOWN_ERROR"%string).
  { intros Hn. unfold message_of, code_of. rewrite Hn. split; reflexivity. }
  destruct Hs as [Hs|[Hs|[Hs|Hs]]].
  - eexists. eexists. split.
    + eapply request_rethrows; [exact Hout|exact Hok|].
      rewrite handleErrorResponse_switch by exact Hbody.
      unfold switch_on_status. rewrite Hs. reflexivity.
    + cbn [cls message code statusCode details retryAfter AuthenticationError
             EmailVerifyError default].
      rewrite Hs.
      repeat split; try reflexivity; try discriminate;
        try (apply Hserver; assumption); try (apply Hnone; assumption).
  - destruct (String.eqb (code_of response) "INSUFFICIENT_CREDITS") eqn:Hcode.
    + eexists. eexists. split.
      * eapply request_rethrows; [exact Hout|exact Hok|].
        rewrite handleErrorResponse_switch by exact Hbody.
        unfold switch_on_status. rewrite Hs.
        cbn [Z.eqb Pos.eqb]. rewrite Hcode. reflexivity.
      * apply String.eqb_eq in Hcode.
        cbn [cls message code statusCode details retryAfter InsufficientCreditsError
               EmailVerifyError default].
        rewrite Hs.
        repeat split; try reflexivity; try discriminate;
          try (intros; contradiction); try (apply Hserver; assumption);
          try (apply Hnone; assumption).
    + eexists. eexists. split.
      * eapply request_rethrows; [exact Hout|exact Hok|].
        rewrite handleErrorResponse_switch by exact Hbody.
        unfold switch_on_status. rewrite Hs.
        cbn [Z.eqb Pos.eqb]. rewrite Hcode. reflexivity.
      * apply String.eqb_neq in Hcode.
        cbn [cls message code statusCode details retryAfter EmailVerifyError default].
        rewrite Hs.
        repeat split; try reflexivity; try discriminate;
          try (intros; contradiction); try (apply Hserver; assumption);
          try (apply Hnone; assumption).
  - eexists. eexists. split.
    + eapply request_rethrows; [exact Hout|exact Hok|].
      rewrite handleErrorResponse_switch by exact Hbody.
      unfold switch_on_status. rewrite Hs. reflexivity.
    + cbn [cls message code statusCode details retryAfter NotFoundError
             EmailVerifyError default].
      rewrite Hs.
      repeat split; try reflexivity; try discriminate;
        try (apply Hserver; assumption); try (apply Hnone; assumption).
  - eexists. eexists. split.
    + eapply request_rethrows; [exact Hout|exact Hok|].
      rewrite handleErrorResponse_switch by exact Hbody.
      unfold switch_on_status. rewrite Hs. reflexivity.
    + cbn [cls message code statusCode details retryAfter ValidationError
             EmailVerifyError default].
      rewrite Hs.
      repeat split; try reflexivity; try discriminate;
        try (apply Hserver; assumption); try (apply Hnone; assumption).
Qed.

Lemma client_error_status_raises_after_one_call_witness :
  status unauthorized = 401 /\
  exists e w',
    request (always unauthorized) (sample_client (Int 3)) "POST" "/verify" None 1 (fresh 0)
    = Some (Raised (OfTaxonomy e), w')
    /\ List.length (calls w') = 1%nat
    /\ sleeps w' = []
    /\ cls e = CAuthenticationError
    /\ code e = "INVALID_API_KEY"%string
    /\ statusCode e = 401.
Proof.
  split; [reflexivity|].
  destruct (client_error_status_raises_after_one_call unit (always unauthorized)
              (sample_client (Int 3)) "POST" "/verify" None 1 (fresh 0) unauthorized)
    as (e & w' & Hreq & Hcalls & Hsleeps & _ & Hst & _ & H401 & _).
  - reflexivity.
  - discriminate.
  - left; reflexivity.
  - exists e, w'. destruct (H401 eq_refl) as (Hcls & Hcode & _).
    rewrite Hcalls. repeat split; assumption.
Defined.

(** C5.  The code departs from the claim on a 401, 403, 404 or 400 reply
    whose body is the JSON value [null]: the request raises after the one
    call, without a sleep, but what it raises is the base error with code
    [NETWORK_ERROR] and status 0, not the error of the status. *)
Theorem null_body_hides_the_client_error :
  forall s text,
    In (s, text) [(401, "Unauthorized"); (403, "Forbidden"); (404, "Not Found");
                  (400, "Bad Request")]%string ->
    request (always (null_body s text None)) (sample_client (Int 3))
      "POST" "/verify" None 1 (fresh 0)
    = Some (Raised (OfTaxonomy
              {| cls := CEmailVerifyError;
                 message := "Network error: Cannot read properties of null (reading 'error')";
                 code := "NETWORK_ERROR";
                 statusCode := 0;
                 details := None;
                 retryAfter := None |}),
            {| now := 20;
               calls := [call_of (sample_client (Int 3)) "POST" "/verify" None];
               sleeps := [] |}).
Proof.
  intros s text [[= <- <-]|[[= <- <-]|[[= <- <-]|[[= <- <-]|[]]]]];
    vm_compute; reflexivity.
Qed.

Lemma null_body_hides_the_client_error_witness :
  exists e w',
    request (always (null_body 401 "Unauthorized" None)) (sample_client (Int 3))
      "POST" "/verify" None 1 (fresh 0)
    = Some (Raised (OfTaxonomy e), w')
    /\ cls e <> CAuthenticationError
    /\ statusCode e = 0.
Proof.
  eexists. eexists. split.
  - apply (null_body_hides_the_client_error 401 "Unauthorized"). left. reflexivity.
  - split; [discriminate|reflexivity].
Defined.

(** ** Rate limiting *)

(** C4, as the code has it.  On a status 429 whose body is not the JSON
    value [null], [handleErrorResponse] reads the [Retry-After] header with
    [parseInt]: a header that is missing or empty reads as 0, any other
    header as [parseInt] reads it, which is [NaN] when it does not start
    with an integer.  With [attempt < retries] it sleeps that many seconds,
    or [2 ^ attempt] seconds when the value is 0 or [NaN], and gives back
    whatever [request] gives with [attempt + 1]; otherwise it raises a
    [RateLimitError] with code [RATE_LIMIT_EXCEEDED] and status 429 whose
    [retryAfter] is the value read.  [request] passes on the error in both
    cases. *)
Theorem rate_limit_is_retried_or_raised :
  forall (T : Type) (server : Server T) (this : EmailVerify)
         (response : Response T) (attempt : Z) (method path : string)
         (body : option Json) (w : World),
    status response = 429 ->
    json_error response <> JsonNull ->
    let seconds :=
      match retryAfter_of response with
      | Int z => if z =? 0 then 2 ^ attempt else z
      | NaN => 2 ^ attempt
      end in
    (retry_after response = None \/ retry_after response = Some "" ->
     retryAfter_of response = Int 0)
    /\ (forall h, retry_after response = Some h -> h <> "" ->
        retryAfter_of response = parseInt h)
    /\ (js_lt (Int attempt) (retries this) = true ->
        handleErrorResponse server this response attempt method path body w
        = request server this method path body (attempt + 1)
            (after_sleep (Int (seconds * 1000)) w))
    /\ (js_lt (Int attempt) (retries this) = false ->
        exists e,
          handleErrorResponse server this response attempt method path body w
          = Some (Raised (OfTaxonomy e), w)
          /\ cls e = CRateLimitError
          /\ code e = "RATE_LIMIT_EXCEEDED"%string
          /\ statusCode e = 429
          /\ message e = message_of response
          /\ retryAfter e = Some (retryAfter_of response))
    /\ (outcome (server (List.length (calls w)) (call_of this method path body))
        = Returned response ->
        let w1 := after_call server (call_of this method path body) w in
        (js_lt (Int attempt) (retries this) = true ->
         forall x w',
           request server this method path body (attempt + 1)
             (after_sleep (Int (seconds * 1000)) w1) = Some (Raised x, w') ->
           request server this method path body attempt w = Some (Raised x, w'))
        /\ (js_lt (Int attempt) (retries this) = false ->
            exists e,
              request server this method path body attempt w
              = Some (Raised (OfTaxonomy e), w1)
              /\ cls e = CRateLimitError
              /\ code e = "RATE_LIMIT_EXCEEDED"%string
              /\ statusCode e = 429
              /\ message e = message_of response
              /\ retryAfter e = Some (retryAfter_of response))).
Proof.
  intros T server this response attempt method path body w Hs Hbody seconds.
  assert (Hms : mul_number (or_number (retryAfter_of response) (Int (2 ^ attempt))) (Int 1000)
                = Int (seconds * 1000)).
  { unfold seconds, or_number, truthy_number.
    destruct (retryAfter_of response) as [z|]; [|reflexivity].
    destruct (z =? 0); reflexivity. }
  assert (Hok : ok response = false) by (unfold ok; rewrite Hs; reflexivity).
  split; [|split; [|split; [|split]]].
  - unfold retryAfter_of. intros [-> | ->]; reflexivity.
  - unfold retryAfter_of. intros h -> Hh. cbn. unfold truthy_string.
    apply String.eqb_neq in Hh. rewrite Hh. reflexivity.
  - intros Hlt. rewrite handleErrorResponse_429, Hlt, Hms by assumption. reflexivity.
  - intros Hlt. rewrite handleErrorResponse_429, Hlt by assumption.
    eexists. split; [reflexivity|]. repeat split; reflexivity.
  - intros Hout w1. split; intros Hlt.
    + intros x w' Hnext.
      destruct (request_raises_taxonomy _ _ _ _ _ _ _ _ _ Hnext) as (e & ->).
      eapply request_rethrows; [exact Hout|exact Hok|].
      rewrite handleErrorResponse_429, Hlt, Hms by assumption. exact Hnext.
    + eexists. split.
      * eapply request_rethrows; [exact Hout|exact Hok|].
        rewrite handleErrorResponse_429, Hlt by assumption. reflexivity.
      * repeat split; reflexivity.
Qed.

Lemma rate_limit_is_retried_or_raised_witness :
  status rate_limited = 429 /\
  json_error rate_limited <> JsonNull /\
  retryAfter_of rate_limited = Int 1 /\
  handleErrorResponse (always rate_limited) (sample_client (Int 3)) rate_limited 1
    "POST" "/verify" None (fresh 0)
  = request (always rate_limited) (sample_client (Int 3)) "POST" "/verify" None 2
      (after_sleep (Int 1000) (fresh 0)).
Proof.
  split; [reflexivity|]. split; [discriminate|]. split; [reflexivity|].
  apply (rate_limit_is_retried_or_raised unit (always rate_limited) (sample_client (Int 3))
           rate_limited 1 "POST" "/verify" None (fresh 0) eq_refl ltac:(discriminate)).
  reflexivity.
Defined.

(** C4 as stated fails on a [Retry-After] header that holds a date: the
    value read is [NaN], not 0, and that is what the error carries. *)
Lemma retry_after_date_is_not_zero :
  retry_after rate_limited_until_date = Some "Wed, 21 Oct 2015 07:28:00 GMT" /\
  exists e w',
    request (always rate_limited_until_date) (sample_client (Int 1))
      "POST" "/verify" None 1 (fresh 0)
    = Some (Raised (OfTaxonomy e), w')
    /\ cls e = CRateLimitError
    /\ retryAfter e = Some NaN
    /\ retryAfter e <> Some (Int 0).
Proof.
  split; [reflexivity|].
  eexists. eexists. split; [vm_compute; reflexivity|].
  split; [reflexivity|]. split; [reflexivity|]. discriminate.
Qed.

(** ** The constructor's defaults and a budget of zero attempts *)

(** C10.  A configured timeout that is falsy (0, or [NaN]) is replaced by
    30000, while a configured [retries] of 0 is kept; the client so built
    answers a reply of status 429, 500, 502 or 503 by raising an error
    after that one HTTP call, without a sleep, whatever the body of the
    reply.  When the body is not the JSON value [null] the error is the one
    of the status: [RateLimitError] on 429, the base error otherwise, with
    the status of the reply. *)
Theorem zero_timeout_defaults_but_zero_retries_stays :
  forall (T : Type) (server : Server T) (config : EmailVerifyConfig)
         (key : string) (t : number) (method path : string) (body : option Json)
         (w : World),
    cfg_apiKey config = Some key -> key <> "" ->
    cfg_timeout config = Some t -> truthy_number t = false ->
    cfg_retries config = Some (Int 0) ->
    exists this,
      constructor config = Returned this
      /\ timeout this = Int 30000
      /\ retries this = Int 0
      /\ forall response,
           outcome (server (List.length (calls w)) (call_of this method path body))
           = Returned response ->
           status response = 429 \/ status response = 500 \/ status response = 502
           \/ status response = 503 ->
           exists e w',
             request server this method path body 1 w = Some (Raised (OfTaxonomy e), w')
             /\ calls w' = calls w ++ [call_of this method path body]
             /\ sleeps w' = sleeps w
             /\ (json_error response <> JsonNull ->
                 statusCode e = status response
                 /\ cls e = (if status response =? 429 then CRateLimitError
                             else CEmailVerifyError)).
Proof.
  intros T server config key t method path body w Hkey Hne Ht Hfalsy Hretries.
  unfold constructor. rewrite Hkey, Ht, Hretries. cbn [default].
  unfold truthy_string. apply String.eqb_neq in Hne. rewrite Hne. cbn [negb].
  eexists. split; [reflexivity|]. cbn [timeout retries].
  split; [unfold or_number; rewrite Hfalsy; reflexivity|].
  split; [reflexivity|].
  intros response Hout Hs.
  match goal with |- context [request server ?c] => set (this := c) in * end.
  assert (Hok : ok response = false).
  { unfold ok. destruct Hs as [->|[->|[->| ->]]]; reflexivity. }
  assert (Hlt : js_lt (Int 1) (retries this) = false) by reflexivity.
  destruct (json_error response) eqn:Hjson.
  2:{ eexists. eexists. split.
      - eapply request_null_body; [exact Hout|exact Hok|exact Hjson].
      - split; [reflexivity|]. split; [reflexivity|]. intros Hn. contradiction. }
  all: assert (Hbody : json_error response <> JsonNull) by (rewrite Hjson; discriminate).
  all: destruct (Z.eq_dec (status response) 429) as [H429|H429].
  all: eexists; eexists; (split;
         [eapply request_rethrows; [exact Hout|exact Hok|];
          first [rewrite handleErrorResponse_429, Hlt by assumption
                |rewrite handleErrorResponse_5xx, Hlt by (first [assumption|tauto])];
          reflexivity|]).
  all: split; [reflexivity|]; split; [reflexivity|]; intros _.
  all: first [rewrite H429; split; reflexivity
             |apply Z.eqb_neq in H429; rewrite H429; split; reflexivity].
Qed.

Lemma zero_timeout_defaults_but_zero_retries_stays_witness :
  exists this w',
    constructor {| cfg_apiKey := Some "test-key"; cfg_baseUrl := None;
                   cfg_timeout := Some (Int 0); cfg_retries := Some (Int 0) |}
    = Returned this
    /\ timeout this = Int 30000
    /\ retries this = Int 0
    /\ request (always unavailable) this "GET" "/credits" None 1 (fresh 0)
       = Some (Raised (OfTaxonomy
                 (EmailVerifyError "Service Unavailable" "UNKNOWN_ERROR" 503 None)), w')
    /\ List.length (calls w') = 1%nat
    /\ sleeps w' = [].
Proof.
  destruct (zero_timeout_defaults_but_zero_retries_stays unit (always unavailable)
              {| cfg_apiKey := Some "test-key"; cfg_baseUrl := None;
                 cfg_timeout := Some (Int 0); cfg_retries := Some (Int 0) |}
              "test-key" (Int 0) "GET" "/credits" None (fresh 0)
              eq_refl ltac:(discriminate) eq_refl eq_refl eq_refl)
    as (this & Hthis & Ht & Hr & Hreq).
  injection Hthis as <-.
  exists (sample_client (Int 0)). eexists.
  split; [reflexivity|]. split; [reflexivity|]. split; [reflexivity|].
  split; [vm_compute; reflexivity|]. split; reflexivity.
Defined.

(** ** Construction *)

Lemma strip_trailing_slash_app (u : string) :
  strip_trailing_slash (u ++ "/") = u.
Proof.
  induction u as [|c u IH]; [reflexivity|].
  cbn [append strip_trailing_slash]. rewrite IH.
  destruct u; reflexivity.
Qed.

Lemma strip_trailing_slash_none (u : string) :
  (forall v, u <> (v ++ "/")%string) -> strip_trailing_slash u = u.
Proof.
  induction u as [|c u IH]; intros Hno; [reflexivity|].
  cbn [strip_trailing_slash]. destruct u as [|d u].
  - destruct (Ascii.eqb c "/") eqn:Hc; [|reflexivity].
    apply Ascii.eqb_eq in Hc. subst c. exfalso. apply (Hno ""%string). reflexivity.
  - rewrite IH; [reflexivity|].
    intros v Hv. apply (Hno (String c v)). cbn [append]. rewrite Hv. reflexivity.
Qed.

(** C8.  The constructor throws an [AuthenticationError] exactly when the
    API key is absent or empty, and builds a client for every other key.
    The client's base URL is the configured one without the slash it ends
    with, if any (one slash only), or the default endpoint when none is
    configured or nothing is left; the timeout is 30000 and [retries] is 3
    when not configured. *)
Theorem constructor_contract :
  forall (config : EmailVerifyConfig),
    (cfg_apiKey config = None \/ cfg_apiKey config = Some "" <->
     constructor config = Raised (OfTaxonomy (AuthenticationError (Some "API key is required"))))
    /\ ((exists e, constructor config = Raised (OfTaxonomy e)
                   /\ cls e = CAuthenticationError)
        <-> (cfg_apiKey config = None \/ cfg_apiKey config = Some ""))
    /\ (forall key, cfg_apiKey config = Some key -> key <> "" ->
        exists this,
          constructor config = Returned this
          /\ apiKey this = key
          /\ (cfg_baseUrl config = None -> baseUrl this = DEFAULT_BASE_URL)
          /\ (forall u, cfg_baseUrl config = Some (u ++ "/")%string -> u <> "" ->
              baseUrl this = u)
          /\ (forall u, cfg_baseUrl config = Some u -> u <> "" ->
              (forall v, u <> (v ++ "/")%string) -> baseUrl this = u)
          /\ (cfg_baseUrl config = Some "" \/ cfg_baseUrl config = Some "/" ->
              baseUrl this = DEFAULT_BASE_URL)
          /\ (cfg_timeout config = None -> timeout this = Int 30000)
          /\ (forall t, cfg_timeout config = Some t -> truthy_number t = true ->
              timeout this = t)
          /\ (cfg_retries config = None -> retries this = Int 3)
          /\ (forall n, cfg_retries config = Some n -> retries this = n)).
Proof.
  intros config.
  assert (Hfail : cfg_apiKey config = None \/ cfg_apiKey config = Some "" ->
                  constructor config
                  = Raised (OfTaxonomy (AuthenticationError (Some "API key is required")))).
  { unfold constructor. intros [-> | ->]; reflexivity. }
  assert (Hsucc : forall key, cfg_apiKey config = Some key -> key <> "" ->
                  constructor config
                  = Returned {|
                      apiKey := key;
                      baseUrl := or_string (option_map strip_trailing_slash (cfg_baseUrl config))
                                   DEFAULT_BASE_URL;
                      timeout := match cfg_timeout config with
                                 | Some t => or_number t DEFAULT_TIMEOUT
                                 | None => DEFAULT_TIMEOUT
                                 end;
                      retries := default DEFAULT_RETRIES (cfg_retries config) |}).
  { intros key Hkey Hne. unfold constructor. rewrite Hkey. cbn [default].
    unfold truthy_string. apply String.eqb_neq in Hne. rewrite Hne. reflexivity. }
  assert (Hkeys : cfg_apiKey config = None \/ cfg_apiKey config = Some ""
                  \/ exists key, cfg_apiKey config = Some key /\ key <> "").
  { destruct (cfg_apiKey config) as [key|]; [|tauto].
    destruct (string_dec key "") as [->|Hne]; [tauto|]. right; right. exists key. tauto. }
  split; [|split].
  - split; [exact Hfail|]. intros Hraised.
    destruct Hkeys as [H|[H|(key & Hkey & Hne)]]; [tauto|tauto|].
    rewrite (Hsucc key Hkey Hne) in Hraised. discriminate.
  - split.
    + intros (e & Hraised & _).
      destruct Hkeys as [H|[H|(key & Hkey & Hne)]]; [tauto|tauto|].
      rewrite (Hsucc key Hkey Hne) in Hraised. discriminate.
    + intros H. eexists. split; [apply Hfail; exact H|reflexivity].
  - intros key Hkey Hne. eexists. split; [exact (Hsucc key Hkey Hne)|].
    cbn [apiKey baseUrl timeout retries].
    split; [reflexivity|].
    split; [intros ->; reflexivity|].
    split.
    { intros u -> Hu. cbn [option_map]. rewrite strip_trailing_slash_app.
      unfold or_string, truthy_string. apply String.eqb_neq in Hu. rewrite Hu. reflexivity. }
    split.
    { intros u -> Hu Hno. cbn [option_map]. rewrite strip_trailing_slash_none by exact Hno.
      unfold or_string, truthy_string. apply String.eqb_neq in Hu. rewrite Hu. reflexivity. }
    split; [intros [-> | ->]; reflexivity|].
    split; [intros ->; reflexivity|].
    split; [intros t -> Ht; unfold or_number; rewrite Ht; reflexivity|].
    split; [intros ->; reflexivity|].
    intros n ->. reflexivity.
Qed.

Lemma constructor_contract_witness :
  exists this,
    constructor {| cfg_apiKey := Some "test-key";
                   cfg_baseUrl := Some "https://custom.api.com//";
                   cfg_timeout := None; cfg_retries := None |}
    = Returned this
    /\ apiKey this = "test-key"
    /\ baseUrl this = "https://custom.api.com/"
    /\ timeout this = Int 30000
    /\ retries this = Int 3.
Proof.
  destruct (constructor_contract
              {| cfg_apiKey := Some "test-key";
                 cfg_baseUrl := Some "https://custom.api.com//";
                 cfg_timeout := None; cfg_retries := None |})
    as (_ & _ & Hsucc).
  destruct (Hsucc "test-key" eq_refl ltac:(discriminate))
    as (this & Hthis & Hkey & _ & Hurl & _ & _ & Ht & _ & Hr & _).
  exists this. split; [exact Hthis|]. split; [exact Hkey|].
  split; [apply (Hurl "https://custom.api.com/"%string eq_refl); discriminate|].
  split; [apply Ht; reflexivity|apply Hr; reflexivity].
Defined.

(** ** Bulk verification *)

(** C6.  [verifyBulk] throws a [ValidationError] without any HTTP call
    exactly when there are more than 10000 emails; with 10000 or fewer, and
    so with exactly 10000, its first step is the HTTP call
    [POST /verify/bulk]; with 10001 it fails locally. *)
Theorem verifyBulk_size_check :
  forall (T : Type) (server : Server T) (this : EmailVerify)
         (emails : list string) (options : option BulkVerifyOptions) (w : World),
    ((exists e w',
         verifyBulk server this emails options w = Some (Raised (OfTaxonomy e), w')
         /\ cls e = CValidationError
         /\ calls w' = calls w)
     <-> 10000 < Z.of_nat (List.length emails))
    /\ (10000 < Z.of_nat (List.length emails) ->
        verifyBulk server this emails options w
        = Some (Raised (OfTaxonomy
                  (ValidationError "Maximum 10,000 emails per bulk job" None)), w))
    /\ (Z.of_nat (List.length emails) <= 10000 ->
        exists r w' b more,
          verifyBulk server this emails options w = Some (r, w')
          /\ calls w' = calls w ++ call_of this "POST" "/verify/bulk" (Some b) :: more
          /\ exists rest, b = JObject (("emails", JArray (map JString emails)) :: rest))
    /\ (Z.of_nat (List.length emails) = 10000 ->
        exists r w', verifyBulk server this emails options w = Some (r, w')
                     /\ (List.length (calls w) < List.length (calls w'))%nat)
    /\ (Z.of_nat (List.length emails) = 10001 ->
        exists e, verifyBulk server this emails options w = Some (Raised (OfTaxonomy e), w)
                  /\ cls e = CValidationError).
Proof.
  intros T server this emails options w.
  assert (Hbig : 10000 < Z.of_nat (List.length emails) ->
                 verifyBulk server this emails options w
                 = Some (Raised (OfTaxonomy
                           (ValidationError "Maximum 10,000 emails per bulk job" None)), w)).
  { intros H. unfold verifyBulk.
    destruct (Z.of_nat (List.length emails) >? 10000) eqn:Hc; [reflexivity|].
    rewrite Z.gtb_ltb in Hc. apply Z.ltb_ge in Hc. lia. }
  assert (Hsmall : Z.of_nat (List.length emails) <= 10000 ->
                   exists r w' b more,
                     verifyBulk server this emails options w = Some (r, w')
                     /\ calls w' = calls w ++ call_of this "POST" "/verify/bulk" (Some b) :: more
                     /\ exists rest, b = JObject (("emails", JArray (map JString emails)) :: rest)).
  { intros H. unfold verifyBulk.
    destruct (Z.of_nat (List.length emails) >? 10000) eqn:Hc.
    { rewrite Z.gtb_ltb in Hc. apply Z.ltb_lt in Hc. lia. }
    match goal with |- context [request server this ?m ?p (Some ?b) 1 w] =>
      destruct (request_total server this m p (Some b) 1 w) as (r & w' & Hreq);
      destruct (request_first_call server this m p (Some b) 1 w r w' Hreq) as (more & Hcalls);
      exists r, w', b, more
    end.
    split; [exact Hreq|]. split; [exact Hcalls|]. eexists. reflexivity. }
  split; [|split; [exact Hbig|split; [exact Hsmall|split]]].
  - split.
    + intros (e & w' & Hv & _ & Hcalls).
      destruct (Z.lt_ge_cases 10000 (Z.of_nat (List.length emails))) as [Hlt|Hge]; [exact Hlt|].
      destruct (Hsmall Hge) as (r & w'' & b & more & Hv' & Hcalls' & _).
      rewrite Hv in Hv'. injection Hv' as _ <-.
      rewrite Hcalls in Hcalls'. apply (f_equal (@List.length Call)) in Hcalls'.
      rewrite length_app in Hcalls'. cbn in Hcalls'. lia.
    + intros H. eexists. exists w. split; [apply Hbig; exact H|]. split; reflexivity.
  - intros H. destruct Hsmall as (r & w' & b & more & Hv & Hcalls & _); [lia|].
    exists r, w'. split; [exact Hv|]. rewrite Hcalls, length_app. cbn. lia.
  - intros H. eexists. split; [apply Hbig; lia|reflexivity].
Qed.

Lemma verifyBulk_size_check_witness :
  Z.of_nat (List.length (repeat "test@example.com"%string (Z.to_nat 10001))) = 10001 /\
  verifyBulk (always unauthorized) (sample_client (Int 3))
    (repeat "test@example.com"%string (Z.to_nat 10001)) None (fresh 0)
  = Some (Raised (OfTaxonomy (ValidationError "Maximum 10,000 emails per bulk job" None)),
          fresh 0).
Proof.
  assert (Hlen : Z.of_nat (List.length (repeat "test@example.com"%string (Z.to_nat 10001)))
                 = 10001).
  { rewrite repeat_length. apply Z2Nat.id. discriminate. }
  split; [exact Hlen|].
  apply (verifyBulk_size_check unit (always unauthorized) (sample_client (Int 3))
           (repeat "test@example.com"%string (Z.to_nat 10001)) None (fresh 0)).
  rewrite Hlen. reflexivity.
Defined.

(** ** Query of [getBulkJobResults] *)

(** The parameters in terms of the options: [limit] when truthy, [offset]
    when defined, [status] when truthy, in this order. *)
Lemma bulkResultsParams_eq (options : option BulkResultsOptions) :
  bulkResultsParams options
  = match options with
    | None => []
    | Some o =>
        match ro_limit o with
        | Some l => if truthy_number l then [("limit", number_toString l)] else []
        | None => []
        end
        ++ match ro_offset o with
           | Some n => [("offset", number_toString n)]
           | None => []
           end
        ++ match ro_status o with
           | Some st => if truthy_string st then [("status", st)] else []
           | None => []
           end
    end.
Proof.
  destruct options as [[l n st]|]; [|reflexivity].
  unfold bulkResultsParams. cbn [ro_limit ro_offset ro_status].
  destruct l as [l|]; [destruct (truthy_number l)|];
    (destruct n as [n|]);
    (destruct st as [st|]; [destruct (truthy_string st)|]); reflexivity.
Qed.

(** The query string is empty only when there is no parameter. *)
Lemma bulkResultsPath_eq (jobId : string) (options : option BulkResultsOptions) :
  bulkResultsPath jobId options
  = ("/verify/bulk/" ++ jobId ++ "/results"
       ++ match bulkResultsParams options with
          | [] => ""
          | _ :: _ => "?" ++ params_toString (bulkResultsParams options)
          end)%string.
Proof.
  unfold bulkResultsPath. rewrite bulkResultsParams_eq.
  destruct options as [[l n st]|]; [|reflexivity].
  cbn [ro_limit ro_offset ro_status].
  destruct l as [l|]; [destruct (truthy_number l)|];
    (destruct n as [n|]);
    (destruct st as [st|]; [destruct (truthy_string st)|]); reflexivity.
Qed.

(** C9.  [getBulkJobResults] issues [GET /verify/bulk/{jobId}/results] with
    a query that holds [offset] whenever it is defined, also when it is 0,
    and holds [limit] and [status] only when they are truthy: a limit of 0,
    an empty status and absent ones are left out. *)
Theorem bulk_results_query_parameters :
  forall (T : Type) (server : Server T) (this : EmailVerify)
         (jobId : string) (options : option BulkResultsOptions) (w : World),
    let params := bulkResultsParams options in
    let has name := In name (map fst params) in
    (has "offset" <-> exists o n, options = Some o /\ ro_offset o = Some n)
    /\ (forall o n, options = Some o -> ro_offset o = Some n ->
        In ("offset", number_toString n) params)
    /\ (forall o, options = Some o -> ro_offset o = Some (Int 0) ->
        In ("offset", "0") params)
    /\ (has "limit" <->
        exists o l, options = Some o /\ ro_limit o = Some l /\ truthy_number l = true)
    /\ (forall o l, options = Some o -> ro_limit o = Some l -> truthy_number l = true ->
        In ("limit", number_toString l) params)
    /\ (has "status" <->
        exists o st, options = Some o /\ ro_status o = Some st /\ st <> "")
    /\ (forall o st, options = Some o -> ro_status o = Some st -> st <> "" ->
        In ("status", st) params)
    /\ (forall name, has name -> name = "limit" \/ name = "offset" \/ name = "status")
    /\ exists r w' more,
         getBulkJobResults server this jobId options w = Some (r, w')
         /\ calls w'
            = calls w
              ++ call_of this "GET"
                   ("/verify/bulk/" ++ jobId ++ "/results"
                      ++ match params with
                         | [] => ""
                         | _ :: _ => "?" ++ params_toString params
                         end)%string None
              :: more.
Proof.
  intros T server this jobId options w params has.
  assert (Hcall : exists r w' more,
             getBulkJobResults server this jobId options w = Some (r, w')
             /\ calls w'
                = calls w
                  ++ call_of this "GET"
                       ("/verify/bulk/" ++ jobId ++ "/results"
                          ++ match params with
                             | [] => ""
                             | _ :: _ => "?" ++ params_toString params
                             end)%string None
                  :: more).
  { unfold getBulkJobResults. rewrite bulkResultsPath_eq. fold params.
    match goal with |- context [request server this ?m ?p None 1 w] =>
      destruct (request_total server this m p None 1 w) as (r & w' & Hreq);
      destruct (request_first_call server this m p None 1 w r w' Hreq) as (more & Hcalls);
      exists r, w', more; split; assumption
    end. }
  assert (Hst : forall s, truthy_string s = true <-> s <> "").
  { intros s. unfold truthy_string. rewrite negb_true_iff. apply String.eqb_neq. }
  assert (Hst' : forall s, truthy_string s = false -> s = "").
  { intros s. unfold truthy_string. rewrite negb_false_iff. apply String.eqb_eq. }
  subst has params. cbv zeta in *. rewrite bulkResultsParams_eq in *.
  destruct options as [[l n st]|]; cbn [ro_limit ro_offset ro_status] in *.
  - destruct l as [l|]; [destruct (truthy_number l) eqn:Hl|];
      (destruct n as [n|]);
      (destruct st as [st|]; [destruct (truthy_string st) eqn:Hs|]);
      try apply Hst in Hs; try apply Hst' in Hs;
      cbn [app map fst In] in *;
      repeat split; try exact Hcall;
      repeat match goal with
             | |- _ -> _ => intro
             | H : _ \/ _ |- _ => destruct H
             | H : False |- _ => destruct H
             | H : exists _, _ |- _ => destruct H
             | H : _ /\ _ |- _ => destruct H
             | H : Some _ = Some _ |- _ => injection H as H; subst
             | H : _ = _ |- _ => discriminate H
             end;
      cbn [ro_limit ro_offset ro_status] in *;
      repeat match goal with
             | H : Some _ = Some _ |- _ => injection H as H; subst
             | H : _ = _ |- _ => discriminate H
             end;
      try congruence; try tauto;
      try (do 2 eexists; repeat split; cbn; (reflexivity || eassumption));
      subst; auto.
  - cbn [map fst In]. repeat split; try exact Hcall;
      repeat match goal with
             | |- _ -> _ => intro
             | H : False |- _ => destruct H
             | H : exists _, _ |- _ => destruct H
             | H : _ /\ _ |- _ => destruct H
             | H : _ = _ |- _ => discriminate H
             end.
Qed.

Lemma bulk_results_query_parameters_witness :
  In ("offset", "0")
     (bulkResultsParams (Some {| ro_limit := Some (Int 50); ro_offset := Some (Int 0);
                                 ro_status := Some "valid" |}))
  /\ exists r w' more,
       getBulkJobResults (always unauthorized) (sample_client (Int 3)) "job_123"
         (Some {| ro_limit := Some (Int 50); ro_offset := Some (Int 0);
                  ro_status := Some "valid" |})
         (fresh 0) = Some (r, w')
       /\ calls w'
          = call_of (sample_client (Int 3)) "GET"
              "/verify/bulk/job_123/results?limit=50&offset=0&status=valid" None
            :: more.
Proof.
  destruct (bulk_results_query_parameters unit (always unauthorized) (sample_client (Int 3))
              "job_123"
              (Some {| ro_limit := Some (Int 50); ro_offset := Some (Int 0);
                       ro_status := Some "valid" |})
              (fresh 0))
    as (_ & _ & Hzero & _ & _ & _ & _ & _ & Hcall).
  split.
  - apply (Hzero {| ro_limit := Some (Int 50); ro_offset := Some (Int 0);
                    ro_status := Some "valid" |}); reflexivity.
  - exact Hcall.
Defined.

(** ** Webhook signatures *)

Lemma high_bit_not_ascii (k y : Z) :
  Z.testbit k 7 = true -> ~ is_ascii (Z.lor k y).
Proof.
  intros Hk [Hlo Hhi].
  assert (Hbit : Z.testbit (Z.lor k y) 7 = true).
  { rewrite Z.lor_spec, Hk. reflexivity. }
  destruct (Z.eq_dec (Z.lor k y) 0) as [H0|H0].
  - rewrite H0 in Hbit. discriminate.
  - rewrite Z.bits_above_log2 in Hbit; [discriminate|lia|].
    apply Z.log2_lt_pow2; [lia|]. change (2 ^ 7) with 128. lia.
Qed.

(** A pure ASCII buffer can only come from the very same ASCII string:
    every code unit from 128 on is encoded with a byte from 128 on. *)
Lemma Buffer_from_ascii_inv (n : nat) :
  forall (s : jsstring) (e : bytes),
    (List.length s <= n)%nat -> Forall is_ascii e -> Buffer_from s = e -> s = e.
Proof.
  induction n as [|n IH]; intros s e Hlen He Heq.
  - destruct s; [cbn in Heq; congruence|cbn in Hlen; lia].
  - destruct s as [|u rest]; [cbn in Heq; congruence|].
    cbn [List.length] in Hlen. cbn [Buffer_from] in Heq.
    assert (Hhead : forall b bs, b :: bs = e -> is_ascii b).
    { intros b bs <-. inversion He; assumption. }
    destruct (u <? 128).
    + destruct e as [|b e']; [discriminate|]. injection Heq as -> Hrest.
      f_equal. apply (IH rest e'); [lia|inversion He; assumption|exact Hrest].
    + exfalso. destruct (u <? 2048).
      { apply Hhead in Heq. revert Heq. apply high_bit_not_ascii. reflexivity. }
      destruct ((55296 <=? u) && (u <=? 56319)).
      { destruct rest as [|l rest'].
        - apply Hhead in Heq. unfold is_ascii in Heq. lia.
        - destruct ((56320 <=? l) && (l <=? 57343)).
          + apply Hhead in Heq. revert Heq. apply high_bit_not_ascii. reflexivity.
          + apply Hhead in Heq. unfold is_ascii in Heq. lia. }
      destruct ((56320 <=? u) && (u <=? 57343)).
      { apply Hhead in Heq. unfold is_ascii in Heq. lia. }
      apply Hhead in Heq. revert Heq. apply high_bit_not_ascii. reflexivity.
Qed.

Lemma Buffer_from_ascii (s : jsstring) :
  Forall is_ascii s -> Buffer_from s = s.
Proof.
  induction 1 as [|u rest [Hlo Hhi] _ IH]; [reflexivity|].
  cbn [Buffer_from]. destruct (u <? 128) eqn:Hu; [rewrite IH; reflexivity|].
  apply Z.ltb_ge in Hu. lia.
Qed.

Lemma hex_lower_ascii (x : Z) : is_ascii (hex_lower (Z.land x 15)).
Proof.
  assert (H : 0 <= Z.land x 15 < 16).
  { change 15 with (Z.ones 4). rewrite Z.land_ones by lia. apply Z.mod_pos_bound. lia. }
  unfold hex_lower, is_ascii. destruct (Z.land x 15 <? 10); lia.
Qed.

Lemma hex_ascii (digest : bytes) : Forall is_ascii (hex digest).
Proof.
  induction digest as [|b digest IH]; [constructor|].
  cbn [hex flat_map app]. repeat constructor; try apply hex_lower_ascii. exact IH.
Qed.

Lemma expectedSignature_ascii hmac_sha256 (payload secret : jsstring) :
  Forall is_ascii (expectedSignature hmac_sha256 payload secret).
Proof.
  unfold expectedSignature. apply Forall_app. split; [|apply hex_ascii].
  cbn. unfold is_ascii. repeat constructor; lia.
Qed.

(** The accumulator of [timingSafeEqual] ends at 0 exactly when it started
    at 0 and all the pairs were equal. *)
Lemma xor_fold_zero (a : bytes) :
  forall (b : bytes) (acc : Z),
    List.length a = List.length b ->
    (fold_left (fun acc xy => Z.lor acc (Z.lxor (fst xy) (snd xy))) (combine a b) acc = 0
     <-> acc = 0 /\ a = b).
Proof.
  induction a as [|x a IH]; intros [|y b] acc Hlen; try discriminate.
  - cbn. tauto.
  - cbn [combine fold_left fst snd]. injection Hlen as Hlen. rewrite (IH b _ Hlen).
    rewrite Z.lor_eq_0_iff. split.
    + intros [[Hacc Hxy] ->]. apply Z.lxor_eq in Hxy. subst. tauto.
    + intros [Hacc [= -> ->]]. rewrite Z.lxor_nilpotent. tauto.
Qed.

Lemma timingSafeEqual_true (a b : bytes) :
  timingSafeEqual a b = Returned true <-> a = b.
Proof.
  unfold timingSafeEqual. destruct (Nat.eqb (List.length a) (List.length b)) eqn:Hlen; cbn [negb].
  - apply Nat.eqb_eq in Hlen. split.
    + intros [= H]. apply Z.eqb_eq in H. apply (xor_fold_zero a b 0 Hlen) in H. tauto.
    + intros Hab. f_equal. apply Z.eqb_eq. apply (xor_fold_zero a b 0 Hlen). tauto.
  - apply Nat.eqb_neq in Hlen. split; [discriminate|]. intros ->. contradiction.
Qed.

Lemma timingSafeEqual_returns (a b : bytes) :
  List.length a = List.length b -> exists r, timingSafeEqual a b = Returned r.
Proof.
  intros Hlen. unfold timingSafeEqual. apply Nat.eqb_eq in Hlen. rewrite Hlen.
  eexists. reflexivity.
Qed.

(** What the check computes: whether the two buffers are equal. *)
Lemma checkSignature_result hmac_sha256 (payload signature secret : jsstring) :
  exists r,
    fst (checkSignature hmac_sha256 payload signature secret) = Returned r
    /\ (r = true <->
        Buffer_from signature
        = Buffer_from (expectedSignature hmac_sha256 payload secret)).
Proof.
  unfold checkSignature.
  set (sigBuffer := Buffer_from signature).
  set (expectedBuffer := Buffer_from (expectedSignature hmac_sha256 payload secret)).
  destruct (Nat.eqb (List.length sigBuffer) (List.length expectedBuffer)) eqn:Hlen; cbn [negb fst].
  - apply Nat.eqb_eq in Hlen.
    destruct (timingSafeEqual_returns sigBuffer expectedBuffer Hlen) as (r & Hr).
    exists r. split; [exact Hr|]. rewrite <- timingSafeEqual_true, Hr.
    split; [intros ->; reflexivity|intros [= ->]; reflexivity].
  - exists false. split; [reflexivity|]. apply Nat.eqb_neq in Hlen.
    split; [discriminate|]. intros H. rewrite H in Hlen. contradiction.
Qed.

(** The check accepts exactly the expected signature. *)
Lemma checkSignature_true hmac_sha256 (payload signature secret : jsstring) :
  fst (checkSignature hmac_sha256 payload signature secret) = Returned true
  <-> signature = expectedSignature hmac_sha256 payload secret.
Proof.
  destruct (checkSignature_result hmac_sha256 payload signature secret)
    as (r & Hr & Hiff).
  rewrite Hr.
  pose proof (expectedSignature_ascii hmac_sha256 payload secret) as Hascii.
  rewrite (Buffer_from_ascii _ Hascii) in Hiff.
  split.
  - intros [= ->]. apply (Buffer_from_ascii_inv (List.length signature)); [lia|exact Hascii|].
    apply Hiff. reflexivity.
  - intros ->. f_equal. apply Hiff. apply Buffer_from_ascii. exact Hascii.
Qed.

(** X21.  Where [require('crypto')] gives the module,
    [verifyWebhookSignature] returns [true] exactly when the signature is
    the string ["sha256="] followed by the lowercase hexadecimal digest of
    HMAC-SHA256 keyed with the secret over the payload; it then always
    returns a boolean and never throws. *)
Theorem verifyWebhookSignature_correct :
  forall (hmac_sha256 : Crypto) (payload signature secret : jsstring),
    (fst (verifyWebhookSignature (Some hmac_sha256) payload signature secret) = Returned true
     <-> signature
         = str "sha256=" ++ hex (hmac_sha256 (Buffer_from secret) (Buffer_from payload)))
    /\ exists r : bool,
         fst (verifyWebhookSignature (Some hmac_sha256) payload signature secret) = Returned r.
Proof.
  intros hmac_sha256 payload signature secret. cbn [verifyWebhookSignature].
  split; [apply checkSignature_true|].
  destruct (checkSignature_result hmac_sha256 payload signature secret) as (r & Hr & _).
  exists r. exact Hr.
Qed.

(** C2.  The code departs from the claim where [require] is not defined, as
    in the ES module build: [verifyWebhookSignature] then throws
    [Dynamic require of "crypto" is not supported] on every input, before
    any call into [crypto], so it returns neither [true] on the expected
    signature nor [false] on another one. *)
Theorem verifyWebhookSignature_throws_without_require :
  forall (payload signature secret : jsstring),
    verifyWebhookSignature None payload signature secret
    = (Raised dynamic_require_error, [])
    /\ (forall r : bool,
          fst (verifyWebhookSignature None payload signature secret) <> Returned r).
Proof.
  intros payload signature secret. split; [reflexivity|]. intros r. discriminate.
Qed.

(** X22.  Where [require('crypto')] gives the module,
    [verifyWebhookSignature] is a function of its three arguments; a
    signature whose bytes differ from those of the expected signature at
    some position gives [false]; and when the byte lengths differ the
    answer [false] comes from the length test, without a call to
    [timingSafeEqual], which is called exactly when the lengths agree. *)
Theorem verifyWebhookSignature_deterministic_and_strict :
  forall (hmac_sha256 : Crypto) (payload signature secret : jsstring),
    let expectedBuffer := Buffer_from (expectedSignature hmac_sha256 payload secret) in
    let sigBuffer := Buffer_from signature in
    let hmac := HmacDigest (Buffer_from secret) (Buffer_from payload) in
    let run := verifyWebhookSignature (Some hmac_sha256) payload signature secret in
    (forall payload' signature' secret',
        payload' = payload -> signature' = signature -> secret' = secret ->
        verifyWebhookSignature (Some hmac_sha256) payload' signature' secret' = run)
    /\ ((exists i, nth_error sigBuffer i <> nth_error expectedBuffer i) ->
        fst run = Returned false)
    /\ (List.length sigBuffer <> List.length expectedBuffer ->
        run = (Returned false, [hmac])
        /\ forall a b, ~ In (TimingSafeEqual a b) (snd run))
    /\ (List.length sigBuffer = List.length expectedBuffer ->
        snd run = [hmac; TimingSafeEqual sigBuffer expectedBuffer]).
Proof.
  intros hmac_sha256 payload signature secret expectedBuffer sigBuffer hmac run.
  split; [|split; [|split]].
  - intros payload' signature' secret' -> -> ->. reflexivity.
  - intros (i & Hi).
    destruct (checkSignature_result hmac_sha256 payload signature secret)
      as (r & Hr & Hiff).
    subst run. cbn [verifyWebhookSignature]. rewrite Hr. destruct r; [|reflexivity].
    exfalso. apply Hi. fold sigBuffer expectedBuffer in Hiff.
    rewrite (proj1 Hiff eq_refl). reflexivity.
  - intros Hlen. apply Nat.eqb_neq in Hlen.
    assert (Hrun : run = (Returned false, [hmac])).
    { subst run. unfold verifyWebhookSignature, checkSignature.
      fold sigBuffer. fold expectedBuffer. rewrite Hlen. reflexivity. }
    split; [exact Hrun|]. rewrite Hrun. intros a b [H|[]]. discriminate.
  - intros Hlen. apply Nat.eqb_eq in Hlen.
    subst run. unfold verifyWebhookSignature, checkSignature.
    fold sigBuffer. fold expectedBuffer. rewrite Hlen. reflexivity.
Qed.

Lemma verifyWebhookSignature_deterministic_and_strict_witness :
  List.length (Buffer_from (str "sha256=invalid"))
  <> List.length (Buffer_from (expectedSignature sample_hmac (str "{}") (str "test-secret")))
  /\ verifyWebhookSignature (Some sample_hmac) (str "{}") (str "sha256=invalid")
       (str "test-secret")
     = (Returned false, [HmacDigest (Buffer_from (str "test-secret")) (Buffer_from (str "{}"))]).
Proof.
  assert (Hlen : List.length (Buffer_from (str "sha256=invalid"))
                 <> List.length (Buffer_from (expectedSignature sample_hmac (str "{}")
                                                (str "test-secret"))))
    by (vm_compute; discriminate).
  split; [exact Hlen|].
  apply (verifyWebhookSignature_deterministic_and_strict sample_hmac (str "{}")
           (str "sha256=invalid") (str "test-secret")).
  exact Hlen.
Defined.

(** C3.  The code departs from the claim where [require] is not defined: a
    signature of another length than the expected one, and one of the same
    length that differs in a character, do not give [false];
    [verifyWebhookSignature] throws on both, and on the expected signature
    as well, without a length test or a call into [crypto]. *)
Theorem mismatched_signature_throws_without_require :
  let payload := str "{}" in
  let secret := str "test-secret" in
  let expected := expectedSignature sample_hmac payload secret in
  let short := str "sha256=invalid" in
  let near := str "sha256=adadadadadadadadadadadadadadadadadadadadadadadadadadadadadadadae" in
  let run (signature : jsstring) := verifyWebhookSignature None payload signature secret in
  List.length (Buffer_from short) <> List.length (Buffer_from expected)
  /\ run short = (Raised dynamic_require_error, [])
  /\ fst (run short) <> Returned false
  /\ List.length (Buffer_from near) = List.length (Buffer_from expected)
  /\ near <> expected
  /\ run near = (Raised dynamic_require_error, [])
  /\ fst (run near) <> Returned false
  /\ run expected = run short.
Proof.
  cbv zeta.
  split; [vm_compute; discriminate|].
  split; [reflexivity|].
  split; [cbn [verifyWebhookSignature fst]; discriminate|].
  split; [vm_compute; reflexivity|].
  split.
  { intros H. apply (f_equal (fun l => nth 70 l 0)) in H. vm_compute in H. discriminate. }
  split; [reflexivity|].
  split; [cbn [verifyWebhookSignature fst]; discriminate|].
  reflexivity.
Qed.

(** ** Polling for completion *)

Section PollingFacts.
Variable server : Server BulkJobResponse.t.
Variable this : EmailVerify.
Variable jobId : string.
Variables interval limit : number.

Lemma getBulkJobStatus_answered (w : World) (job : BulkJobResponse.t) (d : Z) :
  answers server this jobId (List.length (calls w)) job d ->
  getBulkJobStatus server this jobId w
  = Some (Returned (Some job),
          {| now := now w + d; calls := calls w ++ [status_call this jobId];
             sleeps := sleeps w |}).
Proof.
  intros (response & Hsrv & Hok & H204 & Hdata).
  unfold getBulkJobStatus. rewrite request_unfold.
  unfold requestWith, try_catch, bind, fetch, after_call.
  fold (status_call this jobId). rewrite Hsrv. cbn [outcome elapsed].
  rewrite Hok. cbn [negb ret]. apply Z.eqb_neq in H204. rewrite H204, Hdata.
  reflexivity.
Qed.

Lemma poll_time_shift (lat : nat -> Z) (pause : Z) (j : nat) :
  poll_time lat pause (S j)
  = lat O + pause + poll_time (fun i => lat (S i)) pause j.
Proof.
  induction j as [|j IH]; [cbn; lia|].
  change (poll_time lat pause (S (S j)))
    with (poll_time lat pause (S j) + lat (S j) + pause).
  rewrite IH. cbn [poll_time]. lia.
Qed.

(** [k] polls that see a job still running, each within the time limit:
    the loop goes through [k] rounds of poll and sleep. *)
Lemma waitLoop_idle (k : nat) :
  forall (job : nat -> BulkJobResponse.t) (lat : nat -> Z) (w : World) (start : Z)
         (fuel : nat),
    (forall j, (j < k)%nat ->
               answers server this jobId (List.length (calls w) + j) (job j) (lat j)) ->
    (forall j, (j < k)%nat ->
               BulkJobResponse.status (job j) <> completed
               /\ BulkJobResponse.status (job j) <> failed) ->
    (forall j, (j < k)%nat ->
               js_lt (Int (now w - start + poll_time lat (pause_of interval) j)) limit = true) ->
    waitLoop server this (k + fuel) jobId interval limit start w
    = waitLoop server this fuel jobId interval limit start
        (after_polls (status_call this jobId) interval lat k w).
Proof.
  induction k as [|k IH]; intros job lat w start fuel Hans Hrun Hguard.
  - unfold after_polls. cbn [Nat.add poll_time repeat].
    rewrite Z.add_0_r, !app_nil_r. destruct w; reflexivity.
  - cbn [Nat.add waitLoop]. unfold bind at 1. unfold Date_now at 1.
    pose proof (Hguard O ltac:(lia)) as Hg0. cbn [poll_time] in Hg0.
    rewrite Z.add_0_r in Hg0. rewrite Hg0.
    unfold bind at 1.
    rewrite (getBulkJobStatus_answered w (job O) (lat O))
      by (rewrite <- (Nat.add_0_r (List.length (calls w))); apply Hans; lia).
    destruct (Hrun O ltac:(lia)) as [Hc Hf].
    assert (Hterm : JobStatus_eqb (BulkJobResponse.status (job O)) completed
                    || JobStatus_eqb (BulkJobResponse.status (job O)) failed = false).
    { destruct (BulkJobResponse.status (job O)); try reflexivity; congruence. }
    rewrite Hterm. unfold bind at 1. unfold sleep at 1.
    rewrite (IH (fun j => job (S j)) (fun j => lat (S j))).
    + f_equal. unfold after_polls, after_sleep. cbn [now calls sleeps].
      rewrite poll_time_shift. f_equal; [lia| |].
      * rewrite <- app_assoc. reflexivity.
      * rewrite <- app_assoc. reflexivity.
    + intros j Hj. cbn [after_sleep calls]. rewrite length_app. cbn [List.length].
      replace (List.length (calls w) + 1 + j)%nat with (List.length (calls w) + S j)%nat by lia.
      apply Hans. lia.
    + intros j Hj. apply Hrun. lia.
    + intros j Hj. cbn [after_sleep now].
      pose proof (Hguard (S j) ltac:(lia)) as Hg. rewrite poll_time_shift in Hg.
      rewrite <- Hg. do 2 f_equal. lia.
Qed.

End PollingFacts.

(** C7, as the code has it.  The time elapsed since the recorded start is
    tested when a round begins, before the poll, and only then.  Let the
    first [k] polls each be begun before [maxWait] has elapsed and each see
    the job still running.  If poll [k] is also begun in time and sees the
    job [completed] or [failed], however long it takes, then
    [waitForBulkJobCompletion] returns that snapshot, having made exactly
    [k + 1] polls and slept [pollInterval] after each of the first [k].  If
    instead [maxWait] has elapsed when round [k] begins, it makes no further
    poll and throws a [TimeoutError]. *)
Theorem waitForBulkJobCompletion_returns_or_times_out :
  forall (server : Server BulkJobResponse.t) (this : EmailVerify) (jobId : string)
         (pollInterval maxWait : option number)
         (job : nat -> BulkJobResponse.t) (lat : nat -> Z) (t0 : Z) (k : nat),
    let interval := default (Int 5000) pollInterval in
    let limit := default (Int 600000) maxWait in
    let elapsed_at := poll_time lat (pause_of interval) in
    (forall j, (j < k)%nat -> answers server this jobId j (job j) (lat j)) ->
    (forall j, (j < k)%nat ->
               BulkJobResponse.status (job j) <> completed
               /\ BulkJobResponse.status (job j) <> failed) ->
    (forall j, (j < k)%nat -> js_lt (Int (elapsed_at j)) limit = true) ->
    (answers server this jobId k (job k) (lat k) ->
     BulkJobResponse.status (job k) = completed
     \/ BulkJobResponse.status (job k) = failed ->
     js_lt (Int (elapsed_at k)) limit = true ->
     forall fuel, (k < fuel)%nat ->
       waitForBulkJobCompletion server this fuel jobId pollInterval maxWait (fresh t0)
       = Some (Returned (job k),
               {| now := t0 + elapsed_at k + lat k;
                  calls := repeat (status_call this jobId) (S k);
                  sleeps := repeat interval k |}))
    /\ (js_lt (Int (elapsed_at k)) limit = false ->
        forall fuel, (k < fuel)%nat ->
          exists e,
            waitForBulkJobCompletion server this fuel jobId pollInterval maxWait (fresh t0)
            = Some (Raised (OfTaxonomy e),
                    {| now := t0 + elapsed_at k;
                       calls := repeat (status_call this jobId) k;
                       sleeps := repeat interval k |})
            /\ cls e = CTimeoutError
            /\ statusCode e = 504).
Proof.
  intros server this jobId pollInterval maxWait job lat t0 k interval limit elapsed_at
         Hans Hrun Hguard.
  assert (Hidle : forall fuel,
             waitForBulkJobCompletion server this (k + fuel) jobId pollInterval maxWait
               (fresh t0)
             = waitLoop server this fuel jobId interval limit t0
                 (after_polls (status_call this jobId) interval lat k (fresh t0))).
  { intros fuel. unfold waitForBulkJobCompletion, bind, Date_now. cbn [now fresh].
    fold interval limit. apply (waitLoop_idle server this jobId interval limit k job lat).
    - exact Hans.
    - exact Hrun.
    - intros j Hj. cbn [now fresh]. replace (t0 - t0 + poll_time lat (pause_of interval) j)
        with (elapsed_at j) by (unfold elapsed_at; lia).
      apply Hguard. exact Hj. }
  assert (Hnow : forall w, w = after_polls (status_call this jobId) interval lat k (fresh t0) ->
                           now w - t0 = elapsed_at k /\ List.length (calls w) = k).
  { intros w ->. unfold after_polls. cbn [now calls fresh app].
    split; [unfold elapsed_at; lia|apply repeat_length]. }
  split.
  - intros Hk Hterm Hgk fuel Hfuel.
    replace fuel with (k + S (fuel - S k))%nat by lia. rewrite Hidle.
    set (w := after_polls (status_call this jobId) interval lat k (fresh t0)).
    destruct (Hnow w eq_refl) as [Ht Hlen].
    cbn [waitLoop]. unfold bind at 1. unfold Date_now at 1. rewrite Ht, Hgk.
    unfold bind at 1.
    rewrite (getBulkJobStatus_answered server this jobId w (job k) (lat k))
      by (rewrite Hlen; exact Hk).
    assert (Hdone : JobStatus_eqb (BulkJobResponse.status (job k)) completed
                    || JobStatus_eqb (BulkJobResponse.status (job k)) failed = true).
    { destruct Hterm as [-> | ->]; reflexivity. }
    rewrite Hdone. unfold ret. do 2 f_equal.
    subst w. unfold after_polls. cbn [now calls sleeps fresh app].
    f_equal. symmetry. apply repeat_cons.
  - intros Hgk fuel Hfuel.
    replace fuel with (k + S (fuel - S k))%nat by lia. rewrite Hidle.
    set (w := after_polls (status_call this jobId) interval lat k (fresh t0)).
    destruct (Hnow w eq_refl) as [Ht Hlen].
    cbn [waitLoop]. unfold bind at 1. unfold Date_now at 1. rewrite Ht, Hgk.
    eexists. split; [unfold throw; reflexivity|]. split; reflexivity.
Qed.

Lemma waitForBulkJobCompletion_returns_or_times_out_witness :
  answers polling_server (sample_client (Int 3)) "job_123" 2 (sample_job 2) 100 /\
  waitForBulkJobCompletion polling_server (sample_client (Int 3)) 3 "job_123" None None
    (fresh 0)
  = Some (Returned (sample_job 2),
          {| now := 10300;
             calls := repeat (status_call (sample_client (Int 3)) "job_123") 3;
             sleeps := [Int 5000; Int 5000] |}).
Proof.
  assert (Hans : forall j, answers polling_server (sample_client (Int 3)) "job_123" j
                             (sample_job j) 100).
  { intros j. exists (job_response (sample_job j)).
    repeat split; try reflexivity. discriminate. }
  split; [apply Hans|].
  apply (waitForBulkJobCompletion_returns_or_times_out polling_server (sample_client (Int 3))
           "job_123" None None sample_job (fun _ => 100) 0 2).
  - intros j _. apply Hans.
  - intros j Hj. destruct j as [|[|j]]; [split; discriminate|split; discriminate|lia].
  - intros j Hj. destruct j as [|[|j]]; [reflexivity|reflexivity|lia].
  - apply Hans.
  - left. reflexivity.
  - reflexivity.
  - lia.
Defined.

Example waitForBulkJobCompletion_times_out :
  waitForBulkJobCompletion polling_server (sample_client (Int 3)) 5 "job_123"
    (Some (Int 5000)) (Some (Int 4000)) (fresh 0)
  = Some (Raised (OfTaxonomy
            (TimeoutError (Some "Bulk job job_123 did not complete within 4000ms"))),
          {| now := 5100;
             calls := [status_call (sample_client (Int 3)) "job_123"];
             sleeps := [Int 5000] |}).
Proof. vm_compute. reflexivity. Qed.

(** C7 as stated fails on a poll that is begun in time and settles after
    [maxWait]: no poll has seen a terminal status when the 1000 ms have
    elapsed, yet the snapshot is returned at 2000 ms and nothing is
    thrown. *)
Lemma late_poll_is_returned_after_maxWait :
  waitForBulkJobCompletion slow_server (sample_client (Int 3)) 1 "job_123"
    (Some (Int 5000)) (Some (Int 1000)) (fresh 0)
  = Some (Returned (sample_job 2),
          {| now := 2000;
             calls := [status_call (sample_client (Int 3)) "job_123"];
             sleeps := [] |})
  /\ BulkJobResponse.status (sample_job 2) = completed
  /\ 1000 < 2000 - now (fresh 0)
  /\ forall e w,
       waitForBulkJobCompletion slow_server (sample_client (Int 3)) 1 "job_123"
         (Some (Int 5000)) (Some (Int 1000)) (fresh 0)
       <> Some (Raised e, w).
Proof.
  assert (H : waitForBulkJobCompletion slow_server (sample_client (Int 3)) 1 "job_123"
                (Some (Int 5000)) (Some (Int 1000)) (fresh 0)
              = Some (Returned (sample_job 2),
                      {| now := 2000;
                         calls := [status_call (sample_client (Int 3)) "job_123"];
                         sleeps := [] |}))
    by (vm_compute; reflexivity).
  split; [exact H|]. split; [reflexivity|]. split; [reflexivity|].
  intros e w. rewrite H. discriminate.
Qed.

(** ** After a retry that succeeds *)

(** [handleErrorResponse] returns what the second call gave, and [request],
    which awaited it, goes on to read the body of the first response: with a
    body that can be read once, the request fails although the retry
    succeeded. *)
Example request_after_successful_retry :
  handleErrorResponse rate_limited_once (sample_client (Int 3)) rate_limited 1
    "GET" "/credits" None (after_call rate_limited_once
                             (call_of (sample_client (Int 3)) "GET" "/credits" None)
                             (fresh 0))
  = Some (Returned (Some tt),
          {| now := 1040;
             calls := repeat (call_of (sample_client (Int 3)) "GET" "/credits" None) 2;
             sleeps := [Int 1000] |})
  /\ request rate_limited_once (sample_client (Int 3)) "GET" "/credits" None 1 (fresh 0)
     = Some (Raised (OfTaxonomy
               (EmailVerifyError
                  "Network error: Body is unusable: Body has already been read"
                  "NETWORK_ERROR" 0 None)),
             {| now := 1040;
                calls := repeat (call_of (sample_client (Int 3)) "GET" "/credits" None) 2;
                sleeps := [Int 1000] |}).
Proof. split; vm_compute; reflexivity. Qed.

(** * Further properties of the client *)

(** ** One reply at a time *)

Section ReplyFacts.
Context {T : Type}.
Variable server : Server T.
Variable this : EmailVerify.

Lemma request_on_throw method path body attempt w x :
  outcome (server (List.length (calls w)) (call_of this method path body)) = Raised x ->
  request server this method path body attempt w
  = request_catch this x (after_call server (call_of this method path body) w).
Proof.
  intros Hout. rewrite request_unfold. unfold requestWith, try_catch, bind, fetch.
  rewrite Hout. reflexivity.
Qed.

Lemma request_on_reply method path body attempt w response :
  outcome (server (List.length (calls w)) (call_of this method path body))
  = Returned response ->
  let w1 := after_call server (call_of this method path body) w in
  request server this method path body attempt w
  = if ok response then finish this response false w1
    else match handleErrorResponse server this response attempt method path body w1 with
         | Some (Raised x, w2) => request_catch this x w2
         | Some (Returned _, w2) => finish this response true w2
         | None => None
         end.
Proof.
  intros Hout w1. rewrite request_unfold. unfold requestWith, try_catch, bind, fetch, finish.
  rewrite Hout. fold w1. destruct (ok response); cbn [negb ret].
  - destruct (status response =? 204); [reflexivity|].
    destruct (json_data response false); reflexivity.
  - destruct (handleErrorResponse server this response attempt method path body w1)
      as [[[v|x] w2]|]; try reflexivity.
    destruct (status response =? 204); [reflexivity|].
    destruct (json_data response true); reflexivity.
Qed.

(** A status that is not retried, or an attempt that is the last, makes
    [handleErrorResponse] throw on the spot an error that carries the
    status and the message, unless the body is [null]. *)
Lemma handleErrorResponse_throws response attempt method path body w :
  json_error response <> JsonNull ->
  ~ retryable (status response) \/ js_lt (Int attempt) (retries this) = false ->
  exists e,
    handleErrorResponse server this response attempt method path body w
    = Some (Raised (OfTaxonomy e), w)
    /\ statusCode e = status response
    /\ canonical e
    /\ message e = message_of response
    /\ (cls e = CEmailVerifyError -> code e = code_of response)
    /\ (cls e = CInsufficientCreditsError -> code_of response = "INSUFFICIENT_CREDITS").
Proof.
  intros Hbody Hno. rewrite handleErrorResponse_switch by exact Hbody.
  unfold switch_on_status.
  assert (Hretry : retryable (status response) ->
                   js_lt (Int attempt) (retries this) = false).
  { intros Hr. destruct Hno as [Hno|Hno]; [contradiction|exact Hno]. }
  destruct (status response =? 401) eqn:H401.
  { apply Z.eqb_eq in H401. eexists. split; [reflexivity|]. rewrite H401. cbn.
    repeat split; try reflexivity; discriminate. }
  destruct (status response =? 403) eqn:H403.
  { apply Z.eqb_eq in H403.
    destruct (String.eqb (code_of response) "INSUFFICIENT_CREDITS") eqn:Hcode;
      (eexists; split; [reflexivity|]); rewrite H403; cbn;
      repeat split; try reflexivity; try discriminate.
    intros _. apply String.eqb_eq. exact Hcode. }
  destruct (status response =? 404) eqn:H404.
  { apply Z.eqb_eq in H404. eexists. split; [reflexivity|]. rewrite H404. cbn.
    repeat split; try reflexivity; discriminate. }
  destruct (status response =? 429) eqn:H429.
  { apply Z.eqb_eq in H429. rewrite Hretry by (left; exact H429).
    eexists. split; [reflexivity|]. rewrite H429. cbn.
    repeat split; try reflexivity; discriminate. }
  destruct (status response =? 400) eqn:H400.
  { apply Z.eqb_eq in H400. eexists. split; [reflexivity|]. rewrite H400. cbn.
    repeat split; try reflexivity; discriminate. }
  destruct ((status response =? 500) || (status response =? 502) || (status response =? 503))
    eqn:H5.
  { rewrite Hretry.
    - eexists. split; [reflexivity|]. cbn. repeat split; try reflexivity; discriminate.
    - unfold retryable. apply orb_true_iff in H5. destruct H5 as [H5|H5];
        [apply orb_true_iff in H5; destruct H5 as [H5|H5]|]; apply Z.eqb_eq in H5; tauto. }
  eexists. split; [reflexivity|]. cbn. repeat split; try reflexivity; discriminate.
Qed.

(** A retryable status with attempts left makes it sleep and ask again. *)
Lemma handleErrorResponse_retries response attempt method path body w :
  json_error response <> JsonNull ->
  retryable (status response) ->
  js_lt (Int attempt) (retries this) = true ->
  handleErrorResponse server this response attempt method path body w
  = request server this method path body (attempt + 1)
      (after_sleep
         (if status response =? 429 then
            mul_number (or_number (retryAfter_of response) (Int (2 ^ attempt))) (Int 1000)
          else Int (2 ^ attempt * 1000)) w).
Proof.
  intros Hbody Hr Hlt. destruct (Z.eq_dec (status response) 429) as [H429|H429].
  - rewrite handleErrorResponse_429, Hlt
      by (first [exact Hbody|exact H429]). rewrite H429. reflexivity.
  - rewrite handleErrorResponse_5xx, Hlt
      by (first [exact Hbody|unfold retryable in Hr; tauto]).
    apply Z.eqb_neq in H429. rewrite H429. reflexivity.
Qed.

Lemma json_error_dec (response : Response T) :
  {json_error response = JsonNull} + {json_error response <> JsonNull}.
Proof.
  destruct (json_error response); [right|left|right]; try reflexivity; discriminate.
Qed.

Lemma retryable_dec (s : Z) : {retryable s} + {~ retryable s}.
Proof.
  unfold retryable.
  destruct (Z.eq_dec s 429); [left; tauto|].
  destruct (Z.eq_dec s 500); [left; tauto|].
  destruct (Z.eq_dec s 502); [left; tauto|].
  destruct (Z.eq_dec s 503); [left; tauto|].
  right. tauto.
Qed.

Lemma retryable_not_ok (response : Response T) :
  retryable (status response) -> ok response = false.
Proof.
  unfold ok. intros [H|[H|[H|H]]]; rewrite H; reflexivity.
Qed.

Lemma finish_settles (response : Response T) (used : bool) (w : World) :
  exists r,
    finish this response used w = Some (r, w)
    /\ ((forall e, json_data response used <> Raised (OfTaxonomy e)) ->
        forall x, r = Raised x -> exists e, x = OfTaxonomy e /\ canonical e).
Proof.
  unfold finish. destruct (status response =? 204).
  { eexists. split; [reflexivity|]. discriminate. }
  destruct (json_data response used) as [data|x].
  { eexists. split; [reflexivity|]. discriminate. }
  destruct x as [e0|name msg|]; cbn [request_catch].
  - eexists. split; [reflexivity|]. intros Hf. exfalso. apply (Hf e0). reflexivity.
  - destruct (String.eqb name "AbortError");
      (eexists; split; [reflexivity|]); intros _ x [= <-];
      (eexists; split; [reflexivity|]); cbn; repeat split; discriminate.
  - eexists. split; [reflexivity|]. intros _ x [= <-].
    eexists. split; [reflexivity|]. cbn. reflexivity.
Qed.

(** The shape of every run of [request]: the same call once or more, at
    most once more per attempt left, a sleep before each call but the
    first; and, from a server that throws no error of the taxonomy, only
    canonical errors of the taxonomy. *)
Lemma request_shape method path body :
  forall (a : nat) attempt w,
    attempts_left this attempt = a ->
    exists r w' k,
      request server this method path body attempt w = Some (r, w')
      /\ calls w' = calls w ++ repeat (call_of this method path body) (S k)
      /\ (k <= a)%nat
      /\ List.length (sleeps w') = (List.length (sleeps w) + k)%nat
      /\ (foreign server ->
          forall x, r = Raised x -> exists e, x = OfTaxonomy e /\ canonical e).
Proof.
  set (c := call_of this method path body).
  induction a as [a IH] using lt_wf_ind. intros attempt w Ha.
  set (w1 := after_call server c w).
  destruct (outcome (server (List.length (calls w)) c)) as [response|x] eqn:Hout.
  - rewrite (request_on_reply _ _ _ _ _ _ Hout). fold c. fold w1.
    assert (Hjson : foreign server ->
                    forall used e, json_data response used <> Raised (OfTaxonomy e)).
    { intros Hf. apply (proj2 (Hf (List.length (calls w)) c) response Hout). }
    assert (Hthrows : json_error response <> JsonNull ->
                      ~ retryable (status response)
                      \/ js_lt (Int attempt) (retries this) = false ->
                      exists r w' k,
                        match handleErrorResponse server this response attempt
                                method path body w1 with
                        | Some (Raised x, w2) => request_catch this x w2
                        | Some (Returned _, w2) => finish this response true w2
                        | None => None
                        end = Some (r, w')
                        /\ calls w' = calls w ++ repeat c (S k)
                        /\ (k <= a)%nat
                        /\ List.length (sleeps w') = (List.length (sleeps w) + k)%nat
                        /\ (foreign server ->
                            forall x, r = Raised x ->
                                      exists e, x = OfTaxonomy e /\ canonical e)).
    { intros Hbody Hno.
      destruct (handleErrorResponse_throws response attempt method path body w1 Hbody Hno)
        as (e & -> & _ & He & _).
      exists (Raised (OfTaxonomy e)), w1, O. cbn [request_catch].
      split; [reflexivity|]. split; [reflexivity|]. split; [lia|].
      split; [cbn; lia|]. intros _ x [= <-]. exists e. split; [reflexivity|exact He]. }
    destruct (ok response) eqn:Hok.
    + destruct (finish_settles response false w1) as (r & -> & Hr).
      exists r, w1, O. split; [reflexivity|]. split; [reflexivity|]. split; [lia|].
      split; [cbn; lia|]. intros Hf. apply Hr. apply Hjson. exact Hf.
    + destruct (json_error_dec response) as [Hnull|Hbody].
      { rewrite handleErrorResponse_null by exact Hnull. cbn [request_catch String.eqb].
        eexists. exists w1, O.
        split; [reflexivity|]. split; [reflexivity|]. split; [lia|]. split; [cbn; lia|].
        intros _ x [= <-]. eexists. split; [reflexivity|]. cbn. repeat split; discriminate. }
      destruct (retryable_dec (status response)) as [Hr|Hr];
        [destruct (js_lt (Int attempt) (retries this)) eqn:Hlt|];
        [|apply Hthrows; [exact Hbody|right; reflexivity]
         |apply Hthrows; [exact Hbody|left; exact Hr]].
      rewrite (handleErrorResponse_retries response attempt method path body w1 Hbody Hr Hlt).
      match goal with |- context [after_sleep ?m w1] => set (ms := m) end.
      apply attempts_left_succ in Hlt.
      destruct (IH (attempts_left this (attempt + 1)) ltac:(lia)
                   (attempt + 1) (after_sleep ms w1) eq_refl)
        as (r & w2 & k & Hreq & Hc & Hk & Hs & Hx).
      rewrite Hreq.
      assert (Hc' : calls w2 = calls w ++ repeat c (S (S k))).
      { rewrite Hc. cbn [after_sleep calls]. subst w1. cbn [after_call calls].
        rewrite <- app_assoc. reflexivity. }
      assert (Hs' : List.length (sleeps w2) = (List.length (sleeps w) + S k)%nat).
      { rewrite Hs. cbn [after_sleep sleeps]. subst w1. cbn [after_call sleeps].
        rewrite length_app. cbn. lia. }
      destruct r as [v|x].
      * destruct (finish_settles response true w2) as (r & -> & Hr').
        exists r, w2, (S k). split; [reflexivity|]. split; [exact Hc'|].
        split; [lia|]. split; [exact Hs'|].
        intros Hf. apply Hr'. apply Hjson. exact Hf.
      * destruct (request_raises_taxonomy _ _ _ _ _ _ _ _ _ Hreq) as (e & ->).
        exists (Raised (OfTaxonomy e)), w2, (S k). cbn [request_catch].
        split; [reflexivity|]. split; [exact Hc'|]. split; [lia|]. split; [exact Hs'|].
        intros Hf x [= <-]. apply (Hx Hf). reflexivity.
  - rewrite (request_on_throw _ _ _ _ _ _ Hout). fold c. fold w1.
    assert (Hx : foreign server -> forall e, x <> OfTaxonomy e).
    { intros Hf e ->. apply (proj1 (Hf (List.length (calls w)) c) e). exact Hout. }
    destruct x as [e0|name msg|]; cbn [request_catch].
    + exists (Raised (OfTaxonomy e0)), w1, O.
      split; [reflexivity|]. split; [reflexivity|]. split; [lia|]. split; [cbn; lia|].
      intros Hf. exfalso. apply (Hx Hf e0). reflexivity.
    + destruct (String.eqb name "AbortError"); eexists; exists w1, O;
        (split; [reflexivity|]); (split; [reflexivity|]); (split; [lia|]);
        (split; [cbn; lia|]); intros _ x [= <-];
        (eexists; split; [reflexivity|]); cbn; repeat split; discriminate.
    + eexists. exists w1, O.
      split; [reflexivity|]. split; [reflexivity|]. split; [lia|]. split; [cbn; lia|].
      intros _ x [= <-]. eexists. split; [reflexivity|]. cbn. reflexivity.
Qed.

End ReplyFacts.

(** ** Success, transport failure and the statuses that are not retried *)

(** X1.  A reply with a status from 200 to 299 other than 204 whose body
    parses is the result of the request, as it is: one call, no sleep,
    whatever [retries] is. *)
Theorem success_body_is_the_result :
  forall (T : Type) (server : Server T) (this : EmailVerify)
         (method path : string) (body : option Json) (attempt : Z) (w : World)
         (response : Response T) (data : T),
    outcome (server (List.length (calls w)) (call_of this method path body))
    = Returned response ->
    200 <= status response <= 299 ->
    status response <> 204 ->
    json_data response false = Returned data ->
    exists w',
      request server this method path body attempt w = Some (Returned (Some data), w')
      /\ calls w' = calls w ++ [call_of this method path body]
      /\ sleeps w' = sleeps w.
Proof.
  intros T server this method path body attempt w response data Hout Hs H204 Hdata.
  rewrite (request_on_reply server this _ _ _ _ _ _ Hout).
  assert (Hok : ok response = true).
  { unfold ok. apply andb_true_iff. split; apply Z.leb_le; lia. }
  rewrite Hok. unfold finish. apply Z.eqb_neq in H204. rewrite H204, Hdata.
  eexists. split; [reflexivity|]. split; reflexivity.
Qed.

Lemma success_body_is_the_result_witness :
  status ok_response = 200 /\
  exists w',
    request (always ok_response) (sample_client (Int 3)) "GET" "/credits" None 1 (fresh 0)
    = Some (Returned (Some tt), w')
    /\ calls w' = [] ++ [call_of (sample_client (Int 3)) "GET" "/credits" None]
    /\ sleeps w' = [].
Proof.
  split; [reflexivity|].
  apply (success_body_is_the_result unit (always ok_response) (sample_client (Int 3))
           "GET" "/credits" None 1 (fresh 0) ok_response tt).
  - reflexivity.
  - cbn. lia.
  - discriminate.
  - reflexivity.
Defined.

(** X2.  On a reply with status 204 the request gives [undefined] and the
    body is not read, so a body that is no JSON does no harm; and
    [deleteWebhook] gives nothing back after its one
    [DELETE /webhooks/{id}]. *)
Theorem no_content_gives_undefined :
  forall (T : Type) (server : Server T) (this : EmailVerify)
         (method path : string) (body : option Json) (attempt : Z) (w : World)
         (webhookId : string) (response : Response T),
    status response = 204 ->
    (outcome (server (List.length (calls w)) (call_of this method path body))
     = Returned response ->
     request server this method path body attempt w
     = Some (Returned None, after_call server (call_of this method path body) w))
    /\ (outcome (server (List.length (calls w))
                   (call_of this "DELETE" ("/webhooks/" ++ webhookId)%string None))
        = Returned response ->
        exists w',
          deleteWebhook server this webhookId w = Some (Returned tt, w')
          /\ calls w'
             = calls w ++ [call_of this "DELETE" ("/webhooks/" ++ webhookId)%string None]
          /\ sleeps w' = sleeps w).
Proof.
  intros T server this method path body attempt w webhookId response Hs.
  assert (Hok : ok response = true) by (unfold ok; rewrite Hs; reflexivity).
  split; intros Hout.
  - rewrite (request_on_reply server this _ _ _ _ _ _ Hout), Hok.
    unfold finish. rewrite Hs. reflexivity.
  - unfold deleteWebhook, bind.
    rewrite (request_on_reply server this _ _ _ _ _ _ Hout), Hok.
    unfold finish. rewrite Hs. cbn [Z.eqb Pos.eqb].
    eexists. split; [reflexivity|]. split; reflexivity.
Qed.

Lemma no_content_gives_undefined_witness :
  status no_content = 204 /\
  exists w',
    deleteWebhook (always no_content) (sample_client (Int 3)) "webhook_123" (fresh 0)
    = Some (Returned tt, w')
    /\ calls w'
       = [] ++ [call_of (sample_client (Int 3)) "DELETE" "/webhooks/webhook_123" None]
    /\ sleeps w' = [].
Proof.
  split; [reflexivity|].
  apply (no_content_gives_undefined unit (always no_content) (sample_client (Int 3))
           "GET" "/credits" None 1 (fresh 0) "webhook_123" no_content eq_refl).
  reflexivity.
Defined.

(** X3.  When [fetch] itself fails, the request fails after that one call
    and is not retried, whatever [retries] is: an [AbortError] becomes a
    [TimeoutError] that names the configured timeout, any other error a
    base error with code [NETWORK_ERROR] and status 0 that wraps its
    message. *)
Theorem transport_failure_is_not_retried :
  forall (T : Type) (server : Server T) (this : EmailVerify)
         (method path : string) (body : option Json) (attempt : Z) (w : World)
         (name msg : string),
    outcome (server (List.length (calls w)) (call_of this method path body))
    = Raised (OtherError name msg) ->
    exists e w',
      request server this method path body attempt w = Some (Raised (OfTaxonomy e), w')
      /\ calls w' = calls w ++ [call_of this method path body]
      /\ sleeps w' = sleeps w
      /\ (name = "AbortError" ->
          e = TimeoutError
                (Some ("Request timed out after " ++ number_toString (timeout this)
                         ++ "ms")%string)
          /\ statusCode e = 504)
      /\ (name <> "AbortError" ->
          e = EmailVerifyError ("Network error: " ++ msg)%string "NETWORK_ERROR" 0 None).
Proof.
  intros T server this method path body attempt w name msg Hout.
  rewrite (request_on_throw server this _ _ _ _ _ _ Hout). cbn [request_catch].
  destruct (String.eqb name "AbortError") eqn:Hname.
  - apply String.eqb_eq in Hname. eexists. eexists. split; [reflexivity|].
    repeat split; try reflexivity. intros Hne. contradiction.
  - apply String.eqb_neq in Hname. eexists. eexists. split; [reflexivity|].
    repeat split; try reflexivity; intros; contradiction.
Qed.

Lemma transport_failure_is_not_retried_witness :
  exists w',
    request hanging (sample_client (Int 3)) "POST" "/verify" None 1 (fresh 0)
    = Some (Raised (OfTaxonomy (TimeoutError (Some "Request timed out after 30000ms"))), w')
    /\ List.length (calls w') = 1%nat.
Proof.
  destruct (transport_failure_is_not_retried unit hanging (sample_client (Int 3))
              "POST" "/verify" None 1 (fresh 0) "AbortError" "This operation was aborted"
              eq_refl)
    as (e & w' & Hreq & Hcalls & _ & Habort & _).
  destruct (Habort eq_refl) as [-> _].
  exists w'. split; [exact Hreq|]. rewrite Hcalls. reflexivity.
Defined.

(** X4.  A success reply whose body does not parse makes the request fail
    with the base error of code [NETWORK_ERROR] and status 0 around the
    parser's message, after the one call. *)
Theorem unreadable_success_body_is_network_error :
  forall (T : Type) (server : Server T) (this : EmailVerify)
         (method path : string) (body : option Json) (attempt : Z) (w : World)
         (response : Response T) (name msg : string),
    outcome (server (List.length (calls w)) (call_of this method path body))
    = Returned response ->
    200 <= status response <= 299 ->
    status response <> 204 ->
    json_data response false = Raised (OtherError name msg) ->
    name <> "AbortError" ->
    request server this method path body attempt w
    = Some (Raised (OfTaxonomy
              (EmailVerifyError ("Network error: " ++ msg)%string "NETWORK_ERROR" 0 None)),
            after_call server (call_of this method path body) w).
Proof.
  intros T server this method path body attempt w response name msg Hout Hs H204 Hdata Hname.
  rewrite (request_on_reply server this _ _ _ _ _ _ Hout).
  assert (Hok : ok response = true).
  { unfold ok. apply andb_true_iff. split; apply Z.leb_le; lia. }
  rewrite Hok. unfold finish. apply Z.eqb_neq in H204. rewrite H204, Hdata.
  cbn [request_catch]. apply String.eqb_neq in Hname. rewrite Hname. reflexivity.
Qed.

Lemma unreadable_success_body_is_network_error_witness :
  status garbled = 200 /\
  request (always garbled) (sample_client (Int 3)) "GET" "/credits" None 1 (fresh 0)
  = Some (Raised (OfTaxonomy
            (EmailVerifyError "Network error: Unexpected token < in JSON"
               "NETWORK_ERROR" 0 None)),
          after_call (always garbled)
            (call_of (sample_client (Int 3)) "GET" "/credits" None) (fresh 0)).
Proof.
  split; [reflexivity|].
  apply (unreadable_success_body_is_network_error unit (always garbled)
           (sample_client (Int 3)) "GET" "/credits" None 1 (fresh 0) garbled
           "SyntaxError" "Unexpected token < in JSON").
  - reflexivity.
  - cbn. lia.
  - discriminate.
  - reflexivity.
  - discriminate.
Defined.

(** X5.  Only 429, 500, 502 and 503 are retried.  Any other status outside
    200-299, with a body other than the JSON value [null], makes the
    request raise after one call and no sleep, whatever [retries] is, an
    error that carries this status; for a status other than 400, 401, 403
    and 404 (504, say) it is the base error with the server's code and
    message. *)
Theorem other_status_raises_at_once :
  forall (T : Type) (server : Server T) (this : EmailVerify)
         (method path : string) (body : option Json) (attempt : Z) (w : World)
         (response : Response T),
    outcome (server (List.length (calls w)) (call_of this method path body))
    = Returned response ->
    json_error response <> JsonNull ->
    ~ (200 <= status response <= 299) ->
    ~ retryable (status response) ->
    exists e w',
      request server this method path body attempt w = Some (Raised (OfTaxonomy e), w')
      /\ calls w' = calls w ++ [call_of this method path body]
      /\ sleeps w' = sleeps w
      /\ statusCode e = status response
      /\ message e = message_of response
      /\ (status response <> 400 -> status response <> 401 ->
          status response <> 403 -> status response <> 404 ->
          cls e = CEmailVerifyError
          /\ code e = code_of response
          /\ details e = None
          /\ retryAfter e = None).
Proof.
  intros T server this method path body attempt w response Hout Hbody Hs Hno.
  assert (Hok : ok response = false).
  { unfold ok. apply andb_false_iff.
    destruct (Z.le_gt_cases 200 (status response)) as [Hlo|Hlo].
    - right. apply Z.leb_gt. lia.
    - left. apply Z.leb_gt. lia. }
  destruct (handleErrorResponse_throws server this response attempt method path body
              (after_call server (call_of this method path body) w) Hbody (or_introl Hno))
    as (e & Hh & Hcode & _ & Hmsg & _).
  exists e. eexists. split.
  - eapply request_rethrows; [exact Hout|exact Hok|exact Hh].
  - split; [reflexivity|]. split; [reflexivity|]. split; [exact Hcode|].
    split; [exact Hmsg|].
    intros H400 H401 H403 H404.
    rewrite handleErrorResponse_switch in Hh by exact Hbody.
    unfold switch_on_status in Hh.
    apply Z.eqb_neq in H400, H401, H403, H404. rewrite H400, H401, H403, H404 in Hh.
    assert (H429 : (status response =? 429) = false).
    { apply Z.eqb_neq. intros H. apply Hno. left. exact H. }
    assert (H5 : (status response =? 500) || (status response =? 502)
                 || (status response =? 503) = false).
    { apply orb_false_iff. split; [apply orb_false_iff; split|];
        apply Z.eqb_neq; intros H; apply Hno; unfold retryable; tauto. }
    rewrite H429, H5 in Hh. injection Hh as <-. repeat split; reflexivity.
Qed.

Lemma other_status_raises_at_once_witness :
  status teapot = 418 /\
  exists e w',
    request (always teapot) (sample_client (Int 3)) "GET" "/credits" None 1 (fresh 0)
    = Some (Raised (OfTaxonomy e), w')
    /\ List.length (calls w') = 1%nat
    /\ sleeps w' = []
    /\ statusCode e = 418
    /\ cls e = CEmailVerifyError
    /\ code e = "UNKNOWN_ERROR"%string.
Proof.
  split; [reflexivity|].
  destruct (other_status_raises_at_once unit (always teapot) (sample_client (Int 3))
              "GET" "/credits" None 1 (fresh 0) teapot eq_refl)
    as (e & w' & Hreq & Hcalls & Hsleeps & Hst & _ & He).
  - discriminate.
  - cbn. lia.
  - unfold retryable. cbn. lia.
  - destruct He as (Hcls & Hcode & _); try (cbn; discriminate).
    exists e, w'. rewrite Hcalls.
    repeat split; assumption.
Defined.

(** X6.  An error reply whose body is no JSON, or is JSON other than [null]
    that holds no [error], still gives the error of its status: the message
    is the status text, a base error has the code [UNKNOWN_ERROR], and no
    [InsufficientCreditsError] comes of it. *)
Theorem error_body_without_error_falls_back :
  forall (T : Type) (server : Server T) (this : EmailVerify)
         (method path : string) (body : option Json) (attempt : Z) (w : World)
         (response : Response T),
    outcome (server (List.length (calls w)) (call_of this method path body))
    = Returned response ->
    ok response = false ->
    ~ retryable (status response) \/ js_lt (Int attempt) (retries this) = false ->
    json_error response = NoJson \/ json_error response = JsonValue {| error := None |} ->
    exists e,
      request server this method path body attempt w
      = Some (Raised (OfTaxonomy e), after_call server (call_of this method path body) w)
      /\ message e = statusText response
      /\ statusCode e = status response
      /\ (cls e = CEmailVerifyError -> code e = "UNKNOWN_ERROR"%string)
      /\ cls e <> CInsufficientCreditsError.
Proof.
  intros T server this method path body attempt w response Hout Hok Hno Hjson.
  assert (Hbody : json_error response <> JsonNull).
  { destruct Hjson as [-> | ->]; discriminate. }
  destruct (handleErrorResponse_throws server this response attempt method path body
              (after_call server (call_of this method path body) w) Hbody Hno)
    as (e & Hh & Hstatus & _ & Hmsg & Hcode & Hcredits).
  assert (Herr : error_of response = None).
  { unfold error_of. destruct Hjson as [-> | ->]; reflexivity. }
  assert (Hm : message_of response = statusText response).
  { unfold message_of. rewrite Herr. reflexivity. }
  assert (Hc : code_of response = "UNKNOWN_ERROR"%string).
  { unfold code_of. rewrite Herr. reflexivity. }
  exists e. split; [eapply request_rethrows; eassumption|].
  split; [congruence|]. split; [exact Hstatus|].
  split; [intros H; rewrite (Hcode H); exact Hc|].
  intros H. apply Hcredits in H. rewrite Hc in H. discriminate.
Qed.

Lemma error_body_without_error_falls_back_witness :
  ok teapot = false /\ json_error teapot = NoJson /\
  exists e,
    request (always teapot) (sample_client (Int 3)) "GET" "/credits" None 1 (fresh 0)
    = Some (Raised (OfTaxonomy e),
            after_call (always teapot)
              (call_of (sample_client (Int 3)) "GET" "/credits" None) (fresh 0))
    /\ message e = "I'm a teapot"%string
    /\ statusCode e = 418
    /\ (cls e = CEmailVerifyError -> code e = "UNKNOWN_ERROR"%string)
    /\ cls e <> CInsufficientCreditsError.
Proof.
  split; [reflexivity|]. split; [reflexivity|].
  apply (error_body_without_error_falls_back unit (always teapot) (sample_client (Int 3))
           "GET" "/credits" None 1 (fresh 0) teapot).
  - reflexivity.
  - reflexivity.
  - left. unfold retryable. cbn. lia.
  - left. reflexivity.
Defined.

(** X23.  An error reply whose body is the JSON value [null] is not
    answered by the error of its status: whatever the status outside
    200-299 and whatever [retries] is, the request makes that one call, does
    not sleep or retry, and raises the base error with code [NETWORK_ERROR]
    and status 0 around the [TypeError] of the read of [errorData.error]. *)
Theorem null_error_body_is_a_network_error :
  forall (T : Type) (server : Server T) (this : EmailVerify)
         (method path : string) (body : option Json) (attempt : Z) (w : World)
         (response : Response T),
    outcome (server (List.length (calls w)) (call_of this method path body))
    = Returned response ->
    ~ (200 <= status response <= 299) ->
    json_error response = JsonNull ->
    exists e w',
      request server this method path body attempt w = Some (Raised (OfTaxonomy e), w')
      /\ calls w' = calls w ++ [call_of this method path body]
      /\ sleeps w' = sleeps w
      /\ cls e = CEmailVerifyError
      /\ code e = "NETWORK_ERROR"%string
      /\ statusCode e = 0
      /\ message e
         = "Network error: Cannot read properties of null (reading 'error')"%string
      /\ details e = None
      /\ retryAfter e = None.
Proof.
  intros T server this method path body attempt w response Hout Hs Hnull.
  assert (Hok : ok response = false).
  { unfold ok. apply andb_false_iff.
    destruct (Z.le_gt_cases 200 (status response)) as [Hlo|Hlo].
    - right. apply Z.leb_gt. lia.
    - left. apply Z.leb_gt. lia. }
  eexists. eexists. split.
  - eapply request_null_body; [exact Hout|exact Hok|exact Hnull].
  - repeat split; reflexivity.
Qed.

Lemma null_error_body_is_a_network_error_witness :
  status (null_body 429 "Too Many Requests" (Some "1")) = 429 /\
  exists e w',
    request (always (null_body 429 "Too Many Requests" (Some "1"))) (sample_client (Int 3))
      "GET" "/credits" None 1 (fresh 0)
    = Some (Raised (OfTaxonomy e), w')
    /\ List.length (calls w') = 1%nat
    /\ sleeps w' = []
    /\ code e = "NETWORK_ERROR"%string
    /\ statusCode e = 0.
Proof.
  split; [reflexivity|].
  destruct (null_error_body_is_a_network_error unit
              (always (null_body 429 "Too Many Requests" (Some "1")))
              (sample_client (Int 3)) "GET" "/credits" None 1 (fresh 0)
              (null_body 429 "Too Many Requests" (Some "1")) eq_refl)
    as (e & w' & Hreq & Hcalls & Hsleeps & _ & Hcode & Hst & _).
  - cbn. lia.
  - reflexivity.
  - exists e, w'. rewrite Hcalls. repeat split; assumption.
Defined.

(** ** The retry budget *)

(** X7.  The retry budget.  When [retries] is an integer [N], a request
    that has settled, whatever the server did, has made its call at least
    once and at most once per attempt from [attempt] to [N], every time
    with the same URL, method, headers and body, and has slept exactly once
    between two calls.  When [N] is not above [attempt] there was exactly
    one call. *)
Theorem request_stays_within_its_budget :
  forall (T : Type) (server : Server T) (this : EmailVerify)
         (method path : string) (body : option Json) (attempt : Z) (w : World) (N : Z)
         (r : Outcome (option T)) (w' : World),
    retries this = Int N ->
    request server this method path body attempt w = Some (r, w') ->
    exists k,
      calls w' = calls w ++ repeat (call_of this method path body) (S k)
      /\ List.length (sleeps w') = (List.length (sleeps w) + k)%nat
      /\ Z.of_nat (S k) <= Z.max 1 (N - attempt + 1)
      /\ (N <= attempt -> k = O).
Proof.
  intros T server this method path body attempt w N r w' HN Hrun.
  destruct (request_shape server this method path body (attempts_left this attempt)
              attempt w eq_refl) as (r0 & w0 & k & Hreq & Hc & Hk & Hs & _).
  rewrite Hrun in Hreq. injection Hreq as <- <-.
  exists k. split; [exact Hc|]. split; [exact Hs|].
  unfold attempts_left in Hk. rewrite HN in Hk. split; lia.
Qed.

Lemma request_stays_within_its_budget_witness :
  retries (sample_client (Int 3)) = Int 3 /\
  exists k,
    repeat (call_of (sample_client (Int 3)) "GET" "/credits" None) 2
    = [] ++ repeat (call_of (sample_client (Int 3)) "GET" "/credits" None) (S k)
    /\ List.length [Int 1000] = (0 + k)%nat
    /\ Z.of_nat (S k) <= Z.max 1 (3 - 1 + 1)
    /\ (3 <= 1 -> k = O).
Proof.
  split; [reflexivity|].
  apply (request_stays_within_its_budget unit rate_limited_once (sample_client (Int 3))
           "GET" "/credits" None 1 (fresh 0) 3
           (Raised (OfTaxonomy
              (EmailVerifyError "Network error: Body is unusable: Body has already been read"
                 "NETWORK_ERROR" 0 None)))
           {| now := 1040;
              calls := repeat (call_of (sample_client (Int 3)) "GET" "/credits" None) 2;
              sleeps := [Int 1000] |}).
  - reflexivity.
  - vm_compute. reflexivity.
Defined.

(** X10.  When neither [fetch] nor [response.json()] throws an error of the
    taxonomy, whatever a request throws is an error of the taxonomy whose
    class fixes its code and status (the base class apart) and that has a
    [retryAfter] exactly when it is a [RateLimitError]. *)
Theorem request_throws_canonical_errors :
  forall (T : Type) (server : Server T) (this : EmailVerify)
         (method path : string) (body : option Json) (attempt : Z) (w : World)
         (x : Exn) (w' : World),
    foreign server ->
    request server this method path body attempt w = Some (Raised x, w') ->
    exists e, x = OfTaxonomy e /\ canonical e.
Proof.
  intros T server this method path body attempt w x w' Hf Hreq.
  destruct (request_shape server this method path body (attempts_left this attempt)
              attempt w eq_refl) as (r & w0 & k & Hreq0 & _ & _ & _ & Hx).
  rewrite Hreq in Hreq0. injection Hreq0 as <- <-. apply (Hx Hf). reflexivity.
Qed.

Lemma request_throws_canonical_errors_witness :
  foreign (always rate_limited) /\
  exists e,
    OfTaxonomy (RateLimitError (Some "Rate limit exceeded") (Some (Int 1))) = OfTaxonomy e
    /\ canonical e.
Proof.
  assert (Hf : foreign (always rate_limited)).
  { intros k c. split; [discriminate|].
    intros response [= <-] used e. destruct used; discriminate. }
  split; [exact Hf|].
  apply (request_throws_canonical_errors unit (always rate_limited) (sample_client (Int 1))
           "POST" "/verify" None 1 (fresh 0) _
           (after_call (always rate_limited)
              (call_of (sample_client (Int 1)) "POST" "/verify" None) (fresh 0)) Hf).
  vm_compute. reflexivity.
Defined.

(** ** Backoff *)

Lemma schedule_ext (d1 d2 : Z -> number) (n : nat) :
  forall attempt, (forall a, d1 a = d2 a) -> schedule d1 attempt n = schedule d2 attempt n.
Proof.
  induction n as [|n IH]; intros attempt Hd; [reflexivity|].
  cbn [schedule]. rewrite Hd, (IH (attempt + 1) Hd). reflexivity.
Qed.

Lemma schedule_backoff (n : nat) :
  forall attempt, schedule (fun a => Int (2 ^ a * 1000)) attempt n = backoff attempt n.
Proof.
  induction n as [|n IH]; intros attempt; [reflexivity|].
  cbn [schedule backoff]. rewrite IH. reflexivity.
Qed.

Lemma schedule_constant (ms : number) (n : nat) :
  forall attempt, schedule (fun _ => ms) attempt n = repeat ms n.
Proof.
  induction n as [|n IH]; intros attempt; [reflexivity|].
  cbn [schedule repeat]. rewrite IH. reflexivity.
Qed.

(** Up to [2 ^ 21] seconds a backoff sleep is within the range of a timer. *)
Lemma backoff_pause (attempt : Z) :
  0 <= attempt <= 21 -> pause_of (Int (2 ^ attempt * 1000)) = 2 ^ attempt * 1000.
Proof.
  intros Ha.
  assert (Hpos : 0 < 2 ^ attempt) by (apply Z.pow_pos_nonneg; lia).
  assert (Hmax : 2 ^ attempt <= 2 ^ 21) by (apply Z.pow_le_mono_r; lia).
  change (2 ^ 21) with 2097152 in Hmax.
  unfold pause_of, TIMEOUT_MAX.
  replace (1 <=? 2 ^ attempt * 1000) with true by (symmetry; apply Z.leb_le; lia).
  replace (2 ^ attempt * 1000 <=? 2147483647) with true by (symmetry; apply Z.leb_le; lia).
  reflexivity.
Qed.

Lemma total_pause_backoff (n : nat) :
  forall attempt, 0 <= attempt -> attempt + Z.of_nat n <= 22 ->
    total_pause (backoff attempt n) = (2 ^ (attempt + Z.of_nat n) - 2 ^ attempt) * 1000.
Proof.
  induction n as [|n IH]; intros attempt Ha Hmax.
  - cbn [backoff total_pause fold_right]. rewrite Z.add_0_r. lia.
  - cbn [backoff]. change (total_pause (Int (2 ^ attempt * 1000) :: backoff (attempt + 1) n))
      with (pause_of (Int (2 ^ attempt * 1000)) + total_pause (backoff (attempt + 1) n)).
    rewrite IH by lia. rewrite backoff_pause by lia.
    replace (attempt + Z.of_nat (S n)) with (attempt + 1 + Z.of_nat n) by lia.
    assert (H2 : 2 ^ (attempt + 1) = 2 * 2 ^ attempt) by (apply Z.pow_succ_r; exact Ha).
    assert (Hpos : 0 < 2 ^ attempt) by (apply Z.pow_pos_nonneg; lia).
    lia.
Qed.

Section BackoffFacts.
Context {T : Type}.
Variable server : Server T.
Variable this : EmailVerify.

(** The sleeps of a request that meets the same retryable status, and on
    429 the same [Retry-After] value, at every attempt. *)
Lemma persistent_status_sleeps (s N : Z) (ra : number) method path body :
  retries this = Int N ->
  retryable s ->
  (forall k c, exists response,
      outcome (server k c) = Returned response
      /\ status response = s
      /\ json_error response <> JsonNull
      /\ (s = 429 -> retryAfter_of response = ra)) ->
  forall (n : nat) (attempt : Z) (w : World),
    attempt <= N -> n = Z.to_nat (N - attempt) ->
    exists e w',
      request server this method path body attempt w = Some (Raised (OfTaxonomy e), w')
      /\ sleeps w'
         = sleeps w
           ++ schedule (fun a => if s =? 429 then
                                   mul_number (or_number ra (Int (2 ^ a))) (Int 1000)
                                 else Int (2 ^ a * 1000)) attempt n
      /\ (s = 429 -> retryAfter e = Some ra).
Proof.
  intros HN Hs Hsrv. induction n as [|n IH]; intros attempt w Hle Hn.
  all: destruct (Hsrv (List.length (calls w)) (call_of this method path body))
      as (response & Hout & Hst & Hbody & Hra).
  all: assert (Hr : retryable (status response)) by (rewrite Hst; exact Hs).
  all: pose proof (retryable_not_ok response Hr) as Hok.
  - assert (Hlt : js_lt (Int attempt) (retries this) = false).
    { rewrite HN. cbn. apply Z.ltb_ge. lia. }
    destruct (Z.eq_dec s 429) as [H429|H429].
    + eexists. eexists. split.
      * eapply request_rethrows; [exact Hout|exact Hok|].
        rewrite handleErrorResponse_429, Hlt
          by (first [exact Hbody|congruence]). reflexivity.
      * cbn [schedule]. rewrite app_nil_r. split; [reflexivity|].
        intros _. cbn. rewrite (Hra H429). reflexivity.
    + eexists. eexists. split.
      * eapply request_rethrows; [exact Hout|exact Hok|].
        rewrite handleErrorResponse_5xx, Hlt
          by (first [exact Hbody|unfold retryable in Hs; rewrite Hst; tauto]).
        reflexivity.
      * cbn [schedule]. rewrite app_nil_r. split; [reflexivity|]. intros H. contradiction.
  - assert (Hlt : js_lt (Int attempt) (retries this) = true).
    { rewrite HN. cbn. apply Z.ltb_lt. lia. }
    set (c := call_of this method path body) in *.
    set (ms := if status response =? 429 then
                 mul_number (or_number (retryAfter_of response) (Int (2 ^ attempt)))
                   (Int 1000)
               else Int (2 ^ attempt * 1000)).
    destruct (IH (attempt + 1) (after_sleep ms (after_call server c w)))
      as (e & w' & Hreq & Hsleeps & He); [lia|lia|].
    exists e, w'. split.
    + eapply request_rethrows; [exact Hout|exact Hok|].
      rewrite (handleErrorResponse_retries server this response attempt method path body
                 _ Hbody Hr Hlt). exact Hreq.
    + split; [|exact He]. rewrite Hsleeps. cbn [after_sleep after_call sleeps schedule].
      rewrite <- app_assoc. cbn [app]. do 2 f_equal.
      subst ms. rewrite Hst. destruct (Z.eq_dec s 429) as [H429|H429].
      * rewrite (Hra H429). reflexivity.
      * apply Z.eqb_neq in H429. rewrite H429. reflexivity.
Qed.

End BackoffFacts.

(** X8.  Against a server that keeps answering 500, 502 or 503, with a
    body other than the JSON value [null], the sleeps of a request with
    [retries = N] are 2 s, 4 s, ... up to [2 ^ (N - 1)] seconds: the first
    one is 2 seconds, each next one twice as long.  When the longest of
    them is within the range of a timer, which is so up to [N = 22], they
    take [2 ^ N - 2] seconds together. *)
Theorem server_error_backoff_doubles :
  forall (T : Type) (server : Server T) (this : EmailVerify)
         (method path : string) (body : option Json) (t0 s N : Z),
    retries this = Int N ->
    1 <= N ->
    s = 500 \/ s = 502 \/ s = 503 ->
    (forall k c, exists response,
        outcome (server k c) = Returned response
        /\ status response = s
        /\ json_error response <> JsonNull) ->
    exists e w',
      request server this method path body 1 (fresh t0) = Some (Raised (OfTaxonomy e), w')
      /\ sleeps w' = backoff 1 (Z.to_nat (N - 1))
      /\ (2 ^ (N - 1) * 1000 <= TIMEOUT_MAX ->
          total_pause (sleeps w') = (2 ^ N - 2) * 1000)
      /\ (N <= 22 -> 2 ^ (N - 1) * 1000 <= TIMEOUT_MAX)
      /\ (2 <= N -> exists rest, sleeps w' = Int 2000 :: rest).
Proof.
  intros T server this method path body t0 s N HN H1 Hs Hsrv.
  assert (Hneq : s <> 429) by lia.
  destruct (persistent_status_sleeps server this s N NaN method path body HN
              ltac:(unfold retryable; tauto)) with (n := Z.to_nat (N - 1)) (attempt := 1)
                                                   (w := fresh t0)
    as (e & w' & Hreq & Hsleeps & _).
  - intros k c. destruct (Hsrv k c) as (response & Hout & Hst & Hbody).
    exists response. split; [exact Hout|]. split; [exact Hst|]. split; [exact Hbody|].
    intros H. contradiction.
  - lia.
  - reflexivity.
  - cbn [fresh sleeps app] in Hsleeps.
    apply Z.eqb_neq in Hneq. rewrite Hneq in Hsleeps.
    rewrite schedule_backoff in Hsleeps.
    exists e, w'. split; [exact Hreq|]. split; [exact Hsleeps|].
    split; [|split].
    + intros Hmax. unfold TIMEOUT_MAX in Hmax.
      assert (H22 : N <= 22).
      { destruct (Z_le_gt_dec N 22) as [Hle|Hgt]; [exact Hle|exfalso].
        assert (Hpow : 2 ^ 22 <= 2 ^ (N - 1)) by (apply Z.pow_le_mono_r; lia).
        change (2 ^ 22) with 4194304 in Hpow. lia. }
      rewrite Hsleeps, total_pause_backoff by lia.
      replace (1 + Z.of_nat (Z.to_nat (N - 1))) with N by lia. reflexivity.
    + intros H22. unfold TIMEOUT_MAX.
      assert (Hpow : 2 ^ (N - 1) <= 2 ^ 21) by (apply Z.pow_le_mono_r; lia).
      change (2 ^ 21) with 2097152 in Hpow. lia.
    + intros H2. rewrite Hsleeps.
      destruct (Z.to_nat (N - 1)) as [|n] eqn:Hn; [lia|].
      cbn [backoff]. eexists. reflexivity.
Qed.

Lemma server_error_backoff_doubles_witness :
  retries (sample_client (Int 4)) = Int 4 /\
  exists e w',
    request (always unavailable) (sample_client (Int 4)) "GET" "/credits" None 1 (fresh 0)
    = Some (Raised (OfTaxonomy e), w')
    /\ sleeps w' = [Int 2000; Int 4000; Int 8000]
    /\ total_pause (sleeps w') = 14000.
Proof.
  split; [reflexivity|].
  destruct (server_error_backoff_doubles unit (always unavailable) (sample_client (Int 4))
              "GET" "/credits" None 0 503 4 eq_refl ltac:(lia) ltac:(tauto))
    as (e & w' & Hreq & Hsleeps & Htotal & _).
  - intros k c. exists unavailable. repeat split; try reflexivity. discriminate.
  - exists e, w'. split; [exact Hreq|]. split; [exact Hsleeps|]. apply Htotal.
    vm_compute. discriminate.
Defined.

(** X9.  Against a server that keeps answering 429 with the same
    [Retry-After] value and a body other than the JSON value [null], every
    sleep is that many seconds when the value is a number other than 0;
    when it is 0, missing or no number, the sleeps double from 2 seconds as
    for a server error.  The value read is what the final [RateLimitError]
    carries. *)
Theorem rate_limit_backoff_follows_the_header :
  forall (T : Type) (server : Server T) (this : EmailVerify)
         (method path : string) (body : option Json) (t0 N : Z) (ra : number),
    retries this = Int N ->
    1 <= N ->
    (forall k c, exists response,
        outcome (server k c) = Returned response
        /\ status response = 429
        /\ json_error response <> JsonNull
        /\ retryAfter_of response = ra) ->
    exists e w',
      request server this method path body 1 (fresh t0) = Some (Raised (OfTaxonomy e), w')
      /\ retryAfter e = Some ra
      /\ (forall z, ra = Int z -> z <> 0 ->
          sleeps w' = repeat (Int (z * 1000)) (Z.to_nat (N - 1)))
      /\ (ra = Int 0 \/ ra = NaN -> sleeps w' = backoff 1 (Z.to_nat (N - 1))).
Proof.
  intros T server this method path body t0 N ra HN H1 Hsrv.
  destruct (persistent_status_sleeps server this 429 N ra method path body HN
              ltac:(unfold retryable; tauto)) with (n := Z.to_nat (N - 1)) (attempt := 1)
                                                   (w := fresh t0)
    as (e & w' & Hreq & Hsleeps & He).
  - intros k c. destruct (Hsrv k c) as (response & Hout & Hst & Hbody & Hra).
    exists response. split; [exact Hout|]. split; [exact Hst|]. split; [exact Hbody|].
    intros _. exact Hra.
  - lia.
  - reflexivity.
  - cbn [fresh sleeps app Z.eqb Pos.eqb] in Hsleeps.
    exists e, w'. split; [exact Hreq|]. split; [apply He; reflexivity|]. split.
    + intros z -> Hz. rewrite Hsleeps.
      rewrite (schedule_ext _ (fun _ => Int (z * 1000))).
      * apply schedule_constant.
      * intros a. unfold or_number, truthy_number. apply Z.eqb_neq in Hz. rewrite Hz.
        reflexivity.
    + intros Hra. rewrite Hsleeps, <- schedule_backoff. apply schedule_ext.
      intros a. destruct Hra as [-> | ->]; reflexivity.
Qed.

Lemma rate_limit_backoff_follows_the_header_witness :
  retryAfter_of rate_limited = Int 1 /\
  exists e w',
    request (always rate_limited) (sample_client (Int 3)) "POST" "/verify" None 1 (fresh 0)
    = Some (Raised (OfTaxonomy e), w')
    /\ retryAfter e = Some (Int 1)
    /\ sleeps w' = [Int 1000; Int 1000].
Proof.
  split; [reflexivity|].
  destruct (rate_limit_backoff_follows_the_header unit (always rate_limited)
              (sample_client (Int 3)) "POST" "/verify" None 0 3 (Int 1) eq_refl ltac:(lia))
    as (e & w' & Hreq & He & Hsleeps & _).
  - intros k c. exists rate_limited. repeat split; try reflexivity. discriminate.
  - exists e, w'. split; [exact Hreq|]. split; [exact He|].
    apply (Hsleeps 1 eq_refl). discriminate.
Defined.

(** ** A retry that succeeds *)

(** X11.  When a retryable status, with a body other than the JSON value
    [null], is followed by a retry that returns, [request] does not return
    what the retry returned: it reads the body of the first response once
    more and returns that, or fails with the [NETWORK_ERROR] base error when
    the body cannot be read again.  The retry's value has no part in the
    outcome. *)
Theorem successful_retry_result_is_dropped :
  forall (T : Type) (server : Server T) (this : EmailVerify)
         (method path : string) (body : option Json) (attempt : Z) (w : World)
         (response : Response T) (v : option T) (w2 : World),
    outcome (server (List.length (calls w)) (call_of this method path body))
    = Returned response ->
    json_error response <> JsonNull ->
    retryable (status response) ->
    js_lt (Int attempt) (retries this) = true ->
    request server this method path body (attempt + 1)
      (after_sleep
         (if status response =? 429 then
            mul_number (or_number (retryAfter_of response) (Int (2 ^ attempt))) (Int 1000)
          else Int (2 ^ attempt * 1000))
         (after_call server (call_of this method path body) w))
    = Some (Returned v, w2) ->
    (forall data, json_data response true = Returned data ->
        request server this method path body attempt w = Some (Returned (Some data), w2))
    /\ (forall name msg, json_data response true = Raised (OtherError name msg) ->
        name <> "AbortError" ->
        request server this method path body attempt w
        = Some (Raised (OfTaxonomy
                  (EmailVerifyError ("Network error: " ++ msg)%string "NETWORK_ERROR" 0 None)),
                w2)).
Proof.
  intros T server this method path body attempt w response v w2 Hout Hbody Hr Hlt Hretry.
  assert (H204 : (status response =? 204) = false).
  { apply Z.eqb_neq. unfold retryable in Hr. lia. }
  assert (Hreq : request server this method path body attempt w
                 = finish this response true w2).
  { rewrite (request_on_reply server this _ _ _ _ _ _ Hout).
    rewrite (retryable_not_ok response Hr).
    rewrite (handleErrorResponse_retries server this response attempt method path body
               _ Hbody Hr Hlt), Hretry. reflexivity. }
  rewrite Hreq. unfold finish. rewrite H204. split.
  - intros data ->. reflexivity.
  - intros name msg -> Hname. cbn [request_catch].
    apply String.eqb_neq in Hname. rewrite Hname. reflexivity.
Qed.

Lemma successful_retry_result_is_dropped_witness :
  retryable (status rate_limited) /\
  request rate_limited_once (sample_client (Int 3)) "GET" "/credits" None 1 (fresh 0)
  = Some (Raised (OfTaxonomy
            (EmailVerifyError "Network error: Body is unusable: Body has already been read"
               "NETWORK_ERROR" 0 None)),
          {| now := 1040;
             calls := repeat (call_of (sample_client (Int 3)) "GET" "/credits" None) 2;
             sleeps := [Int 1000] |}).
Proof.
  assert (Hr : retryable (status rate_limited)) by (left; reflexivity).
  split; [exact Hr|].
  apply (successful_retry_result_is_dropped unit rate_limited_once (sample_client (Int 3))
           "GET" "/credits" None 1 (fresh 0) rate_limited (Some tt)
           {| now := 1040;
              calls := repeat (call_of (sample_client (Int 3)) "GET" "/credits" None) 2;
              sleeps := [Int 1000] |}
           eq_refl ltac:(discriminate) Hr eq_refl)
    with (name := "TypeError"%string).
  - vm_compute. reflexivity.
  - reflexivity.
  - discriminate.
Defined.

(** ** URLs *)

Lemma string_app_assoc (a b c : string) :
  ((a ++ b) ++ c)%string = (a ++ (b ++ c))%string.
Proof.
  induction a as [|x a IH]; [reflexivity|]. cbn [append]. rewrite IH. reflexivity.
Qed.

Lemma string_app_nil_r (a : string) : (a ++ "")%string = a.
Proof.
  induction a as [|x a IH]; [reflexivity|]. cbn [append]. rewrite IH. reflexivity.
Qed.

(** X12.  A configured base URL with one slash at its end and the same URL
    without it build the same client, and every request of that client goes
    to the URL made of the base without the slash and the path, with the
    API key in the [EMAILVERIFY-API-KEY] header. *)
Theorem trailing_slash_is_immaterial :
  forall (key u : string) (t r : option number),
    key <> "" ->
    u <> "" ->
    (forall v, u <> (v ++ "/")%string) ->
    constructor {| cfg_apiKey := Some key; cfg_baseUrl := Some (u ++ "/")%string;
                   cfg_timeout := t; cfg_retries := r |}
    = constructor {| cfg_apiKey := Some key; cfg_baseUrl := Some u;
                     cfg_timeout := t; cfg_retries := r |}
    /\ exists this,
         constructor {| cfg_apiKey := Some key; cfg_baseUrl := Some (u ++ "/")%string;
                        cfg_timeout := t; cfg_retries := r |}
         = Returned this
         /\ forall method path body,
              url (call_of this method path body) = (u ++ path)%string
              /\ In ("EMAILVERIFY-API-KEY", key) (headers (call_of this method path body)).
Proof.
  intros key u t r Hkey Hu Hno.
  unfold constructor. cbn [cfg_apiKey cfg_baseUrl cfg_timeout cfg_retries default option_map].
  rewrite strip_trailing_slash_app, (strip_trailing_slash_none u Hno).
  unfold truthy_string. apply String.eqb_neq in Hkey. rewrite Hkey. cbn [negb].
  split; [reflexivity|].
  eexists. split; [reflexivity|].
  intros method path body. cbn [call_of url headers baseUrl apiKey].
  unfold or_string, truthy_string. apply String.eqb_neq in Hu. rewrite Hu. cbn [negb].
  split; [reflexivity|]. left. reflexivity.
Qed.

Lemma trailing_slash_is_immaterial_witness :
  exists this,
    constructor {| cfg_apiKey := Some "test-key";
                   cfg_baseUrl := Some "https://custom.api.com/";
                   cfg_timeout := None; cfg_retries := None |}
    = Returned this
    /\ url (call_of this "POST" "/verify" None) = "https://custom.api.com/verify".
Proof.
  destruct (trailing_slash_is_immaterial "test-key" "https://custom.api.com" None None)
    as (_ & this & Hthis & Hcall).
  - discriminate.
  - discriminate.
  - intros v Hv.
    assert (Hlast : forall a b : string,
               (a ++ "/")%string = b ->
               exists c, String.get (String.length b - 1) b = Some c /\ c = "/"%char).
    { intros a b <-. exists "/"%char. split; [|reflexivity].
      induction a as [|x a IH]; [reflexivity|].
      cbn [append String.length]. destruct (a ++ "/")%string eqn:Ha.
      - destruct a; discriminate.
      - cbn [String.length Nat.sub] in *. rewrite Nat.sub_0_r in *.
        cbn [String.get]. exact IH. }
    destruct (Hlast v _ (eq_sym Hv)) as (c & Hget & Hc).
    vm_compute in Hget. congruence.
  - exists this. split; [exact Hthis|]. apply (Hcall "POST"%string "/verify"%string None).
Defined.

(** X13.  The job id goes into the path as it is, without escaping: asking
    for the status of the job named [jobId ++ "/results"] is the very
    request that asks for the results of [jobId] without options. *)
Theorem job_id_is_not_escaped :
  forall (T : Type) (server : Server T) (this : EmailVerify) (jobId : string) (w : World),
    getBulkJobStatus server this (jobId ++ "/results")%string w
    = getBulkJobResults server this jobId None w.
Proof.
  intros T server this jobId w. unfold getBulkJobStatus, getBulkJobResults, bulkResultsPath.
  cbn [bulkResultsParams params_toString truthy_string String.eqb negb].
  rewrite string_app_nil_r. reflexivity.
Qed.

(** ** More on polling *)

Section WaitFacts.
Variable server : Server BulkJobResponse.t.
Variable this : EmailVerify.
Variable jobId : string.
Variables pollInterval maxWait : option number.

(** The first [k] rounds of a wait whose polls see the job running. *)
Lemma waitForBulkJobCompletion_idle (job : nat -> BulkJobResponse.t) (lat : nat -> Z)
    (t0 : Z) (k fuel : nat) :
  (forall j, (j < k)%nat -> answers server this jobId j (job j) (lat j)) ->
  (forall j, (j < k)%nat ->
             BulkJobResponse.status (job j) <> completed
             /\ BulkJobResponse.status (job j) <> failed) ->
  (forall j, (j < k)%nat ->
             js_lt (Int (poll_time lat (pause_of (default (Int 5000) pollInterval)) j))
                   (default (Int 600000) maxWait) = true) ->
  waitForBulkJobCompletion server this (k + fuel) jobId pollInterval maxWait (fresh t0)
  = waitLoop server this fuel jobId (default (Int 5000) pollInterval)
      (default (Int 600000) maxWait) t0
      (after_polls (status_call this jobId) (default (Int 5000) pollInterval) lat k
         (fresh t0)).
Proof.
  intros Hans Hrun Hguard.
  unfold waitForBulkJobCompletion, bind, Date_now. cbn [now fresh].
  apply (waitLoop_idle server this jobId _ _ k job lat).
  - exact Hans.
  - exact Hrun.
  - intros j Hj. cbn [now fresh].
    replace (t0 - t0 + poll_time lat (pause_of (default (Int 5000) pollInterval)) j)
      with (poll_time lat (pause_of (default (Int 5000) pollInterval)) j) by lia.
    apply Hguard. exact Hj.
Qed.

End WaitFacts.

Lemma poll_time_lower_bound (lat : nat -> Z) (p : Z) (k : nat) :
  (forall j, 0 <= lat j) -> Z.of_nat k * p <= poll_time lat p k.
Proof.
  intros Hlat. induction k as [|k IH]; [cbn; lia|].
  cbn [poll_time]. specialize (Hlat k). lia.
Qed.

(** The first round at which a condition that holds at round [K] holds. *)
Lemma first_round (P : nat -> Prop) (K : nat) :
  (forall j, {P j} + {~ P j}) -> P K ->
  exists k, (k <= K)%nat /\ P k /\ forall j, (j < k)%nat -> ~ P j.
Proof.
  intros Hdec. induction K as [K IH] using lt_wf_ind. intros HK.
  destruct (Nat.eq_dec K 0) as [->|HK0].
  { exists O. split; [lia|]. split; [exact HK|]. intros j Hj. lia. }
  assert (Hsearch : forall n, (n <= K)%nat ->
            (exists j, (j < n)%nat /\ P j) \/ (forall j, (j < n)%nat -> ~ P j)).
  { induction n as [|n IHn]; intros Hn.
    - right. intros j Hj. lia.
    - destruct IHn as [(j & Hj & HPj)|Hnone]; [lia| |].
      + left. exists j. split; [lia|exact HPj].
      + destruct (Hdec n) as [HPn|HPn].
        * left. exists n. split; [lia|exact HPn].
        * right. intros j Hj. destruct (Nat.eq_dec j n) as [->|Hne]; [exact HPn|].
          apply Hnone. lia. }
  destruct (Hsearch K (Nat.le_refl K)) as [(j & Hj & HPj)|Hnone].
  - destruct (IH j Hj HPj) as (k & Hk & HPk & Hmin).
    exists k. split; [lia|]. split; [exact HPk|exact Hmin].
  - exists K. split; [lia|]. split; [exact HK|exact Hnone].
Qed.

(** X14.  A poll that fails ends the wait with its error: when the polls
    before it saw the job running and this one, begun in time, gets a
    status outside 200-299 that is not retried, with a body other than the
    JSON value [null], [waitForBulkJobCompletion] throws the error of that
    status, without a further poll or sleep. *)
Theorem failed_poll_ends_the_wait :
  forall (server : Server BulkJobResponse.t) (this : EmailVerify) (jobId : string)
         (pollInterval maxWait : option number)
         (job : nat -> BulkJobResponse.t) (lat : nat -> Z) (t0 : Z) (k : nat)
         (response : Response BulkJobResponse.t),
    let interval := default (Int 5000) pollInterval in
    let limit := default (Int 600000) maxWait in
    let elapsed_at := poll_time lat (pause_of interval) in
    (forall j, (j < k)%nat -> answers server this jobId j (job j) (lat j)) ->
    (forall j, (j < k)%nat ->
               BulkJobResponse.status (job j) <> completed
               /\ BulkJobResponse.status (job j) <> failed) ->
    (forall j, (j <= k)%nat -> js_lt (Int (elapsed_at j)) limit = true) ->
    outcome (server k (status_call this jobId)) = Returned response ->
    json_error response <> JsonNull ->
    ~ (200 <= status response <= 299) ->
    ~ retryable (status response) ->
    forall fuel, (k < fuel)%nat ->
      exists e w',
        waitForBulkJobCompletion server this fuel jobId pollInterval maxWait (fresh t0)
        = Some (Raised (OfTaxonomy e), w')
        /\ statusCode e = status response
        /\ calls w' = repeat (status_call this jobId) (S k)
        /\ sleeps w' = repeat interval k.
Proof.
  intros server this jobId pollInterval maxWait job lat t0 k response interval limit
         elapsed_at Hans Hrun Hguard Hout Hbody Hs Hno fuel Hfuel.
  replace fuel with (k + S (fuel - S k))%nat by lia.
  rewrite (waitForBulkJobCompletion_idle server this jobId pollInterval maxWait job lat t0 k)
    by (try assumption; intros j Hj; apply Hguard; lia).
  fold interval limit.
  set (w := after_polls (status_call this jobId) interval lat k (fresh t0)).
  assert (Hlen : List.length (calls w) = k).
  { subst w. unfold after_polls. cbn [calls fresh app]. apply repeat_length. }
  assert (Ht : now w - t0 = elapsed_at k).
  { subst w. unfold after_polls, elapsed_at. cbn [now fresh]. lia. }
  cbn [waitLoop]. unfold bind at 1. unfold Date_now at 1.
  rewrite Ht, (Hguard k (Nat.le_refl k)). unfold bind at 1.
  assert (Hok : ok response = false).
  { unfold ok. apply andb_false_iff.
    destruct (Z.le_gt_cases 200 (status response)) as [Hlo|Hlo].
    - right. apply Z.leb_gt. lia.
    - left. apply Z.leb_gt. lia. }
  destruct (handleErrorResponse_throws server this response 1 "GET"
              ("/verify/bulk/" ++ jobId)%string None
              (after_call server (status_call this jobId) w) Hbody (or_introl Hno))
    as (e & Hh & Hcode & _).
  assert (Hpoll : getBulkJobStatus server this jobId w
                  = Some (Raised (OfTaxonomy e),
                          after_call server (status_call this jobId) w)).
  { unfold getBulkJobStatus. eapply request_rethrows; [|exact Hok|exact Hh].
    fold (status_call this jobId). rewrite Hlen. exact Hout. }
  rewrite Hpoll. exists e. eexists. split; [reflexivity|]. split; [exact Hcode|].
  subst w. unfold after_call, after_polls. cbn [calls sleeps fresh app].
  split; [symmetry; apply repeat_cons|reflexivity].
Qed.

Lemma failed_poll_ends_the_wait_witness :
  exists e w',
    waitForBulkJobCompletion forgetful_server (sample_client (Int 3)) 2 "job_123" None None
      (fresh 0)
    = Some (Raised (OfTaxonomy e), w')
    /\ statusCode e = 404
    /\ calls w' = repeat (status_call (sample_client (Int 3)) "job_123") 2
    /\ sleeps w' = [Int 5000].
Proof.
  apply (failed_poll_ends_the_wait forgetful_server (sample_client (Int 3)) "job_123"
           None None (fun _ => stuck_job) (fun _ => 100) 0 1
           {| status := 404;
              statusText := "Not Found";
              retry_after := None;
              json_error := JsonValue {| error := None |};
              json_data := fun _ => Returned stuck_job |}).
  - intros j Hj. assert (j = O) as -> by lia.
    exists (job_response stuck_job). repeat split; try reflexivity. discriminate.
  - intros j _. split; discriminate.
  - intros j Hj. destruct j as [|[|j]]; [reflexivity|reflexivity|lia].
  - reflexivity.
  - discriminate.
  - cbn. lia.
  - unfold retryable. cbn. lia.
  - lia.
Defined.

(** X15.  Waiting for a job that never completes ends, whatever the poll
    interval: a sleep takes the interval when that is from 1 to
    [2 ^ 31 - 1] milliseconds and one millisecond otherwise.  When every
    poll is answered, sees the job running and takes no negative time,
    [waitForBulkJobCompletion] throws a [TimeoutError] at the first round
    that begins [maxWait] or more after the start, having polled and slept
    [k] times, where [k - 1] sleeps take less than [maxWait]; with
    [maxWait <= 0] it does not poll at all. *)
Theorem unfinished_job_times_out :
  forall (server : Server BulkJobResponse.t) (this : EmailVerify) (jobId : string)
         (pollInterval maxWait : option number)
         (job : nat -> BulkJobResponse.t) (lat : nat -> Z) (t0 m : Z),
    let interval := default (Int 5000) pollInterval in
    let p := pause_of interval in
    default (Int 600000) maxWait = Int m ->
    (forall j, answers server this jobId j (job j) (lat j)) ->
    (forall j, BulkJobResponse.status (job j) <> completed
               /\ BulkJobResponse.status (job j) <> failed) ->
    (forall j, 0 <= lat j) ->
    1 <= p
    /\ (forall z, interval = Int z -> 1 <= z <= 2147483647 -> p = z)
    /\ (forall z, interval = Int z -> z < 1 \/ 2147483647 < z -> p = 1)
    /\ exists k,
         (k = O \/ (Z.of_nat k - 1) * p < m)
         /\ (m <= 0 -> k = O)
         /\ m <= poll_time lat p k
         /\ forall fuel, (k < fuel)%nat ->
              exists e,
                waitForBulkJobCompletion server this fuel jobId pollInterval maxWait
                  (fresh t0)
                = Some (Raised (OfTaxonomy e),
                        {| now := t0 + poll_time lat p k;
                           calls := repeat (status_call this jobId) k;
                           sleeps := repeat interval k |})
                /\ cls e = CTimeoutError.
Proof.
  intros server this jobId pollInterval maxWait job lat t0 m interval p Hm Hans Hrun Hlat.
  assert (Hp1 : 1 <= p).
  { subst p. unfold pause_of, TIMEOUT_MAX. destruct interval as [z|]; [|lia].
    destruct (1 <=? z) eqn:H1; cbn [andb]; [|lia].
    destruct (z <=? 2147483647); [apply Z.leb_le; exact H1|lia]. }
  split; [exact Hp1|]. split; [|split].
  { intros z Hz Hrange. subst p. rewrite Hz. unfold pause_of, TIMEOUT_MAX.
    replace (1 <=? z) with true by (symmetry; apply Z.leb_le; lia).
    replace (z <=? 2147483647) with true by (symmetry; apply Z.leb_le; lia).
    reflexivity. }
  { intros z Hz Hrange. subst p. rewrite Hz. unfold pause_of, TIMEOUT_MAX.
    destruct (1 <=? z) eqn:H1; cbn [andb]; [|reflexivity].
    destruct (z <=? 2147483647) eqn:H2; [|reflexivity].
    apply Z.leb_le in H1, H2. lia. }
  destruct (first_round (fun j => m <= poll_time lat p j) (Z.to_nat (Z.max 0 m)))
    as (k & _ & Hk & Hmin).
  - intros j. apply Z_le_dec.
  - pose proof (poll_time_lower_bound lat p (Z.to_nat (Z.max 0 m)) Hlat). nia.
  - exists k. split; [|split; [|split; [exact Hk|]]].
    + destruct k as [|k]; [left; reflexivity|right].
      pose proof (Hmin k ltac:(lia)) as Hlt.
      pose proof (poll_time_lower_bound lat p k Hlat). lia.
    + intros Hm0. destruct k as [|k]; [reflexivity|].
      exfalso. apply (Hmin O); [lia|]. cbn [poll_time]. exact Hm0.
    + intros fuel Hfuel.
      replace fuel with (k + S (fuel - S k))%nat by lia.
      rewrite (waitForBulkJobCompletion_idle server this jobId pollInterval maxWait
                 job lat t0 k).
      * fold interval. rewrite Hm. cbn [waitLoop]. unfold bind at 1. unfold Date_now at 1.
        unfold after_polls at 1. cbn [now fresh]. fold p.
        replace (t0 + poll_time lat p k - t0) with (poll_time lat p k) by lia.
        assert (Hg : js_lt (Int (poll_time lat p k)) (Int m) = false).
        { cbn [js_lt]. apply Z.ltb_ge. exact Hk. }
        rewrite Hg. eexists. split;
          [unfold throw, after_polls; cbn [now calls sleeps fresh app];
           fold p; reflexivity|reflexivity].
      * intros j _. apply Hans.
      * intros j _. apply Hrun.
      * intros j Hj. fold interval. fold p. rewrite Hm. cbn [js_lt]. apply Z.ltb_lt.
        specialize (Hmin j Hj). lia.
Qed.

Lemma unfinished_job_times_out_witness :
  default (Int 600000) (Some (Int 12000)) = Int 12000 /\
  pause_of (default (Int 5000) None) = 5000 /\
  exists k,
    (k = O \/ (Z.of_nat k - 1) * 5000 < 12000)
    /\ (12000 <= 0 -> k = O)
    /\ 12000 <= poll_time (fun _ => 100) 5000 k
    /\ forall fuel, (k < fuel)%nat ->
         exists e,
           waitForBulkJobCompletion stuck_server (sample_client (Int 3)) fuel "job_123"
             None (Some (Int 12000)) (fresh 0)
           = Some (Raised (OfTaxonomy e),
                   {| now := 0 + poll_time (fun _ => 100) 5000 k;
                      calls := repeat (status_call (sample_client (Int 3)) "job_123") k;
                      sleeps := repeat (Int 5000) k |})
           /\ cls e = CTimeoutError.
Proof.
  split; [reflexivity|]. split; [reflexivity|].
  apply (unfinished_job_times_out stuck_server (sample_client (Int 3)) "job_123"
           None (Some (Int 12000)) (fun _ => stuck_job) (fun _ => 100) 0 12000).
  - reflexivity.
  - intros j. exists (job_response stuck_job). repeat split; try reflexivity. discriminate.
  - intros j. split; discriminate.
  - intros j. lia.
Defined.

(** ** The shape of an accepted signature *)

Lemma hex_length (digest : bytes) :
  List.length (hex digest) = (2 * List.length digest)%nat.
Proof.
  unfold hex. induction digest as [|b digest IH]; [reflexivity|].
  cbn [flat_map app List.length]. rewrite IH. lia.
Qed.

Lemma hex_lower_range (x : Z) :
  48 <= hex_lower (Z.land x 15) <= 57 \/ 97 <= hex_lower (Z.land x 15) <= 102.
Proof.
  assert (H : 0 <= Z.land x 15 < 16).
  { change 15 with (Z.ones 4). rewrite Z.land_ones by lia. apply Z.mod_pos_bound. lia. }
  unfold hex_lower. destruct (Z.land x 15 <? 10) eqn:Hd.
  - apply Z.ltb_lt in Hd. lia.
  - apply Z.ltb_ge in Hd. lia.
Qed.

Lemma hex_digits (digest : bytes) (u : Z) :
  In u (hex digest) -> 48 <= u <= 57 \/ 97 <= u <= 102.
Proof.
  induction digest as [|b digest IH]; [intros []|].
  cbn [hex flat_map app In]. intros [<-|[<-|H]]; [apply hex_lower_range..|].
  apply IH. exact H.
Qed.

(** X16.  A signature is accepted only where [require('crypto')] gives
    the module, and then it starts with ["sha256="], goes on with two
    digits for each byte of the digest and nothing more, and its digits are
    [0-9] and [a-f]: a digest written in upper case, or one without the
    prefix, is rejected. *)
Theorem accepted_signature_shape :
  forall (require_crypto : option Crypto) (payload signature secret : jsstring),
    fst (verifyWebhookSignature require_crypto payload signature secret) = Returned true ->
    exists hmac_sha256 : Crypto,
      require_crypto = Some hmac_sha256
      /\ firstn 7 signature = str "sha256="
      /\ List.length signature
         = (7 + 2 * List.length (hmac_sha256 (Buffer_from secret) (Buffer_from payload)))%nat
      /\ (forall u, In u (skipn 7 signature) -> 48 <= u <= 57 \/ 97 <= u <= 102)
      /\ (forall u, In u signature -> ~ (65 <= u <= 90)).
Proof.
  intros [hmac_sha256|] payload signature secret Htrue; [|discriminate].
  exists hmac_sha256. split; [reflexivity|].
  cbn [verifyWebhookSignature] in Htrue.
  apply checkSignature_true in Htrue.
  subst signature. unfold expectedSignature.
  set (digest := hmac_sha256 (Buffer_from secret) (Buffer_from payload)).
  change (str "sha256=") with [115; 104; 97; 50; 53; 54; 61].
  cbn [app firstn skipn List.length].
  split; [reflexivity|]. split; [rewrite hex_length; reflexivity|].
  split; [apply hex_digits|].
  intros u Hu. cbn [In] in Hu.
  destruct Hu as [<-|[<-|[<-|[<-|[<-|[<-|[<-|Hu]]]]]]]; try lia.
  apply hex_digits in Hu. lia.
Qed.

Lemma accepted_signature_shape_witness :
  fst (verifyWebhookSignature (Some sample_hmac) (str "{}")
         (expectedSignature sample_hmac (str "{}") (str "test-secret")) (str "test-secret"))
  = Returned true
  /\ exists hmac_sha256 : Crypto,
       Some sample_hmac = Some hmac_sha256
       /\ firstn 7 (expectedSignature sample_hmac (str "{}") (str "test-secret"))
          = str "sha256="
       /\ List.length (expectedSignature sample_hmac (str "{}") (str "test-secret"))
          = (7 + 2 * List.length (hmac_sha256 (Buffer_from (str "test-secret"))
                                    (Buffer_from (str "{}"))))%nat.
Proof.
  assert (H : fst (verifyWebhookSignature (Some sample_hmac) (str "{}")
                     (expectedSignature sample_hmac (str "{}") (str "test-secret"))
                     (str "test-secret")) = Returned true)
    by (vm_compute; reflexivity).
  split; [exact H|].
  destruct (accepted_signature_shape (Some sample_hmac) (str "{}")
              (expectedSignature sample_hmac (str "{}") (str "test-secret"))
              (str "test-secret") H) as (hmac_sha256 & Hsome & Hprefix & Hlen & _).
  exists hmac_sha256. split; [exact Hsome|]. split; [exact Hprefix|exact Hlen].
Defined.

(** ** Escaping in the query *)

Lemma delimiter_free_app (a b : string) :
  delimiter_free (a ++ b) = delimiter_free a && delimiter_free b.
Proof.
  induction a as [|c a IH]; [reflexivity|].
  cbn [append delimiter_free]. rewrite IH. apply andb_assoc.
Qed.

Lemma urlencode_byte_delimiter_free (c : ascii) :
  delimiter_free (urlencode_byte c) = true.
Proof.
  destruct c as [[] [] [] [] [] [] [] []]; vm_compute; reflexivity.
Qed.

Lemma urlencode_delimiter_free (s : string) :
  delimiter_free (urlencode s) = true.
Proof.
  induction s as [|c s IH]; [reflexivity|].
  cbn [urlencode]. rewrite delimiter_free_app, urlencode_byte_delimiter_free, IH.
  reflexivity.
Qed.

(** X17.  The status filter of [getBulkJobResults] goes into the query
    percent-encoded: whatever the string, what is sent after [status=]
    holds none of the characters [& = ? # /] and no space, so a filter
    cannot add a parameter or change the path. *)
Theorem status_filter_is_escaped :
  forall (T : Type) (server : Server T) (this : EmailVerify)
         (jobId st : string) (w : World),
    st <> "" ->
    delimiter_free (urlencode st) = true
    /\ exists r w' more,
         getBulkJobResults server this jobId
           (Some {| ro_limit := None; ro_offset := None; ro_status := Some st |}) w
         = Some (r, w')
         /\ calls w'
            = calls w
              ++ call_of this "GET"
                   ("/verify/bulk/" ++ jobId ++ "/results?status=" ++ urlencode st)%string
                   None
              :: more.
Proof.
  intros T server this jobId st w Hst.
  split; [apply urlencode_delimiter_free|].
  unfold getBulkJobResults.
  assert (Hpath : bulkResultsPath jobId
                    (Some {| ro_limit := None; ro_offset := None; ro_status := Some st |})
                  = ("/verify/bulk/" ++ jobId ++ "/results?status=" ++ urlencode st)%string).
  { assert (Ht : truthy_string st = true).
    { unfold truthy_string. apply String.eqb_neq in Hst. rewrite Hst. reflexivity. }
    unfold bulkResultsPath. rewrite bulkResultsParams_eq.
    cbn [ro_limit ro_offset ro_status]. rewrite Ht. reflexivity. }
  rewrite Hpath.
  match goal with |- context [request server this ?m ?p None 1 w] =>
    destruct (request_total server this m p None 1 w) as (r & w' & Hreq);
    destruct (request_first_call server this m p None 1 w r w' Hreq) as (more & Hcalls);
    exists r, w', more; split; assumption
  end.
Qed.

Lemma status_filter_is_escaped_witness :
  delimiter_free (urlencode "valid&limit=1") = true
  /\ exists r w' more,
       getBulkJobResults (always unauthorized) (sample_client (Int 3)) "job_123"
         (Some {| ro_limit := None; ro_offset := None; ro_status := Some "valid&limit=1" |})
         (fresh 0)
       = Some (r, w')
       /\ calls w'
          = [] ++ call_of (sample_client (Int 3)) "GET"
                    ("/verify/bulk/" ++ "job_123" ++ "/results?status="
                       ++ urlencode "valid&limit=1")%string None
            :: more.
Proof.
  apply (status_filter_is_escaped unit (always unauthorized) (sample_client (Int 3))
           "job_123" "valid&limit=1" (fresh 0)).
  discriminate.
Defined.

Example escaped_status_filter :
  bulkResultsPath "job_123"
    (Some {| ro_limit := None; ro_offset := None; ro_status := Some "valid&limit=1" |})
  = "/verify/bulk/job_123/results?status=valid%26limit%3D1".
Proof. reflexivity. Qed.

(** ** Retries that end in another error *)

(** X18.  Retries stop at the first reply that is not retried: when the
    first [k] replies have a retryable status, [k] being below [retries],
    and the next one has a status outside 200-299 that is not retried, none
    of them with the JSON value [null] for its body, the request throws the
    error of that last status after [k + 1] calls and [k] sleeps. *)
Theorem retries_end_at_the_first_other_error :
  forall (T : Type) (server : Server T) (this : EmailVerify)
         (method path : string) (body : option Json) (t0 N : Z) (k : nat)
         (response : Response T),
    retries this = Int N ->
    Z.of_nat k < N ->
    (forall j, (j < k)%nat ->
       exists r, outcome (server j (call_of this method path body)) = Returned r
                 /\ retryable (status r)
                 /\ json_error r <> JsonNull) ->
    outcome (server k (call_of this method path body)) = Returned response ->
    json_error response <> JsonNull ->
    ~ (200 <= status response <= 299) ->
    ~ retryable (status response) ->
    exists e w',
      request server this method path body 1 (fresh t0) = Some (Raised (OfTaxonomy e), w')
      /\ statusCode e = status response
      /\ message e = message_of response
      /\ calls w' = repeat (call_of this method path body) (S k)
      /\ List.length (sleeps w') = k.
Proof.
  intros T server this method path body t0 N k response HN Hk Hretry Hout Hbody Hs Hno.
  set (c := call_of this method path body) in *.
  assert (Hok : ok response = false).
  { unfold ok. apply andb_false_iff.
    destruct (Z.le_gt_cases 200 (status response)) as [Hlo|Hlo].
    - right. apply Z.leb_gt. lia.
    - left. apply Z.leb_gt. lia. }
  assert (Hgen : forall (n : nat) (attempt : Z) (w : World),
             attempt + Z.of_nat n <= N ->
             (forall j, (j < n)%nat ->
                exists r, outcome (server (List.length (calls w) + j)%nat c) = Returned r
                          /\ retryable (status r)
                          /\ json_error r <> JsonNull) ->
             outcome (server (List.length (calls w) + n)%nat c) = Returned response ->
             exists e w',
               request server this method path body attempt w
               = Some (Raised (OfTaxonomy e), w')
               /\ statusCode e = status response
               /\ message e = message_of response
               /\ calls w' = calls w ++ repeat c (S n)
               /\ List.length (sleeps w') = (List.length (sleeps w) + n)%nat).
  { induction n as [|n IH]; intros attempt w Hle Hfirst Hlast.
    - rewrite Nat.add_0_r in Hlast.
      destruct (handleErrorResponse_throws server this response attempt method path body
                  (after_call server c w) Hbody (or_introl Hno))
        as (e & Hh & Hcode & _ & Hmsg & _).
      exists e. eexists. split; [eapply request_rethrows; eassumption|].
      split; [exact Hcode|]. split; [exact Hmsg|]. split; [reflexivity|].
      cbn [after_call sleeps]. lia.
    - destruct (Hfirst O ltac:(lia)) as (r & Hr & Hst & Hrbody).
      rewrite Nat.add_0_r in Hr.
      assert (Hlt : js_lt (Int attempt) (retries this) = true).
      { rewrite HN. cbn. apply Z.ltb_lt. lia. }
      set (ms := if status r =? 429 then
                   mul_number (or_number (retryAfter_of r) (Int (2 ^ attempt))) (Int 1000)
                 else Int (2 ^ attempt * 1000)).
      destruct (IH (attempt + 1) (after_sleep ms (after_call server c w)))
        as (e & w' & Hreq & Hcode & Hmsg & Hcalls & Hsleeps).
      + lia.
      + intros j Hj. cbn [after_sleep after_call calls]. rewrite length_app. cbn [List.length].
        replace (List.length (calls w) + 1 + j)%nat with (List.length (calls w) + S j)%nat
          by lia.
        apply Hfirst. lia.
      + cbn [after_sleep after_call calls]. rewrite length_app. cbn [List.length].
        replace (List.length (calls w) + 1 + n)%nat with (List.length (calls w) + S n)%nat
          by lia.
        exact Hlast.
      + exists e, w'. split.
        * eapply request_rethrows; [exact Hr|apply retryable_not_ok; exact Hst|].
          rewrite (handleErrorResponse_retries server this r attempt method path body
                     _ Hrbody Hst Hlt). exact Hreq.
        * split; [exact Hcode|]. split; [exact Hmsg|]. split.
          -- rewrite Hcalls. cbn [after_sleep after_call calls].
             rewrite <- app_assoc. reflexivity.
          -- rewrite Hsleeps. cbn [after_sleep after_call sleeps].
             rewrite length_app. cbn. lia. }
  destruct (Hgen k 1 (fresh t0)) as (e & w' & Hreq & Hcode & Hmsg & Hcalls & Hsleeps).
  - lia.
  - intros j Hj. cbn [fresh calls List.length Nat.add]. apply Hretry. exact Hj.
  - cbn [fresh calls List.length Nat.add]. exact Hout.
  - exists e, w'. split; [exact Hreq|]. split; [exact Hcode|]. split; [exact Hmsg|].
    split; [exact Hcalls|exact Hsleeps].
Qed.

Lemma retries_end_at_the_first_other_error_witness :
  exists e w',
    request unavailable_then_unauthorized (sample_client (Int 3)) "POST" "/verify" None 1
      (fresh 0)
    = Some (Raised (OfTaxonomy e), w')
    /\ statusCode e = 401
    /\ message e = "Invalid API key"
    /\ calls w' = repeat (call_of (sample_client (Int 3)) "POST" "/verify" None) 2
    /\ List.length (sleeps w') = 1%nat.
Proof.
  apply (retries_end_at_the_first_other_error unit unavailable_then_unauthorized
           (sample_client (Int 3)) "POST" "/verify" None 0 3 1 unauthorized).
  - reflexivity.
  - lia.
  - intros j Hj. assert (j = O) as -> by lia. exists unavailable.
    split; [reflexivity|]. split; [unfold retryable; cbn; tauto|discriminate].
  - reflexivity.
  - discriminate.
  - cbn. lia.
  - unfold retryable. cbn. lia.
Defined.
